(** * Gritto server: capacity, conflict and session reconciliation

    A shallow embedding of the goal-planning backend
    ([backend/src/index.ts], [services/contextService.ts],
    [services/agentService.ts] and the repositories) and the properties
    of its capacity ledger, task-conflict checker, context snapshot,
    finalization committer and message handler.

    Conventions of the embedding.
    - A JavaScript [number] is an IEEE 754 double: the kernel's binary64
      [float], with its own addition, subtraction and comparisons, its
      infinities and its [nan].
    - [undefined] is the absence of a value ([None]); [null] inside JSON
      is [VNull].
    - A Firestore collection is the list of its documents in the order a
      query returns them; every write is kept when a later step throws
      (the code uses no transaction), so a handler is a function from a
      [World] to an [outcome] and the [World] it leaves behind.
    - The weekly hours of a goal are stored under [hoursPerWeek]
      ([goalRepository.ts], [types/models.ts]); [index.ts] reads and
      passes a property [minHoursPerWeek], which no goal record and no
      repository input has.  Both names are kept apart here, as they are
      in the code. *)

From Stdlib Require Import String Ascii List ZArith Bool Lia.
From Stdlib Require Import PrimFloat SpecFloat FloatOps FloatAxioms.
From Stdlib Require Import Permutation Sorted DecimalString OrderedTypeEx.
Import ListNotations.

Local Open Scope string_scope.

(** ** JavaScript values *)

#[warnings="-register-all"]
Inductive value : Type :=
| VNull
| VBool (b : bool)
| VNum (n : float)
| VStr (s : string)
| VArr (items : list value)
| VObj (fields : list (string * value)).

Definition obj := list (string * value).

Fixpoint lookupField (fields : obj) (name : string) : option value :=
  match fields with
  | [] => None
  | (k, v) :: rest => if String.eqb k name then Some v else lookupField rest name
  end.

(** [container[field]] for the field names the code reads: only an object
    has them (an array, a string or a number answers [undefined]). *)
Definition getField (v : value) (name : string) : option value :=
  match v with
  | VObj fields => lookupField fields name
  | _ => None
  end.

(** [{ ...o, name: v }] *)
Fixpoint setField (fields : obj) (name : string) (v : value) : obj :=
  match fields with
  | [] => [(name, v)]
  | (k, old) :: rest =>
      if String.eqb k name then (k, v) :: rest else (k, old) :: setField rest name v
  end.

(** [a ?? b] on a possibly absent JSON value: [null] and [undefined] are
    nullish. *)
Definition nullish (v : option value) : bool :=
  match v with
  | None | Some VNull => true
  | _ => false
  end.

Definition orElse (a b : option value) : option value :=
  if nullish a then b else a.

(** [asRecord]: truthy and [typeof value === 'object'] (objects and arrays). *)
Definition asRecord (v : option value) : option value :=
  match v with
  | Some (VObj f) => Some (VObj f)
  | Some (VArr l) => Some (VArr l)
  | _ => None
  end.

(** [readStringField] *)
Definition readStringField (container : option value) (field : string) : option string :=
  match container with
  | None => None
  | Some c =>
      match getField c field with
      | Some (VStr s) => Some s
      | _ => None
      end
  end.

(** [typeof v === 'string'] *)
Definition asString (v : option value) : option string :=
  match v with
  | Some (VStr s) => Some s
  | _ => None
  end.

(** [typeof v === 'number' && Number.isFinite(v)] *)
Definition asFiniteNumber (v : option value) : option float :=
  match v with
  | Some (VNum n) => if PrimFloat.is_finite n then Some n else None
  | _ => None
  end.

(** [Array.isArray(v) ? v : []] *)
Definition arrayOrEmpty (v : option value) : list value :=
  match v with
  | Some (VArr l) => l
  | _ => []
  end.

(** JavaScript truthiness of a possibly absent JSON value. *)
Definition truthy (v : option value) : bool :=
  match v with
  | None | Some VNull => false
  | Some (VBool b) => b
  | Some (VNum n) => negb (PrimFloat.eqb n 0 || PrimFloat.is_nan n)
  | Some (VStr s) => negb (String.eqb s "")
  | Some (VArr _) | Some (VObj _) => true
  end.

(** ** Numbers *)

(** [a > b] and [a >= b]: false when either side is [NaN]. *)
Definition js_gt (a b : float) : bool := PrimFloat.ltb b a.
Definition js_ge (a b : float) : bool := PrimFloat.leb b a.

(** [a + b] for a [b] that may be [undefined], which converts to [NaN]. *)
Definition js_add (a : float) (b : option float) : float :=
  match b with
  | Some x => PrimFloat.add a x
  | None => nan
  end.

(** [Math.max(a, b)]: [NaN] when either is, and [+0] above [-0]. *)
Definition Math_max (a b : float) : float :=
  if PrimFloat.ltb a b then b
  else if PrimFloat.ltb b a then a
  else if PrimFloat.is_nan a then a
  else if PrimFloat.is_nan b then b
  else if PrimFloat.get_sign a then b else a.

(** The magnitude of a finite double [m * 2^e], toward zero. *)
Definition magnitude (m : positive) (e : Z) : Z :=
  if (0 <=? e)%Z then Z.shiftl (Zpos m) e else Z.shiftr (Zpos m) (- e).

(** [Math.trunc] of a finite number, as the integer it is. *)
Definition Math_trunc (x : float) : Z :=
  match Prim2SF x with
  | S754_finite s m e => if s then (- magnitude m e)%Z else magnitude m e
  | _ => 0%Z
  end.

(** [Number.isInteger] *)
Definition isInteger (x : float) : bool :=
  match Prim2SF x with
  | S754_zero _ => true
  | S754_finite _ m e => (0 <=? e)%Z || Z.eqb (Z.land (Zpos m) (Z.ones (- e))) 0
  | _ => false
  end.

(** ** Records of [types/models.ts] *)

Inductive GoalStatus := active | completed | archived | paused.
Inductive MilestoneStatus := blocked | in_progress | finished.
Inductive Sender := user | agent.

Definition GoalStatus_eqb (a b : GoalStatus) : bool :=
  match a, b with
  | active, active | completed, completed | archived, archived | paused, paused => true
  | _, _ => false
  end.

Definition MilestoneStatus_eqb (a b : MilestoneStatus) : bool :=
  match a, b with
  | blocked, blocked | in_progress, in_progress | finished, finished => true
  | _, _ => false
  end.

Record UserRecord := {
  user_id : string;
  user_email : string;
  user_name : string;
  user_timezone : string;
  availableHoursPerWeek : float
}.

Record GoalRecord := {
  goal_id : string;
  goal_userId : string;
  goal_title : string;
  goal_description : option string;
  goal_status : GoalStatus;
  goal_color : option float;
  hoursPerWeek : float;
  goal_priority : Z;
  goal_createdAt : string;
  goal_updatedAt : string
}.

(** What [serializeGoal] answers with; [minHoursPerWeek] is [undefined]
    when the value the code puts there is. *)
Record SerializedGoal := {
  sg_id : string;
  sg_userId : string;
  sg_title : string;
  sg_description : option string;
  sg_status : GoalStatus;
  sg_color : option float;
  sg_minHoursPerWeek : option float;
  sg_priority : Z;
  sg_createdAt : string;
  sg_updatedAt : string
}.

Record MilestoneRecord := {
  ms_id : string;
  ms_goalId : string;
  ms_parentMilestoneId : option string;
  ms_title : string;
  ms_description : option string;
  ms_status : MilestoneStatus;
  ms_createdAt : string;
  ms_updatedAt : string
}.

Record TaskRecord := {
  task_id : string;
  task_goalId : string;
  task_milestoneId : string;
  task_userId : string;
  task_title : string;
  task_description : option string;
  task_date : string;
  task_estimatedHours : float;
  task_done : bool;
  task_createdAt : string;
  task_updatedAt : string
}.

Record SessionStateRecord := {
  session_id : string;
  session_userId : string;
  session_chatId : string;
  session_state : string;
  session_iteration : float;
  session_goalPreviewId : option string;
  sessionActive : bool;
  session_context : value;
  session_createdAt : string;
  session_updatedAt : string
}.

Record ChatMessageRecord := {
  chat_sessionId : string;
  chat_chatId : string;
  chat_sender : Sender;
  chat_message : string;
  chat_createdAt : string
}.

Record GoalPreviewRecord := {
  preview_id : string;
  preview_userId : string;
  preview_sessionId : string;
  preview_data : value
}.

Record AgentAction := {
  action_type : string;
  action_payload : option obj
}.

Record AgentState := {
  as_state : option string;
  as_iteration : option float;
  as_sessionActive : option bool;
  as_goalPreviewId : option string
}.

(** [AgentServiceResponse], with the optionality the handler's [?.] and
    [??] allow for. *)
Record AgentServiceResponse := {
  reply : string;
  action : option AgentAction;
  state : option AgentState;
  context : option value
}.

(** [services/agentService.ts] *)
Inductive AgentMessagePart :=
| PartText (text : string)
| PartFunctionCall (name : string) (args : obj).

Record AgentInvocationPayload := {
  app_name : string;
  payload_user_id : string;
  payload_session_id : string;
  parts : list AgentMessagePart
}.

(** ** Errors *)

(** An entry of [conflictingGoals]; [weeklyHours] is [undefined] when
    the value the code puts there is. *)
Record GoalSummary := {
  gs_goalId : string;
  gs_title : string;
  gs_weeklyHours : option float
}.

Inductive Details :=
| NoDetails
| ConflictingTaskIds (conflictingTaskIds : list string)
| CapacityDetails (available required : float) (conflictingGoals : list GoalSummary).

(** What a handler throws: an [ApiError], a [TypeError] of the language,
    or the error with which the Firestore client refuses a document that
    holds [undefined] in the named field ([firebase.ts] does not set
    [ignoreUndefinedProperties]).  The last two are answered with
    status 500. *)
Inductive Thrown :=
| ApiError (status : Z) (message : string) (details : Details)
| TypeError
| FirestoreError (field : string).

Inductive outcome (A : Type) :=
| Ok (a : A)
| Throw (e : Thrown).
Arguments Ok {A} a.
Arguments Throw {A} e.

(** ** The world: the record store and the log of ordered calls

    Besides the collections, the world carries a log of the calls whose
    order the properties speak about: session lookups and updates, chat
    appends and the two calls to the reasoning engine.  The program never
    reads the log. *)

Inductive Event :=
| EvFindSession (sessionId : string)
| EvAppendChat (m : ChatMessageRecord)
| EvInitRemote (userId sessionId : string)
| EvRunAgent (p : AgentInvocationPayload)
| EvUpdateSession (sessionId : string).

Record World := {
  users : list UserRecord;
  goals : list GoalRecord;
  milestones : list MilestoneRecord;
  tasks : list TaskRecord;
  sessions : list SessionStateRecord;
  previews : list GoalPreviewRecord;
  chats : list ChatMessageRecord;
  nextId : nat;
  trace : list Event
}.

Definition M (A : Type) : Type := World -> outcome A * World.

Definition ret {A} (a : A) : M A := fun w => (Ok a, w).
Definition throw {A} (e : Thrown) : M A := fun w => (Throw e, w).
Definition bind {A B} (m : M A) (f : A -> M B) : M B :=
  fun w =>
    match m w with
    | (Ok a, w') => f a w'
    | (Throw e, w') => (Throw e, w')
    end.
Definition gets {A} (f : World -> A) : M A := fun w => (Ok (f w), w).
Definition modify (f : World -> World) : M unit := fun w => (Ok tt, f w).

Declare Scope js_scope.
Delimit Scope js_scope with js.
Notation "x <- m ;; k" := (bind m (fun x => k))
  (at level 61, m at next level, right associativity) : js_scope.
Notation "m ;; k" := (bind m (fun _ => k))
  (at level 61, right associativity) : js_scope.
Local Open Scope js_scope.

(** [assert(condition, status, message)] of [errors.ts]. *)
Definition assert (condition : bool) (status : Z) (message : string) : M unit :=
  if condition then ret tt else throw (ApiError status message NoDetails).

Definition setGoals (gs : list GoalRecord) (w : World) : World :=
  {| users := users w; goals := gs; milestones := milestones w;
     tasks := tasks w; sessions := sessions w; previews := previews w;
     chats := chats w; nextId := nextId w; trace := trace w |}.

Definition setMilestones (ms : list MilestoneRecord) (w : World) : World :=
  {| users := users w; goals := goals w; milestones := ms;
     tasks := tasks w; sessions := sessions w; previews := previews w;
     chats := chats w; nextId := nextId w; trace := trace w |}.

Definition setTasks (ts : list TaskRecord) (w : World) : World :=
  {| users := users w; goals := goals w; milestones := milestones w;
     tasks := ts; sessions := sessions w; previews := previews w;
     chats := chats w; nextId := nextId w; trace := trace w |}.

Definition setSessions (ss : list SessionStateRecord) (w : World) : World :=
  {| users := users w; goals := goals w; milestones := milestones w;
     tasks := tasks w; sessions := ss; previews := previews w;
     chats := chats w; nextId := nextId w; trace := trace w |}.

Definition setPreviews (ps : list GoalPreviewRecord) (w : World) : World :=
  {| users := users w; goals := goals w; milestones := milestones w;
     tasks := tasks w; sessions := sessions w; previews := ps;
     chats := chats w; nextId := nextId w; trace := trace w |}.

Definition setChats (cs : list ChatMessageRecord) (w : World) : World :=
  {| users := users w; goals := goals w; milestones := milestones w;
     tasks := tasks w; sessions := sessions w; previews := previews w;
     chats := cs; nextId := nextId w; trace := trace w |}.

Definition setNextId (n : nat) (w : World) : World :=
  {| users := users w; goals := goals w; milestones := milestones w;
     tasks := tasks w; sessions := sessions w; previews := previews w;
     chats := chats w; nextId := n; trace := trace w |}.

Definition setTrace (t : list Event) (w : World) : World :=
  {| users := users w; goals := goals w; milestones := milestones w;
     tasks := tasks w; sessions := sessions w; previews := previews w;
     chats := chats w; nextId := nextId w; trace := t |}.

Definition logEvent (e : Event) : M unit :=
  modify (fun w => setTrace (trace w ++ [e]) w).

(** ** The runtime the code runs on

    What the program takes from JavaScript, its environment and the
    network: string primitives, the clock, Firestore's generated document
    ids, and the HTTP exchange with the reasoning engine. *)

Record HttpResponse := {
  http_status : Z;
  http_text : string;
  (** [(await response.json())[2].actions.stateDelta.final_response];
      [None] when that access fails or yields no response object. *)
  http_final_response : option AgentServiceResponse
}.

Record Runtime := {
  (** [String.prototype.trim] *)
  trim : string -> string;
  (** [a.localeCompare(b)] *)
  localeCompare : string -> string -> Z;
  (** [new Date(value)]: [None] when the date is invalid, otherwise its
      [toISOString()]. *)
  parseDate : string -> option string;
  (** [new Date().toISOString()] *)
  nowIso : string;
  (** a number inside a template literal *)
  showNumber : float -> string;
  (** the id of the document reference [collection.doc()] creates for
      the n-th document the store receives *)
  autoId : nat -> string;
  (** [process.env.AGENT_APP_URL ?? process.env.AGENT_SERVICE_URL] *)
  agentServiceUrl : option string;
  (** [process.env.AGENT_APP_NAME] *)
  agentAppName : option string;
  (** [fetch] of the bootstrap call; [None] when [fetch] rejects *)
  fetchInit : string -> string -> option HttpResponse;
  (** [fetch] of the run call *)
  fetchRun : AgentInvocationPayload -> option HttpResponse
}.

(** ** [Array.prototype.sort]

    [sort(compareFn)] is stable; for a consistent comparator its result
    is the one stable insertion computes: an element goes before the
    first later element it does not compare greater than. *)

Fixpoint insertBy {A : Type} (cmp : A -> A -> Z) (x : A) (l : list A) : list A :=
  match l with
  | [] => [x]
  | y :: ys => if (cmp x y <=? 0)%Z then x :: y :: ys else y :: insertBy cmp x ys
  end.

Definition sortBy {A : Type} (cmp : A -> A -> Z) (l : list A) : list A :=
  fold_right (insertBy cmp) [] l.

Definition optEqb (a : option string) (b : string) : bool :=
  match a with
  | Some s => String.eqb s b
  | None => false
  end.

(** [s.slice(0, 10)] *)
Definition slice10 (s : string) : string := substring 0 10 s.

Section Server.

Variable rt : Runtime.

(** [typeof v === 'string' && v.trim().length > 0] *)
Definition nonBlankString (v : option value) : option string :=
  match v with
  | Some (VStr s) => if String.eqb (trim rt s) "" then None else Some s
  | _ => None
  end.

(** ** [repositories/goalRepository.ts] *)

Definition getGoalById (goalId : string) : M (option GoalRecord) :=
  gets (fun w => find (fun g => String.eqb (goal_id g) goalId) (goals w)).

(** The object a caller passes to [createGoal]: the properties of
    [CreateGoalInput], of which [hoursPerWeek] may be missing, and the
    property [minHoursPerWeek] that the object literals of [index.ts]
    carry in its place. *)
Record CreateGoalInput := {
  cg_userId : string;
  cg_title : string;
  cg_description : option string;
  cg_hoursPerWeek : option float;
  cg_minHoursPerWeek : option float;
  cg_priority : Z;
  cg_color : option float
}.

(** [createGoal]: the record takes [input.hoursPerWeek]; when that is
    [undefined], [docRef.set] refuses the document and nothing is
    written. *)
Definition createGoal (input : CreateGoalInput) : M GoalRecord :=
  fun w =>
    match cg_hoursPerWeek input with
    | None => (Throw (FirestoreError "hoursPerWeek"), w)
    | Some hours =>
        let record :=
          {| goal_id := autoId rt (nextId w);
             goal_userId := cg_userId input;
             goal_title := cg_title input;
             goal_description := cg_description input;
             goal_status := active;
             goal_color := cg_color input;
             hoursPerWeek := hours;
             goal_priority := cg_priority input;
             goal_createdAt := nowIso rt;
             goal_updatedAt := nowIso rt |} in
        (Ok record, setGoals (goals w ++ [record]) (setNextId (S (nextId w)) w))
    end.

(** [listGoals({ userId, status })]; [None] is the filter ['all']. *)
Definition listGoals (userId : string) (status : option GoalStatus) : M (list GoalRecord) :=
  gets (fun w =>
    let owned := filter (fun g => String.eqb (goal_userId g) userId) (goals w) in
    let selected :=
      match status with
      | Some s => filter (fun g => GoalStatus_eqb (goal_status g) s) owned
      | None => owned
      end in
    sortBy (fun a b => (goal_priority a - goal_priority b)%Z) selected).

Definition sumActiveGoalHours (userId : string) (excludeGoalId : option string)
    : M float :=
  gets (fun w =>
    let docs :=
      filter (fun g => String.eqb (goal_userId g) userId && GoalStatus_eqb (goal_status g) active)
             (goals w) in
    fold_left (fun total g => PrimFloat.add total (hoursPerWeek g))
              (filter (fun g => negb (optEqb excludeGoalId (goal_id g))) docs)
              0%float).

(** ** [repositories/milestoneRepository.ts] *)

Definition getMilestoneById (id : string) : M (option MilestoneRecord) :=
  gets (fun w => find (fun m => String.eqb (ms_id m) id) (milestones w)).

Definition createMilestone (goalId title : string) (description parent : option string)
    : M MilestoneRecord :=
  fun w =>
    let record :=
      {| ms_id := autoId rt (nextId w);
         ms_goalId := goalId;
         ms_parentMilestoneId := parent;
         ms_title := title;
         ms_description := description;
         ms_status := blocked;
         ms_createdAt := nowIso rt;
         ms_updatedAt := nowIso rt |} in
    (Ok record, setMilestones (milestones w ++ [record]) (setNextId (S (nextId w)) w)).

Record UpdateMilestoneInput := {
  um_title : option string;
  um_description : option (option string);
  um_status : option MilestoneStatus
}.

Definition applyMilestoneUpdate (u : UpdateMilestoneInput) (m : MilestoneRecord) : MilestoneRecord :=
  {| ms_id := ms_id m;
     ms_goalId := ms_goalId m;
     ms_parentMilestoneId := ms_parentMilestoneId m;
     ms_title := match um_title u with Some t => t | None => ms_title m end;
     ms_description := match um_description u with Some d => d | None => ms_description m end;
     ms_status := match um_status u with Some s => s | None => ms_status m end;
     ms_createdAt := ms_createdAt m;
     ms_updatedAt := nowIso rt |}.

Definition updateMilestone (id : string) (u : UpdateMilestoneInput) : M MilestoneRecord :=
  fun w =>
    match find (fun m => String.eqb (ms_id m) id) (milestones w) with
    | None => (Throw (ApiError 404 "Milestone not found." NoDetails), w)
    | Some m =>
        (Ok (applyMilestoneUpdate u m),
         setMilestones
           (map (fun x => if String.eqb (ms_id x) id then applyMilestoneUpdate u x else x)
                (milestones w)) w)
    end.

(** ** [repositories/taskRepository.ts] *)

Definition createTask (goalId milestoneId userId title : string)
    (description : option string) (date : string) (estimatedHours : float) : M TaskRecord :=
  fun w =>
    let record :=
      {| task_id := autoId rt (nextId w);
         task_goalId := goalId;
         task_milestoneId := milestoneId;
         task_userId := userId;
         task_title := title;
         task_description := description;
         task_date := date;
         task_estimatedHours := estimatedHours;
         task_done := false;
         task_createdAt := nowIso rt;
         task_updatedAt := nowIso rt |} in
    (Ok record, setTasks (tasks w ++ [record]) (setNextId (S (nextId w)) w)).

Definition getTaskById (id : string) : M (option TaskRecord) :=
  gets (fun w => find (fun t => String.eqb (task_id t) id) (tasks w)).

Record UpdateTaskInput := {
  ut_title : option string;
  ut_description : option (option string);
  ut_date : option string;
  ut_estimatedHours : option float;
  ut_done : option bool
}.

Definition noTaskUpdate : UpdateTaskInput :=
  {| ut_title := None; ut_description := None; ut_date := None;
     ut_estimatedHours := None; ut_done := None |}.

Definition applyTaskUpdate (u : UpdateTaskInput) (t : TaskRecord) : TaskRecord :=
  {| task_id := task_id t;
     task_goalId := task_goalId t;
     task_milestoneId := task_milestoneId t;
     task_userId := task_userId t;
     task_title := match ut_title u with Some x => x | None => task_title t end;
     task_description := match ut_description u with Some x => x | None => task_description t end;
     task_date := match ut_date u with Some x => x | None => task_date t end;
     task_estimatedHours :=
       match ut_estimatedHours u with Some x => x | None => task_estimatedHours t end;
     task_done := match ut_done u with Some x => x | None => task_done t end;
     task_createdAt := task_createdAt t;
     task_updatedAt := nowIso rt |}.

Definition updateTask (id : string) (u : UpdateTaskInput) : M TaskRecord :=
  fun w =>
    match find (fun t => String.eqb (task_id t) id) (tasks w) with
    | None => (Throw (ApiError 404 "Task not found." NoDetails), w)
    | Some t =>
        (Ok (applyTaskUpdate u t),
         setTasks
           (map (fun x => if String.eqb (task_id x) id then applyTaskUpdate u x else x)
                (tasks w)) w)
    end.

Definition setTaskDone (id : string) (done : bool) : M TaskRecord :=
  updateTask id
    {| ut_title := None; ut_description := None; ut_date := None;
       ut_estimatedHours := None; ut_done := Some done |}.

Definition listTasksByMilestone (milestoneId : string) : M (list TaskRecord) :=
  gets (fun w => filter (fun t => String.eqb (task_milestoneId t) milestoneId) (tasks w)).

Definition listIncompleteTasksByUser (userId : string) : M (list TaskRecord) :=
  gets (fun w =>
    sortBy (fun a b => localeCompare rt (task_date a) (task_date b))
      (filter (fun t => String.eqb (task_userId t) userId && Bool.eqb (task_done t) false)
              (tasks w))).

(** ** Repositories whose source is not part of the sources at hand *)

(** Modelled from the spec: [findUserById] of [repositories/userRepository.ts]
    is missing; the record store's get-by-id on the user collection. *)
Definition findUserById (userId : string) : M (option UserRecord) :=
  gets (fun w => find (fun u => String.eqb (user_id u) userId) (users w)).

(** Modelled from the spec: [findSessionById] of
    [repositories/sessionRepository.ts] is missing; get-by-id on the
    session collection. *)
Definition findSessionById (sessionId : string) : M (option SessionStateRecord) :=
  logEvent (EvFindSession sessionId) ;;
  gets (fun w => find (fun s => String.eqb (session_id s) sessionId) (sessions w)).

Record UpdateSessionInput := {
  us_state : string;
  us_iteration : float;
  us_goalPreviewId : option string;
  us_sessionActive : bool;
  us_context : value
}.

Definition applySessionUpdate (u : UpdateSessionInput) (s : SessionStateRecord)
    : SessionStateRecord :=
  {| session_id := session_id s;
     session_userId := session_userId s;
     session_chatId := session_chatId s;
     session_state := us_state u;
     session_iteration := us_iteration u;
     session_goalPreviewId := us_goalPreviewId u;
     sessionActive := us_sessionActive u;
     session_context := us_context u;
     session_createdAt := session_createdAt s;
     session_updatedAt := nowIso rt |}.

(** Modelled from the spec: [updateSession] of
    [repositories/sessionRepository.ts] is missing; a partial-field update
    of the document with that id, stamping [updatedAt], which fails like
    its sibling repositories when the document is absent. *)
Definition updateSession (id : string) (u : UpdateSessionInput) : M SessionStateRecord :=
  logEvent (EvUpdateSession id) ;;
  fun w =>
    match find (fun s => String.eqb (session_id s) id) (sessions w) with
    | None => (Throw (ApiError 404 "Session not found." NoDetails), w)
    | Some s =>
        (Ok (applySessionUpdate u s),
         setSessions
           (map (fun x => if String.eqb (session_id x) id then applySessionUpdate u x else x)
                (sessions w)) w)
    end.

(** Modelled from the spec: [appendChatMessage] of
    [repositories/sessionRepository.ts] is missing; an append-only entry
    of sender, message and timestamp grouped by chat id. *)
Definition appendChatMessage (chatId sessionId : string) (sender : Sender) (message : string)
    : M unit :=
  let entry :=
    {| chat_sessionId := sessionId; chat_chatId := chatId; chat_sender := sender;
       chat_message := message; chat_createdAt := nowIso rt |} in
  logEvent (EvAppendChat entry) ;;
  modify (fun w => setChats (chats w ++ [entry]) w).

(** Modelled from the spec: [findGoalPreviewById] of
    [repositories/goalPreviewRepository.ts] is missing; get-by-id on the
    preview collection. *)
Definition findGoalPreviewById (id : string) : M (option GoalPreviewRecord) :=
  gets (fun w => find (fun p => String.eqb (preview_id p) id) (previews w)).

(** Modelled from the spec: [upsertGoalPreview] of
    [repositories/goalPreviewRepository.ts] is missing; the preview keeps
    its id when one is given (the stored document is overwritten, or
    inserted under that id), otherwise a new id is allocated. *)
Definition upsertGoalPreview (id : option string) (userId sessionId : string) (data : value)
    : M GoalPreviewRecord :=
  fun w =>
    match id with
    | Some i =>
        let record :=
          {| preview_id := i; preview_userId := userId;
             preview_sessionId := sessionId; preview_data := data |} in
        if existsb (fun p => String.eqb (preview_id p) i) (previews w)
        then (Ok record,
              setPreviews
                (map (fun p => if String.eqb (preview_id p) i then record else p) (previews w)) w)
        else (Ok record, setPreviews (previews w ++ [record]) w)
    | None =>
        let record :=
          {| preview_id := autoId rt (nextId w); preview_userId := userId;
             preview_sessionId := sessionId; preview_data := data |} in
        (Ok record, setPreviews (previews w ++ [record]) (setNextId (S (nextId w)) w))
    end.

(** ** [services/agentService.ts] *)

Definition getAgentServiceUrl : M string :=
  match agentServiceUrl rt with
  | Some url => if String.eqb url "" then
                  throw (ApiError 500 "Agent service URL not configured." NoDetails)
                else ret url
  | None => throw (ApiError 500 "Agent service URL not configured." NoDetails)
  end.

Definition unavailable : Thrown :=
  ApiError 503 "Agent service unavailable. Please try again later." NoDetails.

(** [response.ok] *)
Definition http_ok (r : HttpResponse) : bool :=
  (200 <=? http_status r)%Z && (http_status r <=? 299)%Z.

(** [postAgentJson], given what [fetch] produced. *)
Definition postAgentJson (fetched : option HttpResponse) (allowedErrorStatuses : list Z)
    : M HttpResponse :=
  match fetched with
  | None => throw unavailable
  | Some response =>
      if negb (http_ok response)
         && negb (existsb (Z.eqb (http_status response)) allowedErrorStatuses)
      then
        if (http_status response =? 503)%Z then throw unavailable
        else throw (ApiError (http_status response)
                      (if String.eqb (http_text response) "" then "Agent service error."
                       else http_text response)
                      NoDetails)
      else ret response
  end.

Definition initRemoteSession (userId sessionId : string) : M unit :=
  _ <- getAgentServiceUrl ;;
  logEvent (EvInitRemote userId sessionId) ;;
  _ <- postAgentJson (fetchInit rt userId sessionId) [409%Z] ;;
  ret tt.

Definition invokeAgentService (payload : AgentInvocationPayload) : M AgentServiceResponse :=
  _ <- getAgentServiceUrl ;;
  logEvent (EvRunAgent payload) ;;
  response <- postAgentJson (fetchRun rt payload) [] ;;
  match http_final_response response with
  | Some data => ret data
  | None => throw TypeError
  end.

(** ** [services/contextService.ts] *)

Record UpcomingTask := {
  up_id : string;
  up_title : string;
  up_goalId : string;
  up_milestoneId : string;
  up_date : string;
  up_estimatedHours : float;
  up_done : bool
}.

Record UserContextSnapshot := {
  availableHoursLeft : float;
  upcomingTasks : list UpcomingTask
}.

Definition projectTask (task : TaskRecord) : UpcomingTask :=
  {| up_id := task_id task;
     up_title := task_title task;
     up_goalId := task_goalId task;
     up_milestoneId := task_milestoneId task;
     up_date := task_date task;
     up_estimatedHours := task_estimatedHours task;
     up_done := task_done task |}.

Definition buildUserContext (u : UserRecord) : M UserContextSnapshot :=
  tasks <- listIncompleteTasksByUser (user_id u) ;;
  let upcoming :=
    sortBy (fun a b => localeCompare rt (up_date a) (up_date b)) (map projectTask tasks) in
  activeGoalHours <- sumActiveGoalHours (user_id u) None ;;
  let left := Math_max 0 (PrimFloat.sub (availableHoursPerWeek u) activeGoalHours) in
  ret {| availableHoursLeft := left; upcomingTasks := upcoming |}.

Definition upcomingTaskValue (t : UpcomingTask) : value :=
  VObj [("id", VStr (up_id t)); ("title", VStr (up_title t));
        ("goalId", VStr (up_goalId t)); ("milestoneId", VStr (up_milestoneId t));
        ("date", VStr (up_date t)); ("estimatedHours", VNum (up_estimatedHours t));
        ("done", VBool (up_done t))].

(** The snapshot as the plain object it is when stored or sent. *)
Definition snapshotValue (c : UserContextSnapshot) : value :=
  VObj [("availableHoursLeft", VNum (availableHoursLeft c));
        ("upcomingTasks", VArr (map upcomingTaskValue (upcomingTasks c)))].

(** [Object.keys(o).length > 0]: an object has its fields for keys, an
    array and a string their indices, other values none. *)
Definition hasKeys (v : value) : bool :=
  match v with
  | VObj (_ :: _) | VArr (_ :: _) => true
  | VStr s => negb (String.eqb s "")
  | _ => false
  end.

Definition buildAgentInvocationPayload (userId sessionId message : string)
    (goalPreview : option value) (hoursLeft : float) (upcoming : list UpcomingTask)
    : AgentInvocationPayload :=
  let appName := match agentAppName rt with Some n => n | None => "goal_planning_agent" end in
  let previewPart :=
    match goalPreview with
    | Some p => if truthy (Some p) && hasKeys p
                then [PartFunctionCall "goal_preview_context" [("goalPreview", p)]]
                else []
    | None => []
    end in
  let timePart :=
    [PartFunctionCall "time_context" [("availableHoursLeft", VNum hoursLeft)]] in
  let taskPart :=
    match upcoming with
    | [] => []
    | _ :: _ =>
        [PartFunctionCall "task_context"
           [("upcomingTasks", VArr (map upcomingTaskValue upcoming))]]
    end in
  {| app_name := appName;
     payload_user_id := userId;
     payload_session_id := sessionId;
     parts := PartText message :: previewPart ++ timePart ++ taskPart |}.

(** ** [index.ts]: helpers *)

(** [const userId = req.user?.userId; assert(userId, 401, 'Unauthorized')] *)
Definition requireUser (reqUser : option string) : M string :=
  match reqUser with
  | Some userId => if String.eqb userId "" then throw (ApiError 401 "Unauthorized" NoDetails)
                   else ret userId
  | None => throw (ApiError 401 "Unauthorized" NoDetails)
  end.

(** [req.body ?? {}] *)
Definition bodyOrEmpty (body : option value) : value :=
  match orElse body (Some (VObj [])) with
  | Some b => b
  | None => VObj []
  end.

Definition assertOwnedGoal (goalId userId : string) : M GoalRecord :=
  goal <- getGoalById goalId ;;
  match goal with
  | None => throw (ApiError 404 "Goal not found." NoDetails)
  | Some g =>
      assert (String.eqb (goal_userId g) userId) 403 "Forbidden." ;;
      ret g
  end.

Definition assertOwnedMilestone (milestoneId userId : string) : M MilestoneRecord :=
  milestone <- getMilestoneById milestoneId ;;
  match milestone with
  | None => throw (ApiError 404 "Milestone not found." NoDetails)
  | Some m =>
      _ <- assertOwnedGoal (ms_goalId m) userId ;;
      ret m
  end.

Definition assertOwnedTask (taskId userId : string) : M (TaskRecord * MilestoneRecord) :=
  task <- getTaskById taskId ;;
  match task with
  | None => throw (ApiError 404 "Task not found." NoDetails)
  | Some t =>
      milestone <- assertOwnedMilestone (task_milestoneId t) userId ;;
      ret (t, milestone)
  end.

(** [goal.minHoursPerWeek] as [index.ts] reads it off a goal record:
    neither [mapGoal] nor [createGoal] returns a property of that name,
    so the read is [undefined]. *)
Definition goal_minHoursPerWeek (goal : GoalRecord) : option float := None.

(** [serializeGoal] *)
Definition serializeGoal (goal : GoalRecord) : SerializedGoal :=
  {| sg_id := goal_id goal;
     sg_userId := goal_userId goal;
     sg_title := goal_title goal;
     sg_description := goal_description goal;
     sg_status := goal_status goal;
     sg_color := goal_color goal;
     sg_minHoursPerWeek := goal_minHoursPerWeek goal;
     sg_priority := goal_priority goal;
     sg_createdAt := goal_createdAt goal;
     sg_updatedAt := goal_updatedAt goal |}.

Definition summarizeGoal (goal : GoalRecord) : GoalSummary :=
  {| gs_goalId := goal_id goal; gs_title := goal_title goal;
     gs_weeklyHours := goal_minHoursPerWeek goal |}.

Definition collectActiveGoalSummaries (userId : string) (excludeGoalId : option string)
    : M (list GoalSummary) :=
  goals <- listGoals userId (Some active) ;;
  ret (map summarizeGoal
         (filter (fun goal => negb (optEqb excludeGoalId (goal_id goal))) goals)).

Definition ensureNoTaskConflict (milestoneId userId date : string) (excludeTaskId : option string)
    : M unit :=
  tasks <- listTasksByMilestone milestoneId ;;
  let conflicting :=
    filter (fun task => negb (optEqb excludeTaskId (task_id task))
                        && String.eqb (task_userId task) userId
                        && String.eqb (task_date task) date) tasks in
  match conflicting with
  | _ :: _ =>
      throw (ApiError 409
               "Task date conflicts with an existing scheduled task or calendar event."
               (ConflictingTaskIds (map task_id conflicting)))
  | [] => ret tt
  end.

Definition validateEstimatedHours (v : option value) : M float :=
  match asFiniteNumber v with
  | None => throw (ApiError 400 "estimatedHours must be a number." NoDetails)
  | Some h =>
      assert (js_ge h 0) 400 "estimatedHours must be zero or positive." ;;
      ret h
  end.

Definition validateIsoDate (v : option value) : M string :=
  match nonBlankString v with
  | None => throw (ApiError 400 "date is required." NoDetails)
  | Some s =>
      match parseDate rt s with
      | None => throw (ApiError 400 "Invalid date format." NoDetails)
      | Some iso => ret (slice10 iso)
      end
  end.

Definition extractPlanContainer (payload : obj) (preview : option GoalPreviewRecord) : value :=
  match asRecord (lookupField payload "goalPreview") with
  | Some container => container
  | None =>
      match asRecord (lookupField payload "plan") with
      | Some container => container
      | None =>
          match preview with
          | Some p => if nullish (Some (preview_data p)) then VObj payload else preview_data p
          | None => VObj payload
          end
      end
  end.

(** The hours one plan task contributes: a finite number clamped at zero,
    anything else zero. *)
Definition planTaskHours (task : value) : float :=
  match asFiniteNumber (getField task "estimatedHours") with
  | Some h => Math_max 0 h
  | None => 0
  end.

(** The inner [reduce] of [computePlanTaskHours]; reading [milestone.tasks]
    of a [null] array entry throws. *)
Definition milestonePlanHours (milestone : value) : option float :=
  match milestone with
  | VNull => None
  | _ => Some (fold_left (fun sum task => PrimFloat.add sum (planTaskHours task))
                 (arrayOrEmpty (getField milestone "tasks")) 0%float)
  end.

Fixpoint reducePlanHours (goalTotal : float) (milestones : list value) : option float :=
  match milestones with
  | [] => Some goalTotal
  | milestone :: rest =>
      match milestonePlanHours milestone with
      | Some taskHours => reducePlanHours (PrimFloat.add goalTotal taskHours) rest
      | None => None
      end
  end.

Definition computePlanTaskHours (milestones : list value) : option float :=
  reducePlanHours 0 milestones.

Definition coerceIsoDayString (v : option value) : string :=
  match nonBlankString v with
  | Some s =>
      match parseDate rt s with
      | Some iso => slice10 iso
      | None => slice10 (nowIso rt)
      end
  | None => slice10 (nowIso rt)
  end.

(** [typeof s === 'string' && isValidMilestoneStatus(s)] *)
Definition milestoneStatusOf (v : option value) : option MilestoneStatus :=
  match v with
  | Some (VStr s) =>
      if String.eqb s "blocked" then Some blocked
      else if String.eqb s "in_progress" then Some in_progress
      else if String.eqb s "finished" then Some finished
      else None
  | _ => None
  end.

Definition capacityMessage (available total : float) (suffix : string) : string :=
  "Available hours (" ++ showNumber rt available
    ++ "h/week) are insufficient for current active goals ("
    ++ showNumber rt total ++ suffix.

(** ** [index.ts]: the finalization committer *)

Record FinalizeResult := {
  fin_goal : GoalRecord;
  fin_milestoneIds : list string;
  fin_taskIds : list string;
  fin_goalPreviewId : option string
}.

(** The body of the inner [for (const taskPlan of tasks)] loop. *)
Definition createPlanTask (goalId milestoneId userId : string) (taskPlan : value) : M string :=
  let taskTitle :=
    match nonBlankString (getField taskPlan "title") with
    | Some s => trim rt s
    | None => "Task"
    end in
  let taskDescription := asString (getField taskPlan "description") in
  let estimatedHours := planTaskHours taskPlan in
  let date := coerceIsoDayString (getField taskPlan "date") in
  createdTask <- createTask goalId milestoneId userId taskTitle taskDescription date
                   estimatedHours ;;
  (if truthy (getField taskPlan "done")
   then _ <- setTaskDone (task_id createdTask) true ;; ret tt
   else ret tt) ;;
  ret (task_id createdTask).

Fixpoint createPlanTasks (goalId milestoneId userId : string) (plans : list value)
    (taskIds : list string) : M (list string) :=
  match plans with
  | [] => ret taskIds
  | taskPlan :: rest =>
      id <- createPlanTask goalId milestoneId userId taskPlan ;;
      createPlanTasks goalId milestoneId userId rest (taskIds ++ [id])
  end.

(** The body of the outer [for (const milestonePlan of milestonePlans)]
    loop; reading a property of a [null] entry throws. *)
Definition createPlanMilestone (goalId userId : string) (milestonePlan : value)
    (taskIds : list string) : M (string * list string) :=
  match milestonePlan with
  | VNull => throw TypeError
  | _ =>
      let milestoneTitle :=
        match nonBlankString (getField milestonePlan "title") with
        | Some s => trim rt s
        | None => "Milestone"
        end in
      let milestoneDescription := asString (getField milestonePlan "description") in
      milestone <- createMilestone goalId milestoneTitle milestoneDescription None ;;
      (match milestoneStatusOf (getField milestonePlan "status") with
       | Some s =>
           if negb (MilestoneStatus_eqb s (ms_status milestone))
           then _ <- updateMilestone (ms_id milestone)
                       {| um_title := None; um_description := None; um_status := Some s |} ;;
                ret tt
           else ret tt
       | None => ret tt
       end) ;;
      taskIds' <- createPlanTasks goalId (ms_id milestone) userId
                    (arrayOrEmpty (getField milestonePlan "tasks")) taskIds ;;
      ret (ms_id milestone, taskIds')
  end.

Fixpoint createPlanMilestones (goalId userId : string) (plans : list value)
    (milestoneIds taskIds : list string) : M (list string * list string) :=
  match plans with
  | [] => ret (milestoneIds, taskIds)
  | milestonePlan :: rest =>
      r <- createPlanMilestone goalId userId milestonePlan taskIds ;;
      createPlanMilestones goalId userId rest (milestoneIds ++ [fst r]) (snd r)
  end.

(** The goal-level fields finalization extracts from the payload, before
    any capacity check or write. *)
Record GoalFields := {
  gf_title : string;
  gf_description : option string;
  gf_planHours : float;
  gf_priority : Z;
  gf_color : option float
}.

Definition goalFieldsOf (goalPlan : value) (milestonePlans : list value) : option GoalFields :=
  let goalTitle :=
    match nonBlankString (getField goalPlan "title") with
    | Some s => trim rt s
    | None => "Untitled Goal"
    end in
  let description := asString (getField goalPlan "description") in
  let planHours :=
    match asFiniteNumber (getField goalPlan "minHoursPerWeek") with
    | Some h => Some (Math_max 0 h)
    | None => computePlanTaskHours milestonePlans
    end in
  let priority :=
    match asFiniteNumber (getField goalPlan "priority") with
    | Some p => Math_trunc p
    | None => 0%Z
    end in
  let color := asFiniteNumber (getField goalPlan "color") in
  match planHours with
  | Some h =>
      Some {| gf_title := goalTitle; gf_description := description; gf_planHours := h;
              gf_priority := priority; gf_color := color |}
  | None => None
  end.

(** [planContainer.goal ?? {}] *)
Definition goalPlanOf (planContainer : value) : value :=
  match orElse (getField planContainer "goal") (Some (VObj [])) with
  | Some g => g
  | None => VObj []
  end.

Definition milestonePlansOf (planContainer : value) : list value :=
  arrayOrEmpty (getField planContainer "milestones").

Definition previewIdOf (payload : obj) : option string :=
  match readStringField (Some (VObj payload)) "goalPreviewId" with
  | Some s => Some s
  | None => readStringField (asRecord (lookupField payload "goalPreview")) "id"
  end.

Definition finalizeGoalPlanFromAgentPayload (u : UserRecord) (payload : obj)
    : M FinalizeResult :=
  let previewId := previewIdOf payload in
  previewRecord <-
    (match previewId with
     | Some i => if String.eqb i "" then ret None else findGoalPreviewById i
     | None => ret None
     end) ;;
  let planContainer := extractPlanContainer payload previewRecord in
  let goalPlan := goalPlanOf planContainer in
  let milestonePlans := milestonePlansOf planContainer in
  match goalFieldsOf goalPlan milestonePlans with
  | None => throw TypeError
  | Some f =>
      existingActiveHours <- sumActiveGoalHours (user_id u) None ;;
      let totalRequiredHours := PrimFloat.add existingActiveHours (gf_planHours f) in
      if js_gt totalRequiredHours (availableHoursPerWeek u) then
        conflicts <- collectActiveGoalSummaries (user_id u) None ;;
        throw (ApiError 409
                 (capacityMessage (availableHoursPerWeek u) totalRequiredHours
                    "h/week with new goal).")
                 (CapacityDetails (availableHoursPerWeek u) totalRequiredHours
                    (conflicts ++ [{| gs_goalId := "pending"; gs_title := gf_title f;
                                      gs_weeklyHours := Some (gf_planHours f) |}])))
      else
        goal <- createGoal {| cg_userId := user_id u;
                              cg_title := gf_title f;
                              cg_description := gf_description f;
                              cg_hoursPerWeek := None;
                              cg_minHoursPerWeek := Some (gf_planHours f);
                              cg_priority := gf_priority f;
                              cg_color := gf_color f |} ;;
        ids <- createPlanMilestones (goal_id goal) (user_id u) milestonePlans [] [] ;;
        ret {| fin_goal := goal;
               fin_milestoneIds := fst ids;
               fin_taskIds := snd ids;
               fin_goalPreviewId :=
                 match previewRecord with
                 | Some p => Some (preview_id p)
                 | None => previewId
                 end |}
  end.

(** [extractPreviewPayload] *)
Definition extractPreviewPayload (payload : option obj) : option string * value :=
  let container := match payload with Some p => VObj p | None => VObj [] end in
  let nested :=
    match payload with
    | Some p => asRecord (lookupField p "goalPreview")
    | None => None
    end in
  let data := match nested with Some n => n | None => container end in
  let previewId :=
    match readStringField (option_map VObj payload) "goalPreviewId" with
    | Some s => Some s
    | None => readStringField (Some data) "id"
    end in
  (previewId, data).

(** ** [index.ts]: [POST /v1/goals] *)

Definition postGoals (reqUser : option string) (body : option value) : M GoalRecord :=
  userId <- requireUser reqUser ;;
  found <- findUserById userId ;;
  match found with
  | None => throw (ApiError 404 "User not found." NoDetails)
  | Some u =>
      let b := bodyOrEmpty body in
      match nonBlankString (getField b "title") with
      | None => throw (ApiError 400 "title is required." NoDetails)
      | Some title =>
          match asFiniteNumber (getField b "minHoursPerWeek") with
          | None => throw (ApiError 400 "minHoursPerWeek must be a non-negative number." NoDetails)
          | Some hours =>
              assert (js_ge hours 0) 400 "minHoursPerWeek must be a non-negative number." ;;
              match asFiniteNumber (getField b "priority") with
              | None => throw (ApiError 400 "priority must be an integer." NoDetails)
              | Some priority =>
                  assert (isInteger priority) 400 "priority must be an integer." ;;
                  assert (match getField b "color" with
                          | None => true
                          | Some c => match asFiniteNumber (Some c) with
                                      | Some _ => true
                                      | None => false
                                      end
                          end) 400 "color must be a number." ;;
                  existingHours <- sumActiveGoalHours userId None ;;
                  let totalHours := PrimFloat.add existingHours hours in
                  if js_gt totalHours (availableHoursPerWeek u) then
                    conflicts <- collectActiveGoalSummaries userId None ;;
                    throw (ApiError 409
                             (capacityMessage (availableHoursPerWeek u) totalHours
                                "h/week with new goal).")
                             (CapacityDetails (availableHoursPerWeek u) totalHours conflicts))
                  else
                    createGoal {| cg_userId := userId;
                                  cg_title := trim rt title;
                                  cg_description := asString (getField b "description");
                                  cg_hoursPerWeek := None;
                                  cg_minHoursPerWeek := Some hours;
                                  cg_priority := Math_trunc priority;
                                  cg_color := asFiniteNumber (getField b "color") |}
              end
          end
      end
  end.

(** ** [index.ts]: [POST /v1/milestones/:milestoneId/tasks] *)

(** [description === null || typeof description === 'string'] for a
    description that is present. *)
Definition validDescription (v : option value) : bool :=
  match v with
  | None | Some VNull | Some (VStr _) => true
  | _ => false
  end.

Definition postMilestoneTask (reqUser : option string) (milestoneId : string)
    (body : option value) : M TaskRecord :=
  userId <- requireUser reqUser ;;
  milestone <- assertOwnedMilestone milestoneId userId ;;
  let b := bodyOrEmpty body in
  match nonBlankString (getField b "title") with
  | None => throw (ApiError 400 "title is required." NoDetails)
  | Some title =>
      assert (validDescription (getField b "description")) 400
        "description must be a string or null." ;;
      taskDate <- validateIsoDate (getField b "date") ;;
      hours <- validateEstimatedHours (getField b "estimatedHours") ;;
      ensureNoTaskConflict (ms_id milestone) userId taskDate None ;;
      createTask (ms_goalId milestone) (ms_id milestone) userId (trim rt title)
        (asString (getField b "description")) taskDate hours
  end.

(** ** [index.ts]: [PATCH /v1/tasks/:taskId] *)

Definition patchTask (reqUser : option string) (taskId : string) (body : option value)
    : M TaskRecord :=
  userId <- requireUser reqUser ;;
  owned <- assertOwnedTask taskId userId ;;
  let task := fst owned in
  let milestone := snd owned in
  let b := bodyOrEmpty body in
  newTitle <-
    (match getField b "title" with
     | None => ret None
     | Some v =>
         match nonBlankString (Some v) with
         | Some s => ret (Some (trim rt s))
         | None => throw (ApiError 400 "Invalid title." NoDetails)
         end
     end) ;;
  newDescription <-
    (match getField b "description" with
     | None => ret None
     | Some v =>
         assert (validDescription (Some v)) 400 "description must be a string or null." ;;
         ret (Some (asString (Some v)))
     end) ;;
  newDate <-
    (match getField b "date" with
     | None => ret None
     | Some v =>
         d <- validateIsoDate (Some v) ;;
         ensureNoTaskConflict (ms_id milestone) userId d (Some (task_id task)) ;;
         ret (Some d)
     end) ;;
  newHours <-
    (match getField b "estimatedHours" with
     | None => ret None
     | Some v => h <- validateEstimatedHours (Some v) ;; ret (Some h)
     end) ;;
  newDone <-
    (match getField b "done" with
     | None => ret None
     | Some (VBool d) => ret (Some d)
     | Some _ => throw (ApiError 400 "done must be a boolean." NoDetails)
     end) ;;
  let updates :=
    {| ut_title := newTitle; ut_description := newDescription; ut_date := newDate;
       ut_estimatedHours := newHours; ut_done := newDone |} in
  let hasUpdate :=
    match newTitle, newDescription, newDate, newHours, newDone with
    | None, None, None, None, None => false
    | _, _, _, _, _ => true
    end in
  assert hasUpdate 400 "No updatable fields provided." ;;
  updateTask (task_id task) updates.

(** ** [index.ts]: [POST /v1/agent/goal/session:message] *)

Record Reconciled := {
  rc_goalPreviewId : option string;
  rc_sessionActive : bool;
  rc_action : option AgentAction;
  rc_context : value
}.

Record MessageResponse := {
  resp_sessionId : string;
  resp_reply : string;
  resp_action : AgentAction;
  resp_state : string;
  resp_iteration : float;
  resp_sessionActive : bool;
  resp_goalPreviewId : option string;
  resp_context : value
}.

Definition optStringValue (s : option string) : value :=
  match s with
  | Some x => VStr x
  | None => VNull
  end.

Definition payloadOrEmpty (p : option obj) : obj :=
  match p with
  | Some fields => fields
  | None => []
  end.

(** [agentResponse.state?.sessionActive ?? session.sessionActive] *)
Definition engineSessionActive (r : AgentServiceResponse) (session : SessionStateRecord) : bool :=
  match state r with
  | Some st => match as_sessionActive st with
               | Some b => b
               | None => sessionActive session
               end
  | None => sessionActive session
  end.

(** [agentResponse.context ?? contextSnapshot] *)
Definition engineContext (r : AgentServiceResponse) (snapshot : UserContextSnapshot) : value :=
  match context r with
  | Some c => if nullish (Some c) then snapshotValue snapshot else c
  | None => snapshotValue snapshot
  end.

(** The branch on [responseAction?.type], from the [let] declarations
    before it to the end of the [else if]. *)
Definition reconcileAction (u : UserRecord) (userId : string) (session : SessionStateRecord)
    (agentResponse : AgentServiceResponse) (contextSnapshot : UserContextSnapshot)
    : M Reconciled :=
  let goalPreviewId := session_goalPreviewId session in
  let active := engineSessionActive agentResponse session in
  let updatedContext := engineContext agentResponse contextSnapshot in
  let unchanged :=
    {| rc_goalPreviewId := goalPreviewId; rc_sessionActive := active;
       rc_action := action agentResponse; rc_context := updatedContext |} in
  match action agentResponse with
  | None => ret unchanged
  | Some responseAction =>
      let actionPayload := action_payload responseAction in
      if String.eqb (action_type responseAction) "save_preview" then
        let preview := extractPreviewPayload actionPayload in
        previewRecord <- upsertGoalPreview (fst preview) userId (session_id session)
                           (snd preview) ;;
        ret {| rc_goalPreviewId := Some (preview_id previewRecord);
               rc_sessionActive := active;
               rc_action :=
                 Some {| action_type := action_type responseAction;
                         action_payload :=
                           Some (setField (payloadOrEmpty actionPayload) "goalPreviewId"
                                   (VStr (preview_id previewRecord))) |};
               rc_context := updatedContext |}
      else if String.eqb (action_type responseAction) "finalize_goal" then
        finalizeResult <- finalizeGoalPlanFromAgentPayload u (payloadOrEmpty actionPayload) ;;
        let goalPreviewId' :=
          match fin_goalPreviewId finalizeResult with
          | Some i => Some i
          | None => goalPreviewId
          end in
        rebuilt <- buildUserContext u ;;
        ret {| rc_goalPreviewId := goalPreviewId';
               rc_sessionActive := false;
               rc_action :=
                 Some {| action_type := action_type responseAction;
                         action_payload :=
                           Some (setField
                                   (setField
                                      (setField
                                         (setField (payloadOrEmpty actionPayload) "goalId"
                                            (VStr (goal_id (fin_goal finalizeResult))))
                                         "milestoneIds"
                                         (VArr (map VStr (fin_milestoneIds finalizeResult))))
                                      "taskIds" (VArr (map VStr (fin_taskIds finalizeResult))))
                                   "goalPreviewId" (optStringValue goalPreviewId')) |};
               rc_context := snapshotValue rebuilt |}
      else ret unchanged
  end.

(** The argument of the [updateSession] call. *)
Definition sessionUpdateOf (session : SessionStateRecord) (agentResponse : AgentServiceResponse)
    (r : Reconciled) : UpdateSessionInput :=
  {| us_state :=
       match state agentResponse with
       | Some st => match as_state st with Some s => s | None => session_state session end
       | None => session_state session
       end;
     us_iteration :=
       match state agentResponse with
       | Some st => match as_iteration st with
                    | Some i => i
                    | None => PrimFloat.add (session_iteration session) 1
                    end
       | None => PrimFloat.add (session_iteration session) 1
       end;
     us_goalPreviewId :=
       match state agentResponse with
       | Some st => match as_goalPreviewId st with
                    | Some p => Some p
                    | None => rc_goalPreviewId r
                    end
       | None => rc_goalPreviewId r
       end;
     us_sessionActive := rc_sessionActive r;
     us_context := rc_context r |}.

(** [previewForContext] *)
Definition previewForContextOf (goalPreview : option value) (session : SessionStateRecord)
    : M (option value) :=
  match asRecord goalPreview with
  | Some p => ret (Some p)
  | None =>
      match session_goalPreviewId session with
      | Some pid =>
          if String.eqb pid "" then ret None
          else
            storedPreview <- findGoalPreviewById pid ;;
            ret (match storedPreview with
                 | Some p => if nullish (Some (preview_data p)) then None
                             else Some (preview_data p)
                 | None => None
                 end)
      | None => ret None
      end
  end.

(** [payloadUserId === userId], for a [payloadUserId] that is present. *)
Definition sameUser (payloadUserId : value) (userId : string) : bool :=
  match payloadUserId with
  | VStr s => String.eqb s userId
  | _ => false
  end.

Definition sessionNotFound (sessionId : string) : string :=
  "Session '" ++ sessionId ++ "' not found.".

Definition sessionFinalized (sessionId : string) : string :=
  "Session '" ++ sessionId ++ "' is finalized and cannot accept new messages.".

(** The handler from the [updateSession] call to the response; the
    [console.log(agentResponse.action.payload?.goalPreview)] between the
    two throws when the response carries no action. *)
Definition persistExchange (session : SessionStateRecord)
    (agentResponse : AgentServiceResponse) (r : Reconciled) : M MessageResponse :=
  updatedSession <- updateSession (session_id session)
                      (sessionUpdateOf session agentResponse r) ;;
  match action agentResponse, rc_action r with
  | Some _, Some responseAction =>
      ret {| resp_sessionId := session_id updatedSession;
             resp_reply := reply agentResponse;
             resp_action := responseAction;
             resp_state := session_state updatedSession;
             resp_iteration := session_iteration updatedSession;
             resp_sessionActive := sessionActive updatedSession;
             resp_goalPreviewId := session_goalPreviewId updatedSession;
             resp_context := session_context updatedSession |}
  | _, _ => throw TypeError
  end.

(** The handler from the first [appendChatMessage] onwards. *)
Definition exchange (u : UserRecord) (userId message : string) (session : SessionStateRecord)
    (contextSnapshot : UserContextSnapshot) (previewForContext : option value)
    : M MessageResponse :=
  let shouldInitRemoteSession := PrimFloat.eqb (session_iteration session) 0 in
  appendChatMessage (session_chatId session) (session_id session) user message ;;
  (if shouldInitRemoteSession
   then initRemoteSession userId (session_id session)
   else ret tt) ;;
  let agentPayload :=
    buildAgentInvocationPayload userId (session_id session) message
      previewForContext (availableHoursLeft contextSnapshot)
      (upcomingTasks contextSnapshot) in
  agentResponse <- invokeAgentService agentPayload ;;
  appendChatMessage (session_chatId session) (session_id session) agent
    (reply agentResponse) ;;
  r <- reconcileAction u userId session agentResponse contextSnapshot ;;
  persistExchange session agentResponse r.

(** The handler from the session lookup onwards. *)
Definition withSession (userId sessionId message : string) (goalPreview : option value)
    : M MessageResponse :=
  found <- findSessionById sessionId ;;
  match found with
  | None => throw (ApiError 400 (sessionNotFound sessionId) NoDetails)
  | Some session =>
      assert (String.eqb (session_userId session) userId) 401 "Unauthorized." ;;
      assert (sessionActive session) 409 (sessionFinalized sessionId) ;;
      foundUser <- findUserById userId ;;
      match foundUser with
      | None => throw (ApiError 404 "User not found." NoDetails)
      | Some u =>
          contextSnapshot <- buildUserContext u ;;
          previewForContext <- previewForContextOf goalPreview session ;;
          exchange u userId message session contextSnapshot previewForContext
      end
  end.

Definition sessionMessage (reqUser : option string) (body : option value) : M MessageResponse :=
  userId <- requireUser reqUser ;;
  let b := bodyOrEmpty body in
  match nonBlankString (getField b "sessionId") with
  | None => throw (ApiError 400 "sessionId is required." NoDetails)
  | Some sessionId =>
      match nonBlankString (getField b "message") with
      | None => throw (ApiError 400 "message is required." NoDetails)
      | Some message =>
          assert (match getField b "userId" with
                  | None => true
                  | Some payloadUserId => sameUser payloadUserId userId
                  end) 401 "Unauthorized." ;;
          withSession userId sessionId message (getField b "goalPreview")
      end
  end.

End Server.

(** * The rest of the routes and repositories *)

(** Firestore orders string fields by their bytes. *)
Definition firestoreLeb (a b : string) : bool := String.leb a b.

Definition isDigit (c : ascii) : bool :=
  (48 <=? nat_of_ascii c)%nat && (nat_of_ascii c <=? 57)%nat.

Definition isHyphen (c : ascii) : bool := Nat.eqb (nat_of_ascii c) 45.

(** [/^\d{4}-\d{2}-\d{2}$/.test(value)] *)
Definition isValidDay (v : string) : bool :=
  match list_ascii_of_string v with
  | [y1; y2; y3; y4; h1; m1; m2; h2; d1; d2] =>
      isDigit y1 && isDigit y2 && isDigit y3 && isDigit y4 && isHyphen h1
      && isDigit m1 && isDigit m2 && isHyphen h2 && isDigit d1 && isDigit d2
  | _ => false
  end.

(** [toDayRange] *)
Definition toDayRange (day : string) : string * string := (day, day).

(** [typeof v === 'string' && GOAL_STATUSES.includes(v)] *)
Definition goalStatusOf (v : option value) : option GoalStatus :=
  match v with
  | Some (VStr s) =>
      if String.eqb s "active" then Some active
      else if String.eqb s "completed" then Some completed
      else if String.eqb s "paused" then Some paused
      else if String.eqb s "archived" then Some archived
      else None
  | _ => None
  end.

Record TaskMetrics := {
  totalTaskHours : float;
  doneTaskHours : float
}.

(** [Number(task.estimatedHours) || 0] on a stored number: zero for a
    zero of either sign and for [NaN]. *)
Definition hoursOrZero (h : float) : float :=
  if PrimFloat.eqb h 0 || PrimFloat.is_nan h then 0%float else h.

(** [summarizeTaskHours] *)
Definition summarizeTaskHours (tasks : list TaskRecord) : TaskMetrics :=
  fold_left
    (fun accumulator task =>
       let hours := hoursOrZero (task_estimatedHours task) in
       {| totalTaskHours := PrimFloat.add (totalTaskHours accumulator) hours;
          doneTaskHours :=
            if task_done task then PrimFloat.add (doneTaskHours accumulator) hours
            else doneTaskHours accumulator |})
    tasks {| totalTaskHours := 0; doneTaskHours := 0 |}.

(** [repositories/taskRepository.ts] *)
Definition listTasksByGoal (goalId : string) : M (list TaskRecord) :=
  gets (fun w => filter (fun t => String.eqb (task_goalId t) goalId) (tasks w)).

Definition listTasksByDateRange (userId startDate endDate : string) : M (list TaskRecord) :=
  gets (fun w =>
    filter (fun t => String.eqb (task_userId t) userId
                     && firestoreLeb startDate (task_date t)
                     && firestoreLeb (task_date t) endDate)
           (tasks w)).

(** [repositories/milestoneRepository.ts] *)
Definition listMilestonesByGoal (goalId : string) : M (list MilestoneRecord) :=
  gets (fun w => filter (fun m => String.eqb (ms_goalId m) goalId) (milestones w)).

(** [computeGoalMetrics], [computeMilestoneMetrics] *)
Definition computeGoalMetrics (goalId : string) : M (string * TaskMetrics) :=
  tasks <- listTasksByGoal goalId ;;
  ret (goalId, summarizeTaskHours tasks).

Definition computeMilestoneMetrics (milestoneId : string) : M (string * TaskMetrics) :=
  tasks <- listTasksByMilestone milestoneId ;;
  ret (milestoneId, summarizeTaskHours tasks).

(** [Promise.all(items.map(f))] for an [f] that only reads. *)
Fixpoint mapM {A B : Type} (f : A -> M B) (items : list A) : M (list B) :=
  match items with
  | [] => ret []
  | x :: rest =>
      y <- f x ;;
      ys <- mapM f rest ;;
      ret (y :: ys)
  end.

(** The object a caller passes to [updateGoal]: the properties of
    [UpdateGoalInput], and the property [minHoursPerWeek] that
    [PATCH /v1/goals/:goalId] sets in the place of [hoursPerWeek]. *)
Record UpdateGoalInput := {
  ug_title : option string;
  ug_description : option (option string);
  ug_status : option GoalStatus;
  ug_hoursPerWeek : option float;
  ug_minHoursPerWeek : option float;
  ug_priority : option Z;
  ug_color : option (option float)
}.

Section ServerRest.

Variable rt : Runtime.

(** [repositories/goalRepository.ts]: [updateGoal] *)
Definition applyGoalUpdate (u : UpdateGoalInput) (g : GoalRecord) : GoalRecord :=
  {| goal_id := goal_id g;
     goal_userId := goal_userId g;
     goal_title := match ug_title u with Some x => x | None => goal_title g end;
     goal_description :=
       match ug_description u with Some x => x | None => goal_description g end;
     goal_status := match ug_status u with Some x => x | None => goal_status g end;
     goal_color := match ug_color u with Some x => x | None => goal_color g end;
     hoursPerWeek :=
       match ug_hoursPerWeek u with Some x => x | None => hoursPerWeek g end;
     goal_priority := match ug_priority u with Some x => x | None => goal_priority g end;
     goal_createdAt := goal_createdAt g;
     goal_updatedAt := nowIso rt |}.

Definition updateGoal (goalId : string) (u : UpdateGoalInput) : M GoalRecord :=
  fun w =>
    match find (fun g => String.eqb (goal_id g) goalId) (goals w) with
    | None => (Throw (ApiError 404 "Goal not found." NoDetails), w)
    | Some g =>
        (Ok (applyGoalUpdate u g),
         setGoals
           (map (fun x => if String.eqb (goal_id x) goalId then applyGoalUpdate u x else x)
                (goals w)) w)
    end.

(** [GET /v1/goals]: the goals with their task-hour totals. *)
Definition getGoals (reqUser : option string) (statusParam : option string)
    : M (list (SerializedGoal * TaskMetrics)) :=
  userId <- requireUser reqUser ;;
  status <-
    (match statusParam with
     | None => ret None
     | Some p =>
         if String.eqb p "" then ret None
         else if String.eqb p "all" then ret None
         else match goalStatusOf (Some (VStr p)) with
              | Some s => ret (Some s)
              | None => throw (ApiError 400 "Invalid status filter." NoDetails)
              end
     end) ;;
  goals <- listGoals userId status ;;
  mapM (fun goal =>
          tasks <- listTasksByGoal (goal_id goal) ;;
          ret (serializeGoal goal, summarizeTaskHours tasks)) goals.

(** [PATCH /v1/goals/:goalId] *)
Definition patchGoal (reqUser : option string) (goalId : string) (body : option value)
    : M GoalRecord :=
  userId <- requireUser reqUser ;;
  goal <- assertOwnedGoal goalId userId ;;
  let b := bodyOrEmpty body in
  newTitle <-
    (match getField b "title" with
     | None => ret None
     | Some v =>
         match nonBlankString rt (Some v) with
         | Some s => ret (Some (trim rt s))
         | None => throw (ApiError 400 "Invalid title." NoDetails)
         end
     end) ;;
  newDescription <-
    (match getField b "description" with
     | None => ret None
     | Some v =>
         assert (validDescription (Some v)) 400 "description must be a string or null." ;;
         ret (Some (asString (Some v)))
     end) ;;
  newStatus <-
    (match getField b "status" with
     | None => ret None
     | Some v =>
         match goalStatusOf (Some v) with
         | Some s => ret (Some s)
         | None => throw (ApiError 400 "Invalid goal status." NoDetails)
         end
     end) ;;
  newHours <-
    (match getField b "minHoursPerWeek" with
     | None => ret None
     | Some v =>
         match asFiniteNumber (Some v) with
         | Some h =>
             assert (js_ge h 0) 400 "minHoursPerWeek must be a non-negative number." ;;
             ret (Some h)
         | None =>
             throw (ApiError 400 "minHoursPerWeek must be a non-negative number." NoDetails)
         end
     end) ;;
  newPriority <-
    (match getField b "priority" with
     | None => ret None
     | Some v =>
         match asFiniteNumber (Some v) with
         | Some p =>
             assert (isInteger p) 400 "priority must be an integer." ;;
             ret (Some (Math_trunc p))
         | None => throw (ApiError 400 "priority must be an integer." NoDetails)
         end
     end) ;;
  newColor <-
    (match getField b "color" with
     | None => ret None
     | Some VNull => ret (Some None)
     | Some v =>
         match asFiniteNumber (Some v) with
         | Some c => ret (Some (Some c))
         | None => throw (ApiError 400 "color must be a number or null." NoDetails)
         end
     end) ;;
  let updates :=
    {| ug_title := newTitle; ug_description := newDescription; ug_status := newStatus;
       ug_hoursPerWeek := None; ug_minHoursPerWeek := newHours;
       ug_priority := newPriority; ug_color := newColor |} in
  let hasUpdate :=
    match newTitle, newDescription, newStatus, newHours, newPriority, newColor with
    | None, None, None, None, None, None => false
    | _, _, _, _, _, _ => true
    end in
  assert hasUpdate 400 "No updatable fields provided." ;;
  found <- findUserById userId ;;
  match found with
  | None => throw (ApiError 404 "User not found." NoDetails)
  | Some u =>
      let nextStatus := match newStatus with Some s => s | None => goal_status goal end in
      let nextHours :=
        match newHours with Some h => Some h | None => goal_minHoursPerWeek goal end in
      (if GoalStatus_eqb nextStatus active then
         otherHours <- sumActiveGoalHours userId (Some (goal_id goal)) ;;
         let totalHours := js_add otherHours nextHours in
         if js_gt totalHours (availableHoursPerWeek u) then
           conflicts <- collectActiveGoalSummaries userId (Some (goal_id goal)) ;;
           throw (ApiError 409
                    (capacityMessage rt (availableHoursPerWeek u) totalHours
                       "h/week required).")
                    (CapacityDetails (availableHoursPerWeek u) totalHours
                       (conflicts ++ [{| gs_goalId := goal_id goal;
                                         gs_title := goal_title goal;
                                         gs_weeklyHours := nextHours |}])))
         else ret tt
       else ret tt) ;;
      updateGoal (goal_id goal) updates
  end.

(** [GET /v1/goals/:goalId/metrics] *)
Definition getGoalMetrics (reqUser : option string) (goalId : string)
    : M (string * TaskMetrics) :=
  userId <- requireUser reqUser ;;
  _ <- assertOwnedGoal goalId userId ;;
  computeGoalMetrics goalId.

(** [GET /v1/milestones/:milestoneId/metrics] *)
Definition getMilestoneMetrics (reqUser : option string) (milestoneId : string)
    : M (string * TaskMetrics) :=
  userId <- requireUser reqUser ;;
  _ <- assertOwnedMilestone milestoneId userId ;;
  computeMilestoneMetrics milestoneId.

(** [POST /v1/goals/:goalId/milestones] *)
Definition postGoalMilestone (reqUser : option string) (goalId : string)
    (body : option value) : M MilestoneRecord :=
  userId <- requireUser reqUser ;;
  goal <- assertOwnedGoal goalId userId ;;
  let b := bodyOrEmpty body in
  match nonBlankString rt (getField b "title") with
  | None => throw (ApiError 400 "title is required." NoDetails)
  | Some title =>
      assert (validDescription (getField b "description")) 400
        "description must be a string or null." ;;
      parent <-
        (match getField b "parentMilestoneId" with
         | None => ret None
         | Some v =>
             match nonBlankString rt (Some v) with
             | None => throw (ApiError 400 "parentMilestoneId must be a string." NoDetails)
             | Some parentMilestoneId =>
                 parentMilestone <- assertOwnedMilestone parentMilestoneId userId ;;
                 assert (String.eqb (ms_goalId parentMilestone) (goal_id goal)) 400
                   "parentMilestoneId must belong to the same goal." ;;
                 ret (Some parentMilestoneId)
             end
         end) ;;
      createMilestone rt (goal_id goal) (trim rt title)
        (asString (getField b "description")) parent
  end.

(** [POST /v1/tasks/:taskId/done] and [POST /v1/tasks/:taskId/undone] *)
Definition postTaskDone (reqUser : option string) (taskId : string) (done : bool)
    : M TaskRecord :=
  userId <- requireUser reqUser ;;
  owned <- assertOwnedTask taskId userId ;;
  setTaskDone rt (task_id (fst owned)) done.

(** [GET /v1/tasks:query?day=YYYY-MM-DD]; [day] is the query parameter
    when it is a string. *)
Definition queryTasks (reqUser : option string) (dayParam : option string)
    : M (list TaskRecord) :=
  userId <- requireUser reqUser ;;
  let day := match dayParam with Some d => d | None => "" end in
  assert (negb (String.eqb day "")) 400 "day query parameter is required." ;;
  assert (isValidDay day) 400 "Invalid day format. Use YYYY-MM-DD." ;;
  let range := toDayRange day in
  tasks <- listTasksByDateRange userId (fst range) (snd range) ;;
  ret (filter (fun task => negb (task_done task)) tasks).

End ServerRest.

(** * Reference definitions the properties are stated against *)

(** The user's active goals, in store order. *)
Definition activeGoalsOf (userId : string) (w : World) : list GoalRecord :=
  filter (fun g => String.eqb (goal_userId g) userId)
    (filter (fun g => GoalStatus_eqb (goal_status g) active) (goals w)).

(** A sum of doubles, added up from zero in the order of the list. *)
Definition sumHours (l : list float) : float := fold_left PrimFloat.add l 0%float.

(** S: the weekly hours the user's active goals commit. *)
Definition activeHoursOf (userId : string) (w : World) : float :=
  sumHours (map hoursPerWeek (activeGoalsOf userId w)).

(** The user's tasks that are not done, in store order. *)
Definition incompleteTasksOf (userId : string) (w : World) : list TaskRecord :=
  filter (fun t => String.eqb (task_userId t) userId && negb (task_done t)) (tasks w).

(** An entry of the context shows a task when each of its seven fields
    is the task's. *)
Definition showsTask (t : TaskRecord) (entry : UpcomingTask) : Prop :=
  up_id entry = task_id t
  /\ up_title entry = task_title t
  /\ up_goalId entry = task_goalId t
  /\ up_milestoneId entry = task_milestoneId t
  /\ up_date entry = task_date t
  /\ up_estimatedHours entry = task_estimatedHours t
  /\ up_done entry = task_done t.

Definition isEngineCall (e : Event) : Prop :=
  match e with
  | EvInitRemote _ _ | EvRunAgent _ => True
  | _ => False
  end.

(** A comparator is consistent when swapping its arguments swaps the
    sign and [<= 0] is transitive. *)
Definition antisymmetric_cmp {A : Type} (cmp : A -> A -> Z) : Prop :=
  forall a b, (cmp a b < 0)%Z <-> (0 < cmp b a)%Z.

Definition transitive_cmp {A : Type} (cmp : A -> A -> Z) : Prop :=
  forall a b c, (cmp a b <= 0)%Z -> (cmp b c <= 0)%Z -> (cmp a c <= 0)%Z.

Definition ascending {A : Type} (cmp : A -> A -> Z) (a b : A) : Prop := (cmp a b <= 0)%Z.

(** A computation keeps a part of the world when no run of it changes
    that part, whether it returns or throws. *)
Definition keeps {T A : Type} (part : World -> T) (m : M A) : Prop :=
  forall w, part (snd (m w)) = part w.

(** An error is plain when it carries no details: a [TypeError], a
    refusal of the store, or an [ApiError] without details. *)
Definition plainError (e : Thrown) : Prop :=
  match e with
  | ApiError _ _ NoDetails | TypeError | FirestoreError _ => True
  | ApiError _ _ _ => False
  end.

Definition plain {A : Type} (m : M A) : Prop :=
  forall w e w', m w = (Throw e, w') -> plainError e.

(** The stored preview the payload refers to, if any. *)
Definition resolvedPreview (payload : obj) (w : World) : option GoalPreviewRecord :=
  match previewIdOf payload with
  | Some i => if String.eqb i "" then None
              else find (fun p => String.eqb (preview_id p) i) (previews w)
  | None => None
  end.

(** The plan container finalization resolves from the payload. *)
Definition resolvedPlan (payload : obj) (w : World) : value :=
  extractPlanContainer payload (resolvedPreview payload w).

(** The value [collectActiveGoalSummaries(userId)] computes in a world. *)
Definition activeSummariesRead (userId : string) (w : World) : list GoalSummary :=
  map summarizeGoal
    (filter (fun goal => negb (optEqb None (goal_id goal)))
       (sortBy (fun a b => (goal_priority a - goal_priority b)%Z)
          (filter (fun g => GoalStatus_eqb (goal_status g) active)
             (filter (fun g => String.eqb (goal_userId g) userId) (goals w))))).

Definition pendingSummary (f : GoalFields) : GoalSummary :=
  {| gs_goalId := "pending"; gs_title := gf_title f;
     gs_weeklyHours := Some (gf_planHours f) |}.

(** The hours a plan task counts for: its [estimatedHours] when that is
    a finite number above zero, and zero otherwise (a value that is no
    number, is not finite, or is negative). *)
Definition countedPlanHours (task : value) : float :=
  match getField task "estimatedHours" with
  | Some (VNum h) => if PrimFloat.is_finite h && PrimFloat.ltb 0 h then h else 0%float
  | _ => 0%float
  end.

(** The hours of a plan: the counted hours of the tasks nested under
    each milestone, added up from zero task by task, and the sums of the
    milestones added up from zero in turn. *)
Definition nestedPlanHours (milestones : list value) : float :=
  sumHours
    (map (fun milestone =>
            sumHours (map countedPlanHours (arrayOrEmpty (getField milestone "tasks"))))
       milestones).

(** The tasks a candidate date collides with: same milestone, same user,
    exactly the same date, the task being updated left out. *)
Definition conflictingTasks (milestoneId userId date : string) (excludeTaskId : option string)
    (w : World) : list TaskRecord :=
  filter (fun t => String.eqb (task_milestoneId t) milestoneId
                   && String.eqb (task_userId t) userId
                   && String.eqb (task_date t) date
                   && negb (optEqb excludeTaskId (task_id t)))
         (tasks w).

Definition isDateConflict (out_world : outcome TaskRecord * World) : Prop :=
  exists status msg ids w',
    out_world = (Throw (ApiError status msg (ConflictingTaskIds ids)), w').

(** The world once the session lookup has been made. *)
Definition looked (sessionId : string) (w : World) : World :=
  setTrace (trace w ++ [EvFindSession sessionId]) w.

(** The records a message exchange leaves alone until it reconciles the
    engine's action. *)
Definition sameRecords (w w' : World) : Prop :=
  users w' = users w /\ goals w' = goals w /\ milestones w' = milestones w
  /\ tasks w' = tasks w /\ sessions w' = sessions w /\ previews w' = previews w.

Definition engineReturned (rt : Runtime) (r : AgentServiceResponse) : Prop :=
  exists p h, fetchRun rt p = Some h /\ http_final_response h = Some r.

(** What the engine answered to the run call with payload [p]. *)
Definition engineAnswer (rt : Runtime) (p : AgentInvocationPayload)
    : option AgentServiceResponse :=
  match fetchRun rt p with
  | Some h => http_final_response h
  | None => None
  end.

Definition findSession (sessionId : string) (w : World) : option SessionStateRecord :=
  find (fun s => String.eqb (session_id s) sessionId) (sessions w).

Definition findUser (userId : string) (w : World) : option UserRecord :=
  find (fun u => String.eqb (user_id u) userId) (users w).

(** The iteration the engine supplies, if it does. *)
Definition engineIteration (r : AgentServiceResponse) : option float :=
  match state r with
  | Some st => as_iteration st
  | None => None
  end.

Section RuntimeReference.

Variable rt : Runtime.

Definition byTaskDate (a b : TaskRecord) : Z := localeCompare rt (task_date a) (task_date b).
(** The request fields a date-carrying task write must get right before
    the conflict check runs. *)
Definition requestDay (body : option value) (day : string) : Prop :=
  exists text iso,
    nonBlankString rt (getField (bodyOrEmpty body) "date") = Some text
    /\ parseDate rt text = Some iso
    /\ day = slice10 iso.

(** The rest of a task update's body is in order: hours, when given, are
    a finite number that is not negative, and [done], when given, is a
    boolean. *)
Definition restOfUpdateValid (body : option value) : Prop :=
  (forall v, getField (bodyOrEmpty body) "estimatedHours" = Some v ->
             exists h, asFiniteNumber (Some v) = Some h /\ js_ge h 0 = true)
  /\ (forall v, getField (bodyOrEmpty body) "done" = Some v -> exists d, v = VBool d).

Definition chatEntry (session : SessionStateRecord) (sender : Sender) (message : string)
    : ChatMessageRecord :=
  {| chat_sessionId := session_id session; chat_chatId := session_chatId session;
     chat_sender := sender; chat_message := message; chat_createdAt := nowIso rt |}.

(** The error a finalization ends in: a [TypeError] when the plan's hours
    cannot be read, the capacity conflict when the plan does not fit,
    and the store's refusal of the goal otherwise. *)
Definition finalizeError (u : UserRecord) (payload : obj) (w : World) : Thrown :=
  let plan := resolvedPlan payload w in
  match goalFieldsOf rt (goalPlanOf plan) (milestonePlansOf plan) with
  | None => TypeError
  | Some f =>
      let total := PrimFloat.add (activeHoursOf (user_id u) w) (gf_planHours f) in
      if js_gt total (availableHoursPerWeek u) then
        ApiError 409
          (capacityMessage rt (availableHoursPerWeek u) total "h/week with new goal).")
          (CapacityDetails (availableHoursPerWeek u) total
             (activeSummariesRead (user_id u) w ++ [pendingSummary f]))
      else FirestoreError "hoursPerWeek"
  end.

End RuntimeReference.

(** Document ids of the task collection are unique. *)
Definition uniqueTaskIds (w : World) : Prop := NoDup (map task_id (tasks w)).

(** What the conflict check compares of a task. *)
Definition taskSlot (t : TaskRecord) : string * string * string :=
  (task_milestoneId t, task_userId t, task_date t).

(** The conflict invariant: no two tasks of one user under one
    milestone share a date. *)
Definition datesDistinct (w : World) : Prop := NoDup (map taskSlot (tasks w)).

(** A computation reads when no run of it changes the world; it is
    atomic when a run that throws changes nothing. *)
Definition reads {A : Type} (m : M A) : Prop :=
  forall w out w', m w = (out, w') -> w' = w.

Definition atomic {A : Type} (m : M A) : Prop :=
  forall w e w', m w = (Throw e, w') -> w' = w.

(** What [updateGoal] does to each stored goal. *)
Definition replaceGoal (goalId : string) (h : GoalRecord -> GoalRecord) (g : GoalRecord)
    : GoalRecord :=
  if String.eqb (goal_id g) goalId then h g else g.

(** What no goal update touches: the id, the owner, the weekly hours and
    the creation time of a goal. *)
Definition goalCore (g : GoalRecord) : string * string * float * string :=
  (goal_id g, goal_userId g, hoursPerWeek g, goal_createdAt g).

(** A user owns a goal when the stored goal of that id carries the
    user's id; a milestone or task is reached through its goal. *)
Definition ownsGoal (userId goalId : string) (w : World) : Prop :=
  exists g, find (fun x => String.eqb (goal_id x) goalId) (goals w) = Some g
            /\ goal_userId g = userId.

Definition goalOwner (goalId : string) (w : World) : option string :=
  option_map goal_userId (find (fun x => String.eqb (goal_id x) goalId) (goals w)).

Definition milestoneOwner (milestoneId : string) (w : World) : option string :=
  match find (fun x => String.eqb (ms_id x) milestoneId) (milestones w) with
  | Some m => goalOwner (ms_goalId m) w
  | None => None
  end.

Definition taskOwner (taskId : string) (w : World) : option string :=
  match find (fun x => String.eqb (task_id x) taskId) (tasks w) with
  | Some t => milestoneOwner (task_milestoneId t) w
  | None => None
  end.

(** A task carries the id of the user who owns its milestone's goal. *)
Definition tasksByOwner (w : World) : Prop :=
  forall t, In t (tasks w) -> milestoneOwner (task_milestoneId t) w = Some (task_userId t).

(** The task store is in order: ids are unique, no two tasks of a user
    share milestone and date, and every task is its owner's. *)
Definition taskStoreOk (w : World) : Prop :=
  uniqueTaskIds w /\ datesDistinct w /\ tasksByOwner w.

(** What [updateTask] does to each stored task. *)
Definition replaceTask (taskId : string) (h : TaskRecord -> TaskRecord) (t : TaskRecord)
    : TaskRecord :=
  if String.eqb (task_id t) taskId then h t else t.

(** What a task keeps through a change of its done flag. *)
Definition taskContent (t : TaskRecord)
    : string * string * (string * string * string) * string * option string * float
      * string :=
  (task_id t, task_goalId t, taskSlot t, task_title t, task_description t,
   task_estimatedHours t, task_createdAt t).

(** The tasks a day query asks for: the user's, on that day, not done. *)
Definition pendingOn (userId day : string) (w : World) : list TaskRecord :=
  filter (fun t => String.eqb (task_userId t) userId && String.eqb (task_date t) day
                   && negb (task_done t))
         (tasks w).

(** The goals a listing selects, and the status filter a query asks
    for ([None] when the parameter is not one the route accepts). *)
Definition selectedGoals (userId : string) (status : option GoalStatus) (w : World)
    : list GoalRecord :=
  filter (fun g => String.eqb (goal_userId g) userId
                   && match status with
                      | Some s => GoalStatus_eqb (goal_status g) s
                      | None => true
                      end)
         (goals w).

Definition requestedStatus (statusParam : option string) : option (option GoalStatus) :=
  match statusParam with
  | None => Some None
  | Some p =>
      if String.eqb p "" then Some None
      else if String.eqb p "all" then Some None
      else option_map Some (goalStatusOf (Some (VStr p)))
  end.

Definition byPriority (a b : GoalRecord) : Z := (goal_priority a - goal_priority b)%Z.

Definition tasksOfGoal (goalId : string) (w : World) : list TaskRecord :=
  filter (fun t => String.eqb (task_goalId t) goalId) (tasks w).

(** The hours of the tasks of a list as the metrics count them: added
    up from zero in the order of the list, a task whose estimate is
    [NaN] or zero counting as zero. *)
Definition taskHoursOf (l : list TaskRecord) : float :=
  sumHours
    (map (fun t =>
            if PrimFloat.eqb (task_estimatedHours t) 0 || PrimFloat.is_nan (task_estimatedHours t)
            then 0%float else task_estimatedHours t)
       l).

(** An entry of the goal listing shows a goal when it carries the
    goal's fields, no [minHoursPerWeek], and the hours of the goal's
    tasks and of the done ones among them. *)
Definition showsGoal (w : World) (g : GoalRecord) (entry : SerializedGoal * TaskMetrics)
    : Prop :=
  sg_id (fst entry) = goal_id g
  /\ sg_userId (fst entry) = goal_userId g
  /\ sg_title (fst entry) = goal_title g
  /\ sg_description (fst entry) = goal_description g
  /\ sg_status (fst entry) = goal_status g
  /\ sg_color (fst entry) = goal_color g
  /\ sg_minHoursPerWeek (fst entry) = None
  /\ sg_priority (fst entry) = goal_priority g
  /\ sg_createdAt (fst entry) = goal_createdAt g
  /\ sg_updatedAt (fst entry) = goal_updatedAt g
  /\ totalTaskHours (snd entry) = taskHoursOf (tasksOfGoal (goal_id g) w)
  /\ doneTaskHours (snd entry) = taskHoursOf (filter task_done (tasksOfGoal (goal_id g) w)).

(** Every parent link of a milestone leads to a stored milestone of the
    same goal. *)
Definition parentsInGoal (w : World) : Prop :=
  forall m p,
    In m (milestones w) -> ms_parentMilestoneId m = Some p ->
    exists pm, In pm (milestones w) /\ ms_id pm = p /\ ms_goalId pm = ms_goalId m.

(** An error class of [ApiError]. *)
Definition statusOf (e : Thrown) : option Z :=
  match e with
  | ApiError s _ _ => Some s
  | TypeError | FirestoreError _ => None
  end.

(** * A concrete runtime and worlds for the scenarios *)

Definition isSpace (c : Ascii.ascii) : bool :=
  match Ascii.nat_of_ascii c with
  | 9%nat | 10%nat | 11%nat | 12%nat | 13%nat | 32%nat => true
  | _ => false
  end.

Fixpoint trimStart (s : string) : string :=
  match s with
  | String c rest => if isSpace c then trimStart rest else s
  | EmptyString => EmptyString
  end.

Fixpoint trimEnd (s : string) : string :=
  match s with
  | String c rest =>
      match trimEnd rest with
      | EmptyString => if isSpace c then EmptyString else String c EmptyString
      | kept => String c kept
      end
  | EmptyString => EmptyString
  end.

(** [trim] on ASCII white space. *)
Definition asciiTrim (s : string) : string := trimEnd (trimStart s).

(** A comparator that orders strings byte by byte, as [localeCompare]
    orders ISO dates. *)
Definition byteOrder (a b : string) : Z :=
  match String.compare a b with
  | Lt => (-1)%Z
  | Eq => 0%Z
  | Gt => 1%Z
  end.

Definition showZ (z : Z) : string := NilZero.string_of_int (Z.to_int z).

(** A number inside a template literal: the decimal digits of a double
    that is an integer; this runtime prints another finite double by its
    mantissa and exponent. *)
Definition showFloat (x : float) : string :=
  match Prim2SF x with
  | S754_zero _ => "0"
  | S754_nan => "NaN"
  | S754_infinity s => if s then "-Infinity" else "Infinity"
  | S754_finite s m e =>
      if isInteger x then showZ (Math_trunc x)
      else (if s then "-" else "") ++ showZ (Zpos m) ++ "*2^" ++ showZ e
  end.

(** A runtime whose engine answers every run call with the given HTTP
    exchange and has the remote session already initialized. *)
Definition scenarioRuntime (run : option HttpResponse) : Runtime :=
  {| trim := asciiTrim;
     localeCompare := byteOrder;
     parseDate := fun s => if isValidDay s then Some (s ++ "T00:00:00.000Z") else None;
     nowIso := "2025-11-01T09:00:00.000Z";
     showNumber := showFloat;
     autoId := fun n => "doc" ++ NilZero.string_of_uint (Nat.to_uint n);
     agentServiceUrl := Some "https://agent.example";
     agentAppName := None;
     fetchInit := fun _ _ =>
       Some {| http_status := 409; http_text := "exists"; http_final_response := None |};
     fetchRun := fun _ => run |}.

Definition engineAnswers (r : AgentServiceResponse) : option HttpResponse :=
  Some {| http_status := 200; http_text := ""; http_final_response := Some r |}.

Definition alice : UserRecord :=
  {| user_id := "u1"; user_email := "alice@example.com"; user_name := "Alice";
     user_timezone := "UTC"; availableHoursPerWeek := 20 |}.

Definition bob : UserRecord :=
  {| user_id := "u2"; user_email := "bob@example.com"; user_name := "Bob";
     user_timezone := "UTC"; availableHoursPerWeek := 10 |}.

Definition thesis : GoalRecord :=
  {| goal_id := "g1"; goal_userId := "u1"; goal_title := "Thesis"; goal_description := None;
     goal_status := active; goal_color := None; hoursPerWeek := 18; goal_priority := 1;
     goal_createdAt := "2025-10-01T00:00:00.000Z";
     goal_updatedAt := "2025-10-01T00:00:00.000Z" |}.

Definition milestoneOf (id : string) : MilestoneRecord :=
  {| ms_id := id; ms_goalId := "g1"; ms_parentMilestoneId := None; ms_title := id;
     ms_description := None; ms_status := blocked;
     ms_createdAt := "2025-10-01T00:00:00.000Z";
     ms_updatedAt := "2025-10-01T00:00:00.000Z" |}.

Definition taskOf (id milestoneId date : string) (done : bool) : TaskRecord :=
  {| task_id := id; task_goalId := "g1"; task_milestoneId := milestoneId;
     task_userId := "u1"; task_title := id; task_description := None; task_date := date;
     task_estimatedHours := 2; task_done := done;
     task_createdAt := "2025-10-01T00:00:00.000Z";
     task_updatedAt := "2025-10-01T00:00:00.000Z" |}.

Definition sessionOf (id userId : string) (isActive : bool) (iteration : float)
    : SessionStateRecord :=
  {| session_id := id; session_userId := userId; session_chatId := "chat-" ++ id;
     session_state := "plan_generated"; session_iteration := iteration;
     session_goalPreviewId := None; sessionActive := isActive;
     session_context := VObj [];
     session_createdAt := "2025-10-20T00:00:00.000Z";
     session_updatedAt := "2025-10-20T00:00:00.000Z" |}.

(** Alice has 20 hours a week; the stores are empty but for three
    sessions: her active one, Bob's, and one of hers that is finalized. *)
Definition freshWorld : World :=
  {| users := [alice; bob]; goals := []; milestones := []; tasks := [];
     sessions := [sessionOf "s1" "u1" true 3; sessionOf "s2" "u2" true 0;
                  sessionOf "s3" "u1" false 4];
     previews := []; chats := []; nextId := 0; trace := [] |}.

(** Scenarios A and B: one active goal at 18 hours, with milestones M1
    and M2 and a task on M1 dated 2025-11-10. *)
Definition busyWorld : World :=
  setTasks [taskOf "t1" "m1" "2025-11-10" false; taskOf "t0" "m2" "2025-11-03" false;
            taskOf "t2" "m2" "2025-11-03" true; taskOf "t3" "m2" "2025-11-03" false]
    (setMilestones [milestoneOf "m1"; milestoneOf "m2"]
       (setGoals [thesis] freshWorld)).

Definition newGoalBody : value :=
  VObj [("title", VStr "Piano"); ("minHoursPerWeek", VNum 5);
        ("priority", VNum 2)].

Definition newTaskBody : value :=
  VObj [("title", VStr "Draft"); ("date", VStr "2025-11-10");
        ("estimatedHours", VNum 1)].

(** Moving a task to 2025-11-03. *)
Definition moveTaskBody : value := VObj [("date", VStr "2025-11-03")].

Definition messageBody (sessionId : string) : value :=
  VObj [("sessionId", VStr sessionId); ("message", VStr "Please finalize.")].

Definition messageBodyAs (sessionId userId : string) : value :=
  VObj [("sessionId", VStr sessionId); ("message", VStr "Please finalize.");
        ("userId", VStr userId)].

(** A plan whose goal gives neither title nor hours: two tasks of 3 and
    1.5 hours, one with a negative and one with a textual estimate. *)
Definition untitledPlan : obj :=
  [("goal", VObj [("title", VStr "   ")]);
   ("milestones",
    VArr [VObj [("title", VStr "Scales");
                ("tasks", VArr [VObj [("title", VStr "C major");
                                      ("date", VStr "2025-11-10");
                                      ("estimatedHours", VNum 3)];
                                VObj [("estimatedHours", VNum (-2))]])];
          VObj [("tasks", VArr [VObj [("estimatedHours", VNum 1.5)];
                                VObj [("estimatedHours", VStr "4")]])]])].

Definition planOfHours (hours : float) : obj :=
  [("goal", VObj [("title", VStr "Marathon"); ("minHoursPerWeek", VNum hours)]);
   ("milestones", VArr [])].

(** The engine asks to finalize a plan of the given hours, reports
    iteration 7 and says the session stays active. *)
Definition finalizeAnswer (hours : float) : AgentServiceResponse :=
  {| reply := "Finalizing your plan.";
     action := Some {| action_type := "finalize_goal";
                       action_payload := Some (planOfHours hours) |};
     state := Some {| as_state := Some "finalized"; as_iteration := Some 7%float;
                      as_sessionActive := Some true; as_goalPreviewId := None |};
     context := None |}.

(** The engine replies without an iteration. *)
Definition plainAnswer : AgentServiceResponse :=
  {| reply := "Tell me more.";
     action := Some {| action_type := "none"; action_payload := None |};
     state := Some {| as_state := None; as_iteration := None;
                      as_sessionActive := None; as_goalPreviewId := None |};
     context := None |}.

(** A goal of 2 hours, which still fits beside the thesis. *)
Definition smallGoalBody : value :=
  VObj [("title", VStr "Piano"); ("minHoursPerWeek", VNum 2);
        ("priority", VNum 2)].

(** Raising the thesis to 19 hours a week. *)
Definition moreHoursBody : value := VObj [("minHoursPerWeek", VNum 19)].

(** The busy world with one task a milestone and date. *)
Definition tidyWorld : World :=
  setTasks [taskOf "t1" "m1" "2025-11-10" false; taskOf "t0" "m2" "2025-11-03" false]
    busyWorld.

(** Moving a task to 2025-11-10. *)
Definition laterTaskBody : value := VObj [("date", VStr "2025-11-10")].

(** The engine goes on with the conversation and reports iteration 7. *)
Definition countedAnswer : AgentServiceResponse :=
  {| reply := "Here is a draft.";
     action := Some {| action_type := "none"; action_payload := None |};
     state := Some {| as_state := Some "plan_generated"; as_iteration := Some 7%float;
                      as_sessionActive := None; as_goalPreviewId := None |};
     context := None |}.

(** A runtime whose engine reports an iteration to session s1 only. *)
Definition perSessionRuntime : Runtime :=
  {| trim := asciiTrim;
     localeCompare := byteOrder;
     parseDate := fun s => if isValidDay s then Some (s ++ "T00:00:00.000Z") else None;
     nowIso := "2025-11-01T09:00:00.000Z";
     showNumber := showFloat;
     autoId := fun n => "doc" ++ NilZero.string_of_uint (Nat.to_uint n);
     agentServiceUrl := Some "https://agent.example";
     agentAppName := None;
     fetchInit := fun _ _ =>
       Some {| http_status := 409; http_text := "exists"; http_final_response := None |};
     fetchRun := fun p =>
       if String.eqb (payload_session_id p) "s1" then engineAnswers countedAnswer
       else engineAnswers plainAnswer |}.

(** A paused goal of Alice's at 10 hours, beside the thesis. *)
Definition opera : GoalRecord :=
  {| goal_id := "g2"; goal_userId := "u1"; goal_title := "Opera"; goal_description := None;
     goal_status := paused; goal_color := None; hoursPerWeek := 10; goal_priority := 2;
     goal_createdAt := "2025-10-02T00:00:00.000Z";
     goal_updatedAt := "2025-10-02T00:00:00.000Z" |}.

Definition pausedWorld : World := setGoals [thesis; opera] busyWorld.

(** Resuming a goal. *)
Definition activateBody : value := VObj [("status", VStr "active")].

(** A milestone under M1. *)
Definition childMilestoneBody : value :=
  VObj [("title", VStr "Chapter 1"); ("parentMilestoneId", VStr "m1")].

(** * Properties of [sortBy] *)

Section SortBy.

Context {A : Type}.
Variable cmp : A -> A -> Z.

Lemma insertBy_perm (x : A) (l : list A) : Permutation (x :: l) (insertBy cmp x l).
Proof.
  induction l as [|y ys IH]; simpl.
  - apply Permutation_refl.
  - destruct (cmp x y <=? 0)%Z.
    + apply Permutation_refl.
    + eapply perm_trans; [apply perm_swap|].
      now apply perm_skip.
Qed.

Lemma sortBy_perm (l : list A) : Permutation l (sortBy cmp l).
Proof.
  induction l as [|x xs IH]; simpl.
  - constructor.
  - eapply perm_trans; [apply perm_skip, IH|].
    apply insertBy_perm.
Qed.

Lemma insertBy_hd (x a : A) (l : list A) :
  ascending cmp a x -> HdRel (ascending cmp) a l -> HdRel (ascending cmp) a (insertBy cmp x l).
Proof.
  intros Hax Hl. destruct l as [|y ys]; simpl.
  - now constructor.
  - destruct (cmp x y <=? 0)%Z; constructor; trivial.
    now inversion Hl.
Qed.

Lemma insertBy_sorted (Hanti : antisymmetric_cmp cmp) (x : A) (l : list A) :
  Sorted (ascending cmp) l -> Sorted (ascending cmp) (insertBy cmp x l).
Proof.
  induction 1 as [|y ys Hs IH Hhd]; simpl.
  - repeat constructor.
  - destruct (cmp x y <=? 0)%Z eqn:E.
    + apply Z.leb_le in E. repeat constructor; trivial.
    + apply Z.leb_gt in E. constructor; trivial.
      apply insertBy_hd; trivial.
      unfold ascending. apply Hanti in E. lia.
Qed.

Lemma sortBy_sorted (Hanti : antisymmetric_cmp cmp) (l : list A) :
  Sorted (ascending cmp) (sortBy cmp l).
Proof.
  induction l as [|x xs IH]; simpl.
  - constructor.
  - now apply insertBy_sorted.
Qed.

(** Stability: the elements that tie with a given key keep their order. *)
Lemma insertBy_stable (Hanti : antisymmetric_cmp cmp) (Htrans : transitive_cmp cmp)
    (k : A) (x : A) (l : list A) :
  filter (fun y => (cmp y k =? 0)%Z) (insertBy cmp x l)
  = filter (fun y => (cmp y k =? 0)%Z) (x :: l).
Proof.
  induction l as [|y ys IH]; simpl; trivial.
  destruct (cmp x y <=? 0)%Z eqn:E; simpl; trivial.
  apply Z.leb_gt in E.
  simpl in IH. rewrite IH.
  destruct (cmp x k =? 0)%Z eqn:Ex; destruct (cmp y k =? 0)%Z eqn:Ey; trivial.
  exfalso.
  apply Z.eqb_eq in Ex, Ey.
  assert (Hky : (cmp k y <= 0)%Z).
  { destruct (Z_lt_le_dec 0 (cmp k y)) as [H|H]; trivial.
    apply Hanti in H. lia. }
  assert (Hxy : (cmp x y <= 0)%Z) by (apply (Htrans x k y); lia).
  lia.
Qed.

Lemma sortBy_stable (Hanti : antisymmetric_cmp cmp) (Htrans : transitive_cmp cmp)
    (k : A) (l : list A) :
  filter (fun y => (cmp y k =? 0)%Z) (sortBy cmp l)
  = filter (fun y => (cmp y k =? 0)%Z) l.
Proof.
  induction l as [|x xs IH]; simpl; trivial.
  rewrite insertBy_stable by assumption.
  simpl. now rewrite IH.
Qed.

End SortBy.

Lemma filter_true {A : Type} (l : list A) : filter (fun _ => true) l = l.
Proof. induction l; simpl; congruence. Qed.

Lemma filter_andb {A : Type} (f g : A -> bool) (l : list A) :
  filter (fun x => f x && g x) l = filter f (filter g l).
Proof.
  induction l as [|x xs IH]; simpl; trivial.
  destruct (g x); simpl; destruct (f x); simpl; rewrite ?IH; trivial.
Qed.

Lemma fold_left_map {A B C : Type} (f : C -> B -> C) (g : A -> B) (l : list A) (acc : C) :
  fold_left f (map g l) acc = fold_left (fun c x => f c (g x)) l acc.
Proof. revert acc. induction l as [|x xs IH]; intros acc; simpl; trivial. Qed.

(** Sorting the images of a list is the image of sorting the list, when
    the comparator of the images is that of the list. *)
Lemma insertBy_map {A B : Type} (f : A -> B) (cmpA : A -> A -> Z) (cmpB : B -> B -> Z)
    (x : A) (l : list A) :
  (forall a b, cmpB (f a) (f b) = cmpA a b) ->
  insertBy cmpB (f x) (map f l) = map f (insertBy cmpA x l).
Proof.
  intros H. induction l as [|y ys IH]; simpl; trivial.
  rewrite H. destruct (cmpA x y <=? 0)%Z; simpl; trivial. now rewrite IH.
Qed.

Lemma sortBy_map {A B : Type} (f : A -> B) (cmpA : A -> A -> Z) (cmpB : B -> B -> Z)
    (l : list A) :
  (forall a b, cmpB (f a) (f b) = cmpA a b) ->
  sortBy cmpB (map f l) = map f (sortBy cmpA l).
Proof.
  intros H. induction l as [|x xs IH]; simpl; trivial.
  rewrite IH. now apply insertBy_map.
Qed.

(** * Numbers *)

Lemma ltb_nan_r (x : float) : PrimFloat.ltb x nan = false.
Proof. rewrite ltb_spec. destruct (Prim2SF x); reflexivity. Qed.

Lemma js_gt_nan (x : float) : js_gt nan x = false.
Proof. apply ltb_nan_r. Qed.

Lemma Prim2SF_zero : Prim2SF 0 = S754_zero false.
Proof. reflexivity. Qed.

(** [Math.max(0, x)] is never below zero. *)
Lemma Math_max_zero (x : float) : PrimFloat.ltb (Math_max 0 x) 0 = false.
Proof.
  unfold Math_max. destruct (PrimFloat.ltb 0 x) eqn:E1.
  - rewrite ltb_spec in *. rewrite Prim2SF_zero in *.
    destruct (Prim2SF x) as [s|s| |s m e]; trivial; destruct s; trivial; discriminate.
  - destruct (PrimFloat.ltb x 0) eqn:E2; [reflexivity|].
    change (PrimFloat.is_nan 0) with false. cbv iota.
    destruct (PrimFloat.is_nan x); [exact E2|].
    change (PrimFloat.get_sign 0) with false. reflexivity.
Qed.

(** * The context snapshot *)

Section ContextSnapshot.

Variable rt : Runtime.

Lemma sumActiveGoalHours_spec (userId : string) (w : World) :
  sumActiveGoalHours userId None w = (Ok (activeHoursOf userId w), w).
Proof.
  unfold sumActiveGoalHours, gets, activeHoursOf, sumHours, activeGoalsOf. simpl.
  rewrite filter_true, fold_left_map, filter_andb. reflexivity.
Qed.

Lemma listIncompleteTasksByUser_spec (userId : string) (w : World) :
  listIncompleteTasksByUser rt userId w
  = (Ok (sortBy (byTaskDate rt) (incompleteTasksOf userId w)), w).
Proof.
  unfold listIncompleteTasksByUser, gets, incompleteTasksOf, byTaskDate.
  reflexivity.
Qed.

Lemma showsTask_projections (l : list TaskRecord) : Forall2 showsTask l (map projectTask l).
Proof.
  induction l as [|t l IH]; simpl; constructor; trivial.
  unfold showsTask. simpl. repeat split.
Qed.

(** C8. [buildUserContext] reads without writing; the hours left are
    [max(0, availableHoursPerWeek - S)] for S the hours of the user's
    active goals, never below zero; [upcomingTasks] shows exactly the
    user's tasks that are not done, each by its id, title, goal,
    milestone, date, estimated hours and done flag, in ascending date
    order, the tasks of one date in the order the store lists them. *)
Theorem buildUserContext_snapshot (u : UserRecord) (w : World)
    (Hanti : antisymmetric_cmp (localeCompare rt))
    (Htrans : transitive_cmp (localeCompare rt)) :
  exists snapshot,
    buildUserContext rt u w = (Ok snapshot, w)
    /\ availableHoursLeft snapshot
       = Math_max 0 (PrimFloat.sub (availableHoursPerWeek u) (activeHoursOf (user_id u) w))
    /\ PrimFloat.ltb (availableHoursLeft snapshot) 0 = false
    /\ exists shown,
         Forall2 showsTask shown (upcomingTasks snapshot)
         /\ Permutation (incompleteTasksOf (user_id u) w) shown
         /\ Sorted (fun a b => (localeCompare rt (task_date a) (task_date b) <= 0)%Z) shown
         /\ forall date,
              filter (fun t => (localeCompare rt (task_date t) date =? 0)%Z) shown
              = filter (fun t => (localeCompare rt (task_date t) date =? 0)%Z)
                  (incompleteTasksOf (user_id u) w).
Proof.
  assert (HantiT : antisymmetric_cmp (byTaskDate rt)) by (intros a b; apply Hanti).
  assert (HtransT : transitive_cmp (byTaskDate rt)) by (intros a b c; apply Htrans).
  set (listed := incompleteTasksOf (user_id u) w).
  set (shown := sortBy (byTaskDate rt) (sortBy (byTaskDate rt) listed)).
  exists {| availableHoursLeft :=
              Math_max 0 (PrimFloat.sub (availableHoursPerWeek u)
                            (activeHoursOf (user_id u) w));
            upcomingTasks := map projectTask shown |}.
  split.
  { unfold buildUserContext, bind.
    rewrite listIncompleteTasksByUser_spec, sumActiveGoalHours_spec. unfold ret.
    do 3 f_equal. fold listed.
    apply (sortBy_map projectTask (byTaskDate rt)). reflexivity. }
  simpl. split; [reflexivity|]. split; [apply Math_max_zero|].
  exists shown. split; [apply showsTask_projections|]. split; [|split].
  - unfold shown. eapply perm_trans; apply sortBy_perm.
  - apply (sortBy_sorted (byTaskDate rt) HantiT).
  - intros date.
    pose proof (sortBy_stable (byTaskDate rt) HantiT HtransT
                  {| task_id := ""; task_goalId := ""; task_milestoneId := "";
                     task_userId := ""; task_title := ""; task_description := None;
                     task_date := date; task_estimatedHours := 0; task_done := false;
                     task_createdAt := ""; task_updatedAt := "" |}) as HT.
    unfold byTaskDate at 1 3 in HT. simpl in HT. unfold shown. now rewrite !HT.
Qed.

End ContextSnapshot.

(** * Reasoning about handlers *)

Lemma bind_inv {A B : Type} (m : M A) (f : A -> M B) (w w' : World) (out : outcome B) :
  bind m f w = (out, w') ->
  (exists a w1, m w = (Ok a, w1) /\ f a w1 = (out, w'))
  \/ (exists e, m w = (Throw e, w') /\ out = Throw e).
Proof.
  unfold bind. destruct (m w) as [[a|e] w1]; intros H.
  - left. now exists a, w1.
  - right. exists e. now inversion H.
Qed.

Lemma bind_Ok_inv {A B : Type} (m : M A) (f : A -> M B) (w w' : World) (b : B) :
  bind m f w = (Ok b, w') ->
  exists a w1, m w = (Ok a, w1) /\ f a w1 = (Ok b, w').
Proof.
  intros H. destruct (bind_inv _ _ _ _ _ H) as [?|[e [_ ?]]]; [assumption|discriminate].
Qed.

Lemma keeps_bind {T A B : Type} (part : World -> T) (m : M A) (f : A -> M B) :
  keeps part m -> (forall a, keeps part (f a)) -> keeps part (bind m f).
Proof.
  intros Hm Hf w. unfold bind. specialize (Hm w).
  destruct (m w) as [[a|e] w1]; simpl in *.
  - now rewrite Hf.
  - assumption.
Qed.

Lemma keeps_ret {T A : Type} (part : World -> T) (a : A) : keeps part (ret a).
Proof. intros w. reflexivity. Qed.

Lemma keeps_throw {T A : Type} (part : World -> T) (e : Thrown) : keeps part (@throw A e).
Proof. intros w. reflexivity. Qed.

Lemma keeps_gets {T A : Type} (part : World -> T) (f : World -> A) : keeps part (gets f).
Proof. intros w. reflexivity. Qed.

Lemma keeps_assert {T : Type} (part : World -> T) (c : bool) (s : Z) (msg : string) :
  keeps part (assert c s msg).
Proof. intros w. unfold assert. now destruct c. Qed.

Lemma keeps_run {T A : Type} (part : World -> T) (m : M A) (w w' : World) (out : outcome A) :
  keeps part m -> m w = (out, w') -> part w' = part w.
Proof. intros H E. specialize (H w). now rewrite E in H. Qed.

Ltac keeps_step :=
  match goal with
  | |- keeps _ (bind _ _) => apply keeps_bind; [|intros ?]
  | |- keeps _ (ret _) => apply keeps_ret
  | |- keeps _ (throw _) => apply keeps_throw
  | |- keeps _ (gets _) => apply keeps_gets
  | |- keeps _ (assert _ _ _) => apply keeps_assert
  | |- keeps _ (match ?x with _ => _ end) => destruct x
  | H : keeps ?p ?m |- keeps ?p ?m => exact H
  end.

Lemma plain_bind {A B : Type} (m : M A) (f : A -> M B) :
  plain m -> (forall a, plain (f a)) -> plain (bind m f).
Proof.
  intros Hm Hf w e w' H.
  destruct (bind_inv _ _ _ _ _ H) as [[a [w1 [_ H2]]]|[e' [H1 H2]]].
  - eapply Hf; eauto.
  - inversion H2; subst. eapply Hm; eauto.
Qed.

Lemma plain_ret {A : Type} (a : A) : plain (ret a).
Proof. intros w e w' H. discriminate. Qed.

Lemma plain_gets {A : Type} (f : World -> A) : plain (gets f).
Proof. intros w e w' H. discriminate. Qed.

Lemma plain_throw {A : Type} (e : Thrown) : plainError e -> plain (@throw A e).
Proof. intros He w e' w' H. inversion H; now subst. Qed.

Lemma plain_assert (c : bool) (s : Z) (msg : string) : plain (assert c s msg).
Proof. unfold assert. destruct c; [apply plain_ret|now apply plain_throw]. Qed.

Ltac plain_step :=
  match goal with
  | |- plain (bind _ _) => apply plain_bind; [|intros ?]
  | |- plain (ret _) => apply plain_ret
  | |- plain (gets _) => apply plain_gets
  | |- plain (throw _) => apply plain_throw; exact I
  | |- plain (assert _ _ _) => apply plain_assert
  | |- plain (match ?x with _ => _ end) => destruct x
  | H : plain ?m |- plain ?m => exact H
  end.

Section Frames.

Variable rt : Runtime.

Lemma buildUserContext_reads (u : UserRecord) (w : World) :
  exists snapshot, buildUserContext rt u w = (Ok snapshot, w).
Proof. unfold buildUserContext, bind. simpl. eexists. reflexivity. Qed.

Lemma previewForContextOf_reads (goalPreview : option value) (session : SessionStateRecord)
    (w : World) :
  exists p, previewForContextOf goalPreview session w = (Ok p, w).
Proof.
  unfold previewForContextOf.
  destruct (asRecord goalPreview); [eexists; reflexivity|].
  destruct (session_goalPreviewId session) as [pid|]; [|eexists; reflexivity].
  destruct (String.eqb pid ""); [eexists; reflexivity|].
  unfold bind. simpl. eexists. reflexivity.
Qed.

(** What the plan loops leave alone: everything but milestones, tasks
    and the id counter. *)
Section PlanLoops.

Context {T : Type}.
Variable part : World -> T.
Hypothesis part_setTasks : forall ts w, part (setTasks ts w) = part w.
Hypothesis part_setMilestones : forall ms w, part (setMilestones ms w) = part w.
Hypothesis part_setNextId : forall n w, part (setNextId n w) = part w.

Lemma keeps_createTask g m u t d date h : keeps part (createTask rt g m u t d date h).
Proof. intros w. simpl. now rewrite part_setTasks, part_setNextId. Qed.

Lemma keeps_updateTask id upd : keeps part (updateTask rt id upd).
Proof.
  intros w. unfold updateTask. destruct (find _ (tasks w)); simpl; auto.
Qed.

Lemma keeps_createMilestone g t d p : keeps part (createMilestone rt g t d p).
Proof. intros w. simpl. now rewrite part_setMilestones, part_setNextId. Qed.

Lemma keeps_updateMilestone id upd : keeps part (updateMilestone rt id upd).
Proof.
  intros w. unfold updateMilestone. destruct (find _ (milestones w)); simpl; auto.
Qed.

Lemma keeps_createPlanTask g m u plan : keeps part (createPlanTask rt g m u plan).
Proof.
  unfold createPlanTask.
  apply keeps_bind; [apply keeps_createTask|intros created].
  apply keeps_bind; [|intros ?; apply keeps_ret].
  destruct (truthy _); [|apply keeps_ret].
  apply keeps_bind; [apply keeps_updateTask|intros ?; apply keeps_ret].
Qed.

Lemma keeps_createPlanTasks g m u plans ids : keeps part (createPlanTasks rt g m u plans ids).
Proof.
  revert ids. induction plans as [|p rest IH]; intros ids; simpl.
  - apply keeps_ret.
  - apply keeps_bind; [apply keeps_createPlanTask|intros id; apply IH].
Qed.

Lemma keeps_createPlanMilestone g u plan ids : keeps part (createPlanMilestone rt g u plan ids).
Proof.
  assert (Hbody : forall v, keeps part
            (milestone <- createMilestone rt g
                            match nonBlankString rt (getField v "title") with
                            | Some s => trim rt s
                            | None => "Milestone"
                            end (asString (getField v "description")) None ;;
             (match milestoneStatusOf (getField v "status") with
              | Some s =>
                  if negb (MilestoneStatus_eqb s (ms_status milestone))
                  then _ <- updateMilestone rt (ms_id milestone)
                              {| um_title := None; um_description := None;
                                 um_status := Some s |} ;;
                       ret tt
                  else ret tt
              | None => ret tt
              end) ;;
             taskIds' <- createPlanTasks rt g (ms_id milestone) u
                           (arrayOrEmpty (getField v "tasks")) ids ;;
             ret (ms_id milestone, taskIds'))).
  { intros v.
    apply keeps_bind; [apply keeps_createMilestone|intros ms].
    apply keeps_bind.
    - destruct (milestoneStatusOf _); [|apply keeps_ret].
      destruct (negb _); [|apply keeps_ret].
      apply keeps_bind; [apply keeps_updateMilestone|intros ?; apply keeps_ret].
    - intros _. apply keeps_bind; [apply keeps_createPlanTasks|intros ?; apply keeps_ret]. }
  destruct plan; try apply Hbody. apply keeps_throw.
Qed.

Lemma keeps_createPlanMilestones g u plans mids tids :
  keeps part (createPlanMilestones rt g u plans mids tids).
Proof.
  revert mids tids. induction plans as [|p rest IH]; intros mids tids; simpl.
  - apply keeps_ret.
  - apply keeps_bind; [apply keeps_createPlanMilestone|intros r; apply IH].
Qed.

End PlanLoops.

End Frames.

(** * The finalization committer *)

Section Finalization.

Variable rt : Runtime.

Lemma createGoal_refused (input : CreateGoalInput) (w : World) :
  cg_hoursPerWeek input = None ->
  createGoal rt input w = (Throw (FirestoreError "hoursPerWeek"), w).
Proof. intros H. unfold createGoal. now rewrite H. Qed.

(** A run of the committer: the plan is malformed, the capacity check
    rejects it, or the store refuses the goal, whose [hoursPerWeek] the
    committer never sets.  Nothing is written on any of the three. *)
Lemma finalize_run (u : UserRecord) (payload : obj) (w : World) :
  finalizeGoalPlanFromAgentPayload rt u payload w
  = (Throw (finalizeError rt u payload w), w).
Proof.
  assert (Hpreview :
    (match previewIdOf payload with
     | Some i => if String.eqb i "" then ret None else findGoalPreviewById i
     | None => ret None
     end) w = (Ok (resolvedPreview payload w), w)).
  { unfold resolvedPreview. destruct (previewIdOf payload) as [i|]; trivial.
    destruct (String.eqb i ""); trivial. }
  unfold finalizeGoalPlanFromAgentPayload, finalizeError. unfold bind at 1.
  rewrite Hpreview. fold (resolvedPlan payload w). cbv zeta.
  destruct (goalFieldsOf rt _ _) as [f|]; trivial.
  unfold bind at 1. rewrite sumActiveGoalHours_spec.
  destruct (js_gt _ _); [reflexivity|].
  unfold bind. now rewrite createGoal_refused.
Qed.

Lemma finalize_never_Ok (u : UserRecord) (payload : obj) (w w' : World)
    (res : FinalizeResult) :
  finalizeGoalPlanFromAgentPayload rt u payload w <> (Ok res, w').
Proof. rewrite finalize_run. discriminate. Qed.

Lemma finalize_reads (u : UserRecord) (payload : obj) :
  reads (finalizeGoalPlanFromAgentPayload rt u payload).
Proof. intros w out w' H. rewrite finalize_run in H. now inversion H. Qed.

(** A capacity rejection says that the total exceeds the hours the user
    has. *)
Lemma finalize_capacity_conflict (u : UserRecord) (payload : obj) (w w' : World)
    (s : Z) (msg : string) (a r : float) (c : list GoalSummary) :
  finalizeGoalPlanFromAgentPayload rt u payload w
  = (Throw (ApiError s msg (CapacityDetails a r c)), w') ->
  w' = w /\ s = 409%Z /\ a = availableHoursPerWeek u /\ js_gt r a = true.
Proof.
  intros H. rewrite finalize_run in H. unfold finalizeError in H. cbv zeta in H.
  destruct (goalFieldsOf rt _ _) as [f|]; [|discriminate].
  destruct (js_gt _ _) eqn:E; [|discriminate].
  inversion H; subst. repeat split; trivial.
Qed.

Lemma keeps_finalize {T : Type} (part : World -> T) (u : UserRecord) (payload : obj) :
  keeps part (finalizeGoalPlanFromAgentPayload rt u payload).
Proof. intros w. now rewrite finalize_run. Qed.

(** The goal-level fields the committer extracts, with their defaults. *)
Lemma goalFieldsOf_defaults (goalPlan : value) (milestonePlans : list value) (f : GoalFields) :
  goalFieldsOf rt goalPlan milestonePlans = Some f ->
  ((forall s, getField goalPlan "title" = Some (VStr s) -> trim rt s = "")
   -> gf_title f = "Untitled Goal")
  /\ (asFiniteNumber (getField goalPlan "priority") = None -> gf_priority f = 0%Z)
  /\ (asFiniteNumber (getField goalPlan "color") = None -> gf_color f = None)
  /\ (asFiniteNumber (getField goalPlan "minHoursPerWeek") = None
      -> computePlanTaskHours milestonePlans = Some (gf_planHours f)).
Proof.
  unfold goalFieldsOf. intros F.
  destruct (match asFiniteNumber (getField goalPlan "minHoursPerWeek") with
            | Some h => Some (Math_max 0 h)
            | None => computePlanTaskHours milestonePlans
            end) as [h|] eqn:Hh; [|discriminate].
  inversion F; subst f; simpl. clear F.
  repeat split.
  - intros Hblank. unfold nonBlankString.
    destruct (getField goalPlan "title") as [[| | |s| |]|]; trivial.
    now rewrite (Hblank s eq_refl).
  - intros Hp. now rewrite Hp.
  - intros Hc. exact Hc.
  - intros Hm. now rewrite Hm in Hh.
Qed.

Lemma is_finite_not_nan (h : float) : PrimFloat.is_finite h = true -> PrimFloat.is_nan h = false.
Proof.
  unfold PrimFloat.is_finite. destruct (PrimFloat.is_nan h); [discriminate|trivial].
Qed.

Lemma planTaskHours_counted (task : value) : planTaskHours task = countedPlanHours task.
Proof.
  unfold planTaskHours, countedPlanHours, asFiniteNumber.
  destruct (getField task "estimatedHours") as [[| |h| | |]|]; trivial.
  destruct (PrimFloat.is_finite h) eqn:Hfin; trivial. simpl.
  unfold Math_max. destruct (PrimFloat.ltb 0 h); trivial.
  destruct (PrimFloat.ltb h 0); trivial.
  change (PrimFloat.is_nan 0) with false. cbv iota.
  now rewrite (is_finite_not_nan h Hfin).
Qed.

Lemma milestonePlanHours_counted (milestone : value) (hours : float) :
  milestonePlanHours milestone = Some hours ->
  hours = sumHours (map countedPlanHours (arrayOrEmpty (getField milestone "tasks"))).
Proof.
  unfold milestonePlanHours, sumHours. rewrite fold_left_map.
  assert (E : forall l acc,
            fold_left (fun sum task => PrimFloat.add sum (planTaskHours task)) l acc
            = fold_left (fun c x => PrimFloat.add c (countedPlanHours x)) l acc).
  { induction l as [|x xs IH]; intros acc; simpl; trivial.
    now rewrite IH, planTaskHours_counted. }
  destruct milestone; try discriminate; intros H; injection H as <-;
    first [apply E | reflexivity].
Qed.

Lemma reducePlanHours_nested (milestones : list value) (acc hours : float) :
  reducePlanHours acc milestones = Some hours ->
  hours
  = fold_left PrimFloat.add
      (map (fun milestone =>
              sumHours (map countedPlanHours (arrayOrEmpty (getField milestone "tasks"))))
         milestones) acc.
Proof.
  revert acc. induction milestones as [|m ms IH]; intros acc; simpl.
  - intros H. now injection H as <-.
  - destruct (milestonePlanHours m) as [x|] eqn:Hm; [|discriminate].
    intros H. apply IH in H. now rewrite <- (milestonePlanHours_counted m x Hm).
Qed.

(** When the plan gives no hours, the hours extracted are those of its
    nested tasks. *)
Lemma goalFieldsOf_nested (goalPlan : value) (milestonePlans : list value) (f : GoalFields) :
  goalFieldsOf rt goalPlan milestonePlans = Some f ->
  asFiniteNumber (getField goalPlan "minHoursPerWeek") = None ->
  gf_planHours f = nestedPlanHours milestonePlans.
Proof.
  intros F Hnone. destruct (goalFieldsOf_defaults _ _ _ F) as [_ [_ [_ H]]].
  specialize (H Hnone). unfold computePlanTaskHours in H.
  now apply reducePlanHours_nested in H.
Qed.

(** C9. No finalization commits a goal. The committer extracts the
    goal's fields with their defaults (the title "Untitled Goal" for a
    missing or blank one, priority 0, no color, and for hours that are
    no finite number the hours of the nested plan tasks, one that is no
    finite number or is negative counting as zero), and title and hours
    show in the pending entry of a capacity rejection; but it hands the
    hours to [createGoal] under the name [minHoursPerWeek], so the
    record's [hoursPerWeek] is [undefined], the store refuses the write,
    and every run that passes the capacity check ends in that error.
    Nothing is written on any run. *)
Theorem finalize_never_commits (u : UserRecord) (payload : obj) (w : World) :
  let plan := resolvedPlan payload w in
  let run := finalizeGoalPlanFromAgentPayload rt u payload w in
  (exists e, run = (Throw e, w))
  /\ forall f,
       goalFieldsOf rt (goalPlanOf plan) (milestonePlansOf plan) = Some f ->
       let total := PrimFloat.add (activeHoursOf (user_id u) w) (gf_planHours f) in
       ((forall s, getField (goalPlanOf plan) "title" = Some (VStr s) -> trim rt s = "")
        -> gf_title f = "Untitled Goal")
       /\ (asFiniteNumber (getField (goalPlanOf plan) "priority") = None
           -> gf_priority f = 0%Z)
       /\ (asFiniteNumber (getField (goalPlanOf plan) "color") = None -> gf_color f = None)
       /\ (asFiniteNumber (getField (goalPlanOf plan) "minHoursPerWeek") = None
           -> gf_planHours f = nestedPlanHours (milestonePlansOf plan))
       /\ (js_gt total (availableHoursPerWeek u) = true ->
           exists msg listed,
             run = (Throw (ApiError 409 msg
                             (CapacityDetails (availableHoursPerWeek u) total
                                (listed
                                 ++ [{| gs_goalId := "pending"; gs_title := gf_title f;
                                        gs_weeklyHours := Some (gf_planHours f) |}]))), w))
       /\ (js_gt total (availableHoursPerWeek u) = false ->
           run = (Throw (FirestoreError "hoursPerWeek"), w)).
Proof.
  intros plan run. unfold run. rewrite finalize_run. split; [eexists; reflexivity|].
  intros f F. cbv zeta.
  destruct (goalFieldsOf_defaults _ _ _ F) as [H1 [H2 [H3 _]]].
  split; [exact H1|]. split; [exact H2|]. split; [exact H3|].
  split; [now apply goalFieldsOf_nested|].
  unfold finalizeError. fold plan. rewrite F. cbv zeta.
  split; intros E; rewrite E; [do 2 eexists|]; reflexivity.
Qed.

End Finalization.

(** * Direct goal creation *)

Section GoalCreation.

Variable rt : Runtime.

(** [POST /v1/goals] for a request that passes validation: the capacity
    check against S, the hours of the caller's active goals, and H, the
    requested hours; and past it the store's refusal of the goal. *)
Lemma postGoals_run (userId : string) (u : UserRecord) (body : option value)
    (title : string) (hours priority : float) (w : World) :
  String.eqb userId "" = false ->
  find (fun x => String.eqb (user_id x) userId) (users w) = Some u ->
  nonBlankString rt (getField (bodyOrEmpty body) "title") = Some title ->
  asFiniteNumber (getField (bodyOrEmpty body) "minHoursPerWeek") = Some hours ->
  js_ge hours 0 = true ->
  asFiniteNumber (getField (bodyOrEmpty body) "priority") = Some priority ->
  isInteger priority = true ->
  (forall c, getField (bodyOrEmpty body) "color" = Some c ->
             exists q, asFiniteNumber (Some c) = Some q) ->
  let total := PrimFloat.add (activeHoursOf userId w) hours in
  postGoals rt (Some userId) body w
  = if js_gt total (availableHoursPerWeek u) then
      (Throw (ApiError 409
                (capacityMessage rt (availableHoursPerWeek u) total "h/week with new goal).")
                (CapacityDetails (availableHoursPerWeek u) total
                   (activeSummariesRead userId w))), w)
    else (Throw (FirestoreError "hoursPerWeek"), w).
Proof.
  intros Huser Hfind Htitle Hhours Hnonneg Hprio Hint Hcolor total.
  assert (Hc : match getField (bodyOrEmpty body) "color" with
               | Some c => match asFiniteNumber (Some c) with
                           | Some _ => true
                           | None => false
                           end
               | None => true
               end = true).
  { destruct (getField (bodyOrEmpty body) "color") as [c|] eqn:E; trivial.
    destruct (Hcolor c eq_refl) as [q ->]. reflexivity. }
  unfold postGoals, requireUser. rewrite Huser.
  unfold bind at 1. unfold ret at 1.
  unfold bind at 1. unfold findUserById, gets at 1. rewrite Hfind.
  rewrite Htitle, Hhours, Hnonneg, Hprio, Hint, Hc.
  unfold bind at 1. unfold assert at 1. unfold ret at 1.
  unfold bind at 1. unfold assert at 1. unfold ret at 1.
  unfold bind at 1. unfold assert at 1. unfold ret at 1.
  unfold bind at 1. rewrite sumActiveGoalHours_spec. fold total.
  destruct (js_gt total (availableHoursPerWeek u)).
  - reflexivity.
  - now rewrite createGoal_refused.
Qed.

End GoalCreation.

(** * The task-date conflict check *)

Lemma conflictingTasks_In (milestoneId userId date : string) (excludeTaskId : option string)
    (w : World) (t : TaskRecord) :
  In t (conflictingTasks milestoneId userId date excludeTaskId w)
  <-> In t (tasks w)
      /\ task_milestoneId t = milestoneId
      /\ task_userId t = userId
      /\ task_date t = date
      /\ excludeTaskId <> Some (task_id t).
Proof.
  unfold conflictingTasks. rewrite filter_In, !andb_true_iff, !String.eqb_eq, negb_true_iff.
  assert (Hex : optEqb excludeTaskId (task_id t) = false <-> excludeTaskId <> Some (task_id t)).
  { destruct excludeTaskId as [x|]; simpl.
    - rewrite String.eqb_neq. split; intros H; congruence.
    - split; intros; congruence. }
  rewrite Hex. tauto.
Qed.

Lemma ensureNoTaskConflict_run (milestoneId userId date : string)
    (excludeTaskId : option string) (w : World) :
  ensureNoTaskConflict milestoneId userId date excludeTaskId w
  = match conflictingTasks milestoneId userId date excludeTaskId w with
    | [] => (Ok tt, w)
    | clash =>
        (Throw (ApiError 409
                  "Task date conflicts with an existing scheduled task or calendar event."
                  (ConflictingTaskIds (map task_id clash))), w)
    end.
Proof.
  unfold ensureNoTaskConflict, bind, listTasksByMilestone, gets.
  assert (E : filter (fun task => negb (optEqb excludeTaskId (task_id task))
                                  && String.eqb (task_userId task) userId
                                  && String.eqb (task_date task) date)
                (filter (fun t => String.eqb (task_milestoneId t) milestoneId) (tasks w))
              = conflictingTasks milestoneId userId date excludeTaskId w).
  { unfold conflictingTasks. rewrite <- filter_andb. apply filter_ext. intros t.
    destruct (String.eqb (task_milestoneId t) milestoneId),
             (String.eqb (task_userId t) userId),
             (String.eqb (task_date t) date),
             (optEqb excludeTaskId (task_id t)); reflexivity. }
  rewrite E. now destruct (conflictingTasks _ _ _ _ _).
Qed.

Section TaskConflict.

Variable rt : Runtime.

Lemma assertOwnedMilestone_run (milestoneId userId : string) (m : MilestoneRecord)
    (g : GoalRecord) (w : World) :
  find (fun x => String.eqb (ms_id x) milestoneId) (milestones w) = Some m ->
  find (fun x => String.eqb (goal_id x) (ms_goalId m)) (goals w) = Some g ->
  goal_userId g = userId ->
  assertOwnedMilestone milestoneId userId w = (Ok m, w).
Proof.
  intros Hm Hg Ho.
  unfold assertOwnedMilestone, bind, getMilestoneById, gets. rewrite Hm.
  unfold assertOwnedGoal, bind, getGoalById, gets. rewrite Hg.
  apply String.eqb_eq in Ho. now rewrite Ho.
Qed.

Lemma validateIsoDate_run (body : option value) (day : string) (w : World) :
  requestDay rt body day ->
  validateIsoDate rt (getField (bodyOrEmpty body) "date") w = (Ok day, w).
Proof.
  intros [text [iso [H1 [H2 H3]]]]. unfold validateIsoDate. rewrite H1, H2. now subst.
Qed.

Lemma postMilestoneTask_run (userId milestoneId : string) (body : option value)
    (m : MilestoneRecord) (g : GoalRecord) (title day : string) (hours : float) (w : World) :
  String.eqb userId "" = false ->
  find (fun x => String.eqb (ms_id x) milestoneId) (milestones w) = Some m ->
  find (fun x => String.eqb (goal_id x) (ms_goalId m)) (goals w) = Some g ->
  goal_userId g = userId ->
  nonBlankString rt (getField (bodyOrEmpty body) "title") = Some title ->
  validDescription (getField (bodyOrEmpty body) "description") = true ->
  requestDay rt body day ->
  asFiniteNumber (getField (bodyOrEmpty body) "estimatedHours") = Some hours ->
  js_ge hours 0 = true ->
  postMilestoneTask rt (Some userId) milestoneId body w
  = match conflictingTasks milestoneId userId day None w with
    | [] =>
        createTask rt (ms_goalId m) milestoneId userId (trim rt title)
          (asString (getField (bodyOrEmpty body) "description")) day hours w
    | clash =>
        (Throw (ApiError 409
                  "Task date conflicts with an existing scheduled task or calendar event."
                  (ConflictingTaskIds (map task_id clash))), w)
    end.
Proof.
  intros Huser Hm Hg Ho Htitle Hdesc Hday Hhours Hnonneg.
  assert (Hid : ms_id m = milestoneId).
  { apply find_some in Hm. now apply String.eqb_eq. }
  unfold postMilestoneTask, requireUser. rewrite Huser.
  unfold bind at 1. unfold ret at 1.
  unfold bind at 1. rewrite (assertOwnedMilestone_run _ _ _ _ _ Hm Hg Ho).
  rewrite Htitle, Hdesc.
  unfold bind at 1. unfold assert at 1. unfold ret at 1.
  unfold bind at 1. rewrite (validateIsoDate_run _ _ _ Hday).
  unfold bind at 1. unfold validateEstimatedHours. rewrite Hhours.
  rewrite Hnonneg.
  unfold bind at 1. unfold assert at 1. unfold ret at 1. unfold ret at 1.
  unfold bind at 1. rewrite ensureNoTaskConflict_run, Hid.
  now destruct (conflictingTasks _ _ _ _ _).
Qed.

End TaskConflict.

Section TaskUpdate.

Variable rt : Runtime.

Lemma plain_not_conflict (m : M TaskRecord) (w : World) : plain m -> ~ isDateConflict (m w).
Proof.
  intros Hplain [status [msg [ids [w' H]]]]. now apply Hplain in H.
Qed.

Lemma plain_updateTask (id : string) (upd : UpdateTaskInput) : plain (updateTask rt id upd).
Proof.
  intros w e w' H. unfold updateTask in H.
  destruct (find _ (tasks w)); inversion H. exact I.
Qed.

Lemma plain_validateEstimatedHours (v : option value) : plain (validateEstimatedHours v).
Proof.
  unfold validateEstimatedHours. repeat plain_step.
Qed.

Lemma assertOwnedTask_run (taskId userId : string) (t : TaskRecord) (m : MilestoneRecord)
    (g : GoalRecord) (w : World) :
  find (fun x => String.eqb (task_id x) taskId) (tasks w) = Some t ->
  find (fun x => String.eqb (ms_id x) (task_milestoneId t)) (milestones w) = Some m ->
  find (fun x => String.eqb (goal_id x) (ms_goalId m)) (goals w) = Some g ->
  goal_userId g = userId ->
  assertOwnedTask taskId userId w = (Ok (t, m), w).
Proof.
  intros Ht Hm Hg Ho.
  unfold assertOwnedTask, bind, getTaskById, gets. rewrite Ht.
  fold (@bind MilestoneRecord (TaskRecord * MilestoneRecord)).
  unfold bind. now rewrite (assertOwnedMilestone_run _ _ _ _ _ Hm Hg Ho).
Qed.

(** [PATCH /v1/tasks/:taskId] with a date, up to and including the
    conflict check. *)
Lemma patchTask_run (userId taskId : string) (body : option value) (t : TaskRecord)
    (m : MilestoneRecord) (g : GoalRecord) (day : string) (w : World) :
  String.eqb userId "" = false ->
  find (fun x => String.eqb (task_id x) taskId) (tasks w) = Some t ->
  find (fun x => String.eqb (ms_id x) (task_milestoneId t)) (milestones w) = Some m ->
  find (fun x => String.eqb (goal_id x) (ms_goalId m)) (goals w) = Some g ->
  goal_userId g = userId ->
  (forall v, getField (bodyOrEmpty body) "title" = Some v ->
             exists s, nonBlankString rt (Some v) = Some s) ->
  validDescription (getField (bodyOrEmpty body) "description") = true ->
  requestDay rt body day ->
  match conflictingTasks (task_milestoneId t) userId day (Some (task_id t)) w with
  | [] => ~ isDateConflict (patchTask rt (Some userId) taskId body w)
  | clash =>
      patchTask rt (Some userId) taskId body w
      = (Throw (ApiError 409
                  "Task date conflicts with an existing scheduled task or calendar event."
                  (ConflictingTaskIds (map task_id clash))), w)
  end.
Proof.
  intros Huser Ht Hm Hg Ho Htitle Hdesc Hday.
  assert (Hid : ms_id m = task_milestoneId t).
  { apply find_some in Hm. now apply String.eqb_eq. }
  assert (Hdate : exists v, getField (bodyOrEmpty body) "date" = Some v).
  { destruct Hday as [text [iso [H1 _]]]. unfold nonBlankString in H1.
    destruct (getField (bodyOrEmpty body) "date") as [v|]; [now exists v|discriminate]. }
  destruct Hdate as [dv Hdv].
  pose proof (validateIsoDate_run rt body day w Hday) as Hvalid. rewrite Hdv in Hvalid.
  assert (Htitle' : exists newTitle,
    (match getField (bodyOrEmpty body) "title" with
     | None => ret None
     | Some v =>
         match nonBlankString rt (Some v) with
         | Some s => ret (Some (trim rt s))
         | None => throw (ApiError 400 "Invalid title." NoDetails)
         end
     end) w = (Ok newTitle, w)).
  { destruct (getField (bodyOrEmpty body) "title") as [v|]; [|eexists; reflexivity].
    destruct (Htitle v eq_refl) as [s ->]. eexists; reflexivity. }
  destruct Htitle' as [newTitle HnewTitle].
  assert (Hdesc' : exists newDescription,
    (match getField (bodyOrEmpty body) "description" with
     | None => ret None
     | Some v =>
         assert (validDescription (Some v)) 400 "description must be a string or null." ;;
         ret (Some (asString (Some v)))
     end)%js w = (Ok newDescription, w)).
  { destruct (getField (bodyOrEmpty body) "description") as [v|]; [|eexists; reflexivity].
    rewrite Hdesc. eexists; reflexivity. }
  destruct Hdesc' as [newDescription HnewDescription].
  destruct (conflictingTasks _ _ _ _ _) as [|c cs] eqn:Hclash;
    unfold patchTask, requireUser; rewrite Huser;
    unfold bind at 1; unfold ret at 1;
    unfold bind at 1; rewrite (assertOwnedTask_run _ _ _ _ _ _ Ht Hm Hg Ho);
    cbv zeta; unfold fst, snd;
    unfold bind at 1; rewrite HnewTitle;
    unfold bind at 1; rewrite HnewDescription;
    rewrite Hdv;
    unfold bind at 1; unfold bind at 1; rewrite Hvalid;
    unfold bind at 1; rewrite ensureNoTaskConflict_run, Hid, Hclash;
    [|reflexivity].
  unfold ret at 1.
  apply plain_not_conflict.
  repeat first [plain_step | apply plain_validateEstimatedHours | apply plain_updateTask].
Qed.

Lemma find_replaceTask (k : string) (h : TaskRecord -> TaskRecord) (l : list TaskRecord) :
  (forall x, task_id (h x) = task_id x) ->
  find (fun x => String.eqb (task_id x) k) (map (replaceTask k h) l)
  = option_map h (find (fun x => String.eqb (task_id x) k) l).
Proof.
  intros Hh. induction l as [|x xs IH]; simpl; trivial.
  unfold replaceTask at 1 2. destruct (String.eqb (task_id x) k) eqn:E.
  - now rewrite Hh, E.
  - rewrite E. apply IH.
Qed.

(** [PATCH /v1/tasks/:taskId] with a date that collides with no other
    task and a body that is otherwise in order: the update is made, and
    it carries the date. *)
Lemma patchTask_accepted (userId taskId : string) (body : option value) (t : TaskRecord)
    (m : MilestoneRecord) (g : GoalRecord) (day : string) (w : World) :
  String.eqb userId "" = false ->
  find (fun x => String.eqb (task_id x) taskId) (tasks w) = Some t ->
  find (fun x => String.eqb (ms_id x) (task_milestoneId t)) (milestones w) = Some m ->
  find (fun x => String.eqb (goal_id x) (ms_goalId m)) (goals w) = Some g ->
  goal_userId g = userId ->
  (forall v, getField (bodyOrEmpty body) "title" = Some v ->
             exists s, nonBlankString rt (Some v) = Some s) ->
  validDescription (getField (bodyOrEmpty body) "description") = true ->
  requestDay rt body day ->
  restOfUpdateValid body ->
  conflictingTasks (task_milestoneId t) userId day (Some (task_id t)) w = [] ->
  exists upd,
    ut_date upd = Some day
    /\ patchTask rt (Some userId) taskId body w
       = (Ok (applyTaskUpdate rt upd t),
          setTasks (map (replaceTask taskId (applyTaskUpdate rt upd)) (tasks w)) w).
Proof.
  intros Huser Ht Hm Hg Ho Htitle Hdesc Hday [Hhours Hdone] Hclash.
  assert (Hid : ms_id m = task_milestoneId t).
  { apply find_some in Hm. now apply String.eqb_eq. }
  assert (Htid : task_id t = taskId).
  { apply find_some in Ht. now apply String.eqb_eq. }
  assert (Hdate : exists v, getField (bodyOrEmpty body) "date" = Some v).
  { destruct Hday as [text [iso [H1 _]]]. unfold nonBlankString in H1.
    destruct (getField (bodyOrEmpty body) "date") as [v|]; [now exists v|discriminate]. }
  destruct Hdate as [dv Hdv].
  pose proof (validateIsoDate_run rt body day w Hday) as Hvalid. rewrite Hdv in Hvalid.
  assert (Htitle' : exists newTitle,
    (match getField (bodyOrEmpty body) "title" with
     | None => ret None
     | Some v =>
         match nonBlankString rt (Some v) with
         | Some s => ret (Some (trim rt s))
         | None => throw (ApiError 400 "Invalid title." NoDetails)
         end
     end) w = (Ok newTitle, w)).
  { destruct (getField (bodyOrEmpty body) "title") as [v|]; [|eexists; reflexivity].
    destruct (Htitle v eq_refl) as [s ->]. eexists; reflexivity. }
  destruct Htitle' as [newTitle HnewTitle].
  assert (Hdesc' : exists newDescription,
    (match getField (bodyOrEmpty body) "description" with
     | None => ret None
     | Some v =>
         assert (validDescription (Some v)) 400 "description must be a string or null." ;;
         ret (Some (asString (Some v)))
     end)%js w = (Ok newDescription, w)).
  { destruct (getField (bodyOrEmpty body) "description") as [v|]; [|eexists; reflexivity].
    rewrite Hdesc. eexists; reflexivity. }
  destruct Hdesc' as [newDescription HnewDescription].
  assert (Hhours' : exists newHours,
    (match getField (bodyOrEmpty body) "estimatedHours" with
     | None => ret None
     | Some v => h <- validateEstimatedHours (Some v) ;; ret (Some h)
     end)%js w = (Ok newHours, w)).
  { destruct (getField (bodyOrEmpty body) "estimatedHours") as [v|]; [|eexists; reflexivity].
    destruct (Hhours v eq_refl) as [h [E1 E2]].
    unfold bind, validateEstimatedHours. rewrite E1. unfold bind, assert. rewrite E2.
    eexists; reflexivity. }
  destruct Hhours' as [newHours HnewHours].
  assert (Hdone' : exists newDone,
    (match getField (bodyOrEmpty body) "done" with
     | None => ret None
     | Some (VBool d) => ret (Some d)
     | Some _ => throw (ApiError 400 "done must be a boolean." NoDetails)
     end) w = (Ok newDone, w)).
  { destruct (getField (bodyOrEmpty body) "done") as [v|]; [|eexists; reflexivity].
    destruct (Hdone v eq_refl) as [d ->]. eexists; reflexivity. }
  destruct Hdone' as [newDone HnewDone].
  exists {| ut_title := newTitle; ut_description := newDescription; ut_date := Some day;
            ut_estimatedHours := newHours; ut_done := newDone |}.
  split; [reflexivity|].
  unfold patchTask, requireUser. rewrite Huser.
  unfold bind at 1. unfold ret at 1.
  unfold bind at 1. rewrite (assertOwnedTask_run _ _ _ _ _ _ Ht Hm Hg Ho).
  cbv zeta. unfold fst, snd.
  unfold bind at 1. rewrite HnewTitle.
  unfold bind at 1. rewrite HnewDescription.
  rewrite Hdv.
  unfold bind at 1. unfold bind at 1. rewrite Hvalid.
  unfold bind at 1. rewrite ensureNoTaskConflict_run, Hid, Hclash.
  unfold ret at 1.
  unfold bind at 1. rewrite HnewHours.
  unfold bind at 1. rewrite HnewDone.
  assert (Hhas : match newTitle, newDescription, Some day, newHours, newDone with
                 | None, None, None, None, None => false
                 | _, _, _, _, _ => true
                 end = true).
  { destruct newTitle, newDescription; reflexivity. }
  rewrite Hhas. unfold bind, assert, ret.
  unfold updateTask. rewrite Htid, Ht. reflexivity.
Qed.

End TaskUpdate.

Section TaskWrites.

Variable rt : Runtime.

Lemma inhabited_list {A : Type} (l : list A) : (exists x, In x l) <-> l <> [].
Proof.
  destruct l as [|x xs]; split.
  - intros [x []].
  - congruence.
  - discriminate.
  - intros _. exists x. now left.
Qed.

Lemma conflict_ids (clash : list TaskRecord) (P : TaskRecord -> Prop) :
  (forall t, In t clash <-> P t) ->
  forall id, In id (map task_id clash) <-> exists t, P t /\ task_id t = id.
Proof.
  intros H id. rewrite in_map_iff. split.
  - intros [t [E I]]. exists t. split; trivial. now apply H.
  - intros [t [I E]]. exists t. split; trivial. now apply H.
Qed.

(** C4. A task write that carries a date (creating a task under a
    milestone, or changing the date of a task) and passes validation is
    rejected with a 409 listing the conflicting task ids exactly when
    another task of the same user under the same milestone has exactly
    that date, the task being updated not counted; without such a task a
    creation succeeds, whatever other milestones hold on that date, and
    so does an update whose body is otherwise in order: the task is then
    stored under its id with the new date. *)
Theorem task_date_conflict (userId : string) (w : World) :
  String.eqb userId "" = false ->
  (forall milestoneId body m g title day hours,
      find (fun x => String.eqb (ms_id x) milestoneId) (milestones w) = Some m ->
      find (fun x => String.eqb (goal_id x) (ms_goalId m)) (goals w) = Some g ->
      goal_userId g = userId ->
      nonBlankString rt (getField (bodyOrEmpty body) "title") = Some title ->
      validDescription (getField (bodyOrEmpty body) "description") = true ->
      requestDay rt body day ->
      asFiniteNumber (getField (bodyOrEmpty body) "estimatedHours") = Some hours ->
      js_ge hours 0 = true ->
      let attempt := postMilestoneTask rt (Some userId) milestoneId body w in
      let collides t :=
        In t (tasks w) /\ task_milestoneId t = milestoneId
        /\ task_userId t = userId /\ task_date t = day in
      ((exists t, collides t) <-> isDateConflict attempt)
      /\ (isDateConflict attempt ->
          exists msg ids,
            attempt = (Throw (ApiError 409 msg (ConflictingTaskIds ids)), w)
            /\ forall id, In id ids <-> exists t, collides t /\ task_id t = id)
      /\ (~ isDateConflict attempt ->
          exists created,
            fst attempt = Ok created
            /\ In created (tasks (snd attempt))
            /\ task_milestoneId created = milestoneId
            /\ task_userId created = userId
            /\ task_date created = day))
  /\ (forall taskId body t m g day,
      find (fun x => String.eqb (task_id x) taskId) (tasks w) = Some t ->
      find (fun x => String.eqb (ms_id x) (task_milestoneId t)) (milestones w) = Some m ->
      find (fun x => String.eqb (goal_id x) (ms_goalId m)) (goals w) = Some g ->
      goal_userId g = userId ->
      (forall v, getField (bodyOrEmpty body) "title" = Some v ->
                 exists s, nonBlankString rt (Some v) = Some s) ->
      validDescription (getField (bodyOrEmpty body) "description") = true ->
      requestDay rt body day ->
      let attempt := patchTask rt (Some userId) taskId body w in
      let collides x :=
        In x (tasks w) /\ task_milestoneId x = task_milestoneId t
        /\ task_userId x = userId /\ task_date x = day
        /\ task_id x <> task_id t in
      ((exists x, collides x) <-> isDateConflict attempt)
      /\ (isDateConflict attempt ->
          exists msg ids,
            attempt = (Throw (ApiError 409 msg (ConflictingTaskIds ids)), w)
            /\ forall id, In id ids <-> exists x, collides x /\ task_id x = id)
      /\ (~ isDateConflict attempt ->
          restOfUpdateValid body ->
          exists updated,
            fst attempt = Ok updated
            /\ find (fun x => String.eqb (task_id x) taskId) (tasks (snd attempt))
               = Some updated
            /\ task_id updated = task_id t
            /\ task_milestoneId updated = task_milestoneId t
            /\ task_userId updated = task_userId t
            /\ task_date updated = day
            /\ length (tasks (snd attempt)) = length (tasks w))).
Proof.
  intros Huser. split.
  - intros milestoneId body m g title day hours Hm Hg Ho Htitle Hdesc Hday Hhours Hnonneg
           attempt collides.
    pose proof (postMilestoneTask_run rt userId milestoneId body m g title day hours w
                  Huser Hm Hg Ho Htitle Hdesc Hday Hhours Hnonneg) as Hrun.
    fold attempt in Hrun.
    assert (Hin : forall t, In t (conflictingTasks milestoneId userId day None w)
                            <-> collides t).
    { intros t. rewrite conflictingTasks_In. unfold collides.
      split; [tauto|]. intros H. repeat split; try tauto. discriminate. }
    destruct (conflictingTasks milestoneId userId day None w) as [|c cs] eqn:Hclash.
    + assert (Hno : ~ isDateConflict attempt).
      { rewrite Hrun. intros [s [msg [ids [w' H]]]]. discriminate. }
      split; [|split].
      * split; [|tauto]. intros [t Ht]. apply Hin in Ht. destruct Ht.
      * tauto.
      * intros _. rewrite Hrun. eexists. split; [reflexivity|].
        simpl. split; [apply in_or_app; right; now left|]. repeat split.
    + assert (Hyes : isDateConflict attempt).
      { rewrite Hrun. do 4 eexists. reflexivity. }
      split; [|split].
      * split; [tauto|]. intros _. exists c. apply Hin. now left.
      * intros _. do 2 eexists. split; [exact Hrun|].
        now apply conflict_ids.
      * tauto.
  - intros taskId body t m g day Ht Hm Hg Ho Htitle Hdesc Hday attempt collides.
    pose proof (patchTask_run rt userId taskId body t m g day w
                  Huser Ht Hm Hg Ho Htitle Hdesc Hday) as Hrun.
    fold attempt in Hrun.
    assert (Hin : forall x, In x (conflictingTasks (task_milestoneId t) userId day
                                    (Some (task_id t)) w)
                            <-> collides x).
    { intros x. rewrite conflictingTasks_In. unfold collides.
      split; intros H; repeat split; try tauto.
      - intros E. destruct H as [_ [_ [_ [_ H]]]]. apply H. now rewrite E.
      - intros E. inversion E. destruct H as [_ [_ [_ [_ H]]]]. now apply H. }
    destruct (conflictingTasks (task_milestoneId t) userId day (Some (task_id t)) w)
      as [|c cs] eqn:Hclash.
    + split; [|split].
      * split; [|tauto]. intros [x Hx]. apply Hin in Hx. destruct Hx.
      * tauto.
      * intros _ Hrest.
        destruct (patchTask_accepted rt userId taskId body t m g day w
                    Huser Ht Hm Hg Ho Htitle Hdesc Hday Hrest Hclash) as [upd [Hd Hacc]].
        unfold attempt. rewrite Hacc. simpl.
        exists (applyTaskUpdate rt upd t). split; [reflexivity|].
        split; [now rewrite find_replaceTask, Ht|].
        simpl. rewrite Hd, length_map. repeat split.
    + assert (Hyes : isDateConflict attempt).
      { rewrite Hrun. do 4 eexists. reflexivity. }
      split; [|split].
      * split; [tauto|]. intros _. exists c. apply Hin. now left.
      * intros _. do 2 eexists. split; [exact Hrun|].
        now apply conflict_ids.
      * tauto.
Qed.

End TaskWrites.

(** * The message handler *)

Local Open Scope list_scope.

Section Exchange.

Variable rt : Runtime.

Lemma appendChatMessage_run (session : SessionStateRecord) (sender : Sender)
    (message : string) (w : World) :
  appendChatMessage rt (session_chatId session) (session_id session) sender message w
  = (Ok tt,
     setChats (chats w ++ [chatEntry rt session sender message])
       (setTrace (trace w ++ [EvAppendChat (chatEntry rt session sender message)]) w)).
Proof. reflexivity. Qed.

Lemma getAgentServiceUrl_inv (w w' : World) (out : outcome string) :
  getAgentServiceUrl rt w = (out, w') ->
  w' = w /\ match out with Ok _ => True | Throw e => plainError e end.
Proof.
  unfold getAgentServiceUrl.
  destruct (agentServiceUrl rt) as [url|]; [destruct (String.eqb url "")|];
    intros H; inversion H; subst; split; trivial; exact I.
Qed.

Lemma postAgentJson_inv (fetched : option HttpResponse) (allowed : list Z) (w w' : World)
    (out : outcome HttpResponse) :
  postAgentJson fetched allowed w = (out, w') ->
  w' = w /\ match out with
            | Ok h => fetched = Some h
            | Throw e => plainError e
            end.
Proof.
  unfold postAgentJson. destruct fetched as [h|].
  - destruct (negb (http_ok h) && _).
    + destruct (http_status h =? 503)%Z; intros H; inversion H; subst; split; trivial; exact I.
    + intros H; inversion H; subst. now split.
  - intros H; inversion H; subst. split; trivial. exact I.
Qed.

Lemma initRemoteSession_inv (userId sessionId : string) (w w' : World) (out : outcome unit) :
  initRemoteSession rt userId sessionId w = (out, w') ->
  (w' = w \/ w' = setTrace (trace w ++ [EvInitRemote userId sessionId]) w)
  /\ match out with Ok _ => True | Throw e => plainError e end.
Proof.
  unfold initRemoteSession. intros H.
  destruct (bind_inv _ _ _ _ _ H) as [[url [w1 [H1 H2]]]|[e [H1 H2]]].
  - apply getAgentServiceUrl_inv in H1. destruct H1 as [-> _].
    unfold bind at 1 in H2. unfold logEvent, modify at 1 in H2.
    destruct (bind_inv _ _ _ _ _ H2) as [[h [w2 [H3 H4]]]|[e [H3 H4]]].
    + apply postAgentJson_inv in H3. destruct H3 as [-> _].
      inversion H4; subst. split; [now right|exact I].
    + apply postAgentJson_inv in H3. destruct H3 as [-> H3].
      subst out. split; [now right|exact H3].
  - apply getAgentServiceUrl_inv in H1. destruct H1 as [-> H1].
    subst out. split; [now left|exact H1].
Qed.

Lemma engineAnswer_returned (p : AgentInvocationPayload) (r : AgentServiceResponse) :
  engineAnswer rt p = Some r -> engineReturned rt r.
Proof.
  unfold engineAnswer. destruct (fetchRun rt p) as [h|] eqn:E; [|discriminate].
  intros H. now exists p, h.
Qed.

Lemma invokeAgentService_inv (p : AgentInvocationPayload) (w w' : World)
    (out : outcome AgentServiceResponse) :
  invokeAgentService rt p w = (out, w') ->
  (w' = w \/ w' = setTrace (trace w ++ [EvRunAgent p]) w)
  /\ match out with
     | Ok r => w' = setTrace (trace w ++ [EvRunAgent p]) w /\ engineAnswer rt p = Some r
     | Throw e => plainError e
     end.
Proof.
  unfold invokeAgentService. intros H.
  destruct (bind_inv _ _ _ _ _ H) as [[url [w1 [H1 H2]]]|[e [H1 H2]]].
  - apply getAgentServiceUrl_inv in H1. destruct H1 as [-> _].
    unfold bind at 1 in H2. unfold logEvent, modify at 1 in H2.
    destruct (bind_inv _ _ _ _ _ H2) as [[h [w2 [H3 H4]]]|[e [H3 H4]]].
    + apply postAgentJson_inv in H3. destruct H3 as [-> H3].
      destruct (http_final_response h) as [r|] eqn:E; inversion H4; subst.
      * split; [now right|]. split; trivial. unfold engineAnswer. now rewrite H3.
      * split; [now right|exact I].
    + apply postAgentJson_inv in H3. destruct H3 as [-> H3].
      subst out. split; [now right|exact H3].
  - apply getAgentServiceUrl_inv in H1. destruct H1 as [-> H1].
    subst out. split; [now left|exact H1].
Qed.

(** The part of an exchange that talks to the engine: after the user's
    message is appended, only engine calls are logged until the engine's
    reply is appended, and no record is touched.  The bootstrap call is
    made for a session at iteration 0 only; the one run call carries the
    payload built from the request, and the answer the exchange goes on
    with is the engine's answer to that call. *)
Lemma exchange_calls (u : UserRecord) (userId message : string) (session : SessionStateRecord)
    (snapshot : UserContextSnapshot) (previewForContext : option value)
    (w w' : World) (out : outcome MessageResponse) :
  exchange rt u userId message session snapshot previewForContext w = (out, w') ->
  let p := buildAgentInvocationPayload rt userId (session_id session) message
             previewForContext (availableHoursLeft snapshot) (upcomingTasks snapshot) in
  exists calls,
    Forall isEngineCall calls
    /\ (forall q, In (EvRunAgent q) calls -> q = p)
    /\ (forall a b, In (EvInitRemote a b) calls ->
          PrimFloat.eqb (session_iteration session) 0 = true
          /\ a = userId /\ b = session_id session)
    /\ ((exists e,
           out = Throw e /\ plainError e /\ sameRecords w w'
           /\ trace w' = trace w ++ EvAppendChat (chatEntry rt session user message) :: calls
           /\ chats w' = chats w ++ [chatEntry rt session user message])
        \/ (exists agentResponse w3,
              engineAnswer rt p = Some agentResponse
              /\ In (EvRunAgent p) calls
              /\ sameRecords w w3
              /\ trace w3 = trace w ++ EvAppendChat (chatEntry rt session user message)
                              :: calls ++ [EvAppendChat (chatEntry rt session agent
                                                          (reply agentResponse))]
              /\ chats w3 = chats w ++ [chatEntry rt session user message;
                                        chatEntry rt session agent (reply agentResponse)]
              /\ bind (reconcileAction rt u userId session agentResponse snapshot)
                   (persistExchange rt session agentResponse) w3 = (out, w'))).
Proof.
  unfold exchange. cbv zeta. intros H.
  set (p := buildAgentInvocationPayload rt userId (session_id session) message
              previewForContext (availableHoursLeft snapshot) (upcomingTasks snapshot)) in *.
  unfold bind at 1 in H. rewrite appendChatMessage_run in H.
  assert (Hone : forall q, In (EvRunAgent q) [EvRunAgent p] -> q = p).
  { intros q [E|[]]. now inversion E. }
  destruct (bind_inv _ _ _ _ _ H) as [[[] [w2 [H1 H2]]]|[e [H1 H2]]]; clear H.
  - assert (Hinit : exists c1, Forall isEngineCall c1
              /\ (forall q, ~ In (EvRunAgent q) c1)
              /\ (forall a b, In (EvInitRemote a b) c1 ->
                    PrimFloat.eqb (session_iteration session) 0 = true
                    /\ a = userId /\ b = session_id session)
              /\ w2 = setChats (chats w ++ [chatEntry rt session user message])
                        (setTrace (trace w ++ EvAppendChat (chatEntry rt session user message)
                                     :: c1) w)).
    { destruct (PrimFloat.eqb (session_iteration session) 0) eqn:Ezero.
      - apply initRemoteSession_inv in H1. destruct H1 as [[->| ->] _].
        + exists []. split; [constructor|]. split; [intros q []|].
          split; [intros a b []|reflexivity].
        + exists [EvInitRemote userId (session_id session)].
          split; [repeat constructor|].
          split; [intros q [E|[]]; discriminate|].
          split; [intros a b [E|[]]; inversion E; auto|].
          unfold setChats, setTrace. simpl. rewrite <- app_assoc. reflexivity.
      - inversion H1. exists []. split; [constructor|]. split; [intros q []|].
        split; [intros a b []|reflexivity]. }
    destruct Hinit as [c1 [Hc1 [Hnorun [Hboot ->]]]].
    destruct (bind_inv _ _ _ _ _ H2) as [[r [w3 [H3 H4]]]|[e [H3 H4]]]; clear H2.
    + apply invokeAgentService_inv in H3. destruct H3 as [_ [-> Hr]].
      unfold bind at 1 in H4. rewrite appendChatMessage_run in H4.
      exists (c1 ++ [EvRunAgent p]).
      split; [apply Forall_app; split; trivial; repeat constructor|].
      split.
      { intros q Hq. apply in_app_or in Hq. destruct Hq as [Hq|Hq]; [|now apply Hone].
        now apply Hnorun in Hq. }
      split.
      { intros a b Hab. apply in_app_or in Hab. destruct Hab as [Hab|[E|[]]]; [|discriminate].
        now apply Hboot. }
      right. exists r. eexists. split; [exact Hr|].
      split; [apply in_or_app; right; now left|].
      split; [|split; [|split; [|exact H4]]].
      * repeat split.
      * simpl. now rewrite <- !app_assoc.
      * simpl. now rewrite <- app_assoc.
    + apply invokeAgentService_inv in H3. destruct H3 as [Hw3 He]. subst out.
      destruct Hw3 as [->| ->].
      * exists c1. split; trivial.
        split; [intros q Hq; now apply Hnorun in Hq|]. split; trivial.
        left. exists e. repeat split; trivial.
      * exists (c1 ++ [EvRunAgent p]).
        split; [apply Forall_app; split; trivial; repeat constructor|].
        split.
        { intros q Hq. apply in_app_or in Hq. destruct Hq as [Hq|Hq]; [|now apply Hone].
          now apply Hnorun in Hq. }
        split.
        { intros a b Hab. apply in_app_or in Hab.
          destruct Hab as [Hab|[E|[]]]; [|discriminate]. now apply Hboot. }
        left. exists e. repeat split; trivial.
        simpl. now rewrite <- app_assoc.
  - subst out.
    destruct (PrimFloat.eqb (session_iteration session) 0) eqn:Ezero; [|discriminate].
    apply initRemoteSession_inv in H1. destruct H1 as [[->| ->] He].
    + exists []. split; [constructor|]. split; [intros q []|]. split; [intros a b []|].
      left. exists e. repeat split; trivial.
    + exists [EvInitRemote userId (session_id session)].
      split; [repeat constructor|].
      split; [intros q [E|[]]; discriminate|].
      split; [intros a b [E|[]]; inversion E; auto|].
      left. exists e. repeat split; trivial.
      simpl. now rewrite <- app_assoc.
Qed.

Lemma exchange_inv (u : UserRecord) (userId message : string) (session : SessionStateRecord)
    (snapshot : UserContextSnapshot) (previewForContext : option value)
    (w w' : World) (out : outcome MessageResponse) :
  exchange rt u userId message session snapshot previewForContext w = (out, w') ->
  exists calls,
    Forall isEngineCall calls
    /\ ((exists e,
           out = Throw e /\ plainError e /\ sameRecords w w'
           /\ trace w' = trace w ++ EvAppendChat (chatEntry rt session user message) :: calls
           /\ chats w' = chats w ++ [chatEntry rt session user message])
        \/ (exists agentResponse w3,
              engineReturned rt agentResponse
              /\ sameRecords w w3
              /\ trace w3 = trace w ++ EvAppendChat (chatEntry rt session user message)
                              :: calls ++ [EvAppendChat (chatEntry rt session agent
                                                          (reply agentResponse))]
              /\ chats w3 = chats w ++ [chatEntry rt session user message;
                                        chatEntry rt session agent (reply agentResponse)]
              /\ bind (reconcileAction rt u userId session agentResponse snapshot)
                   (persistExchange rt session agentResponse) w3 = (out, w'))).
Proof.
  intros H. apply exchange_calls in H. cbv zeta in H.
  destruct H as [calls [Hcalls [_ [_ [H|H]]]]]; exists calls; split; trivial.
  - now left.
  - right. destruct H as [r [w3 [Hr [_ H]]]]. exists r, w3. split; trivial.
    eapply engineAnswer_returned; eauto.
Qed.

End Exchange.

Section Reconcile.

Variable rt : Runtime.

Lemma finalize_throw (u : UserRecord) (payload : obj) (w w' : World) (e : Thrown) :
  finalizeGoalPlanFromAgentPayload rt u payload w = (Throw e, w') ->
  plainError e
  \/ (w' = w /\ exists msg a r c, e = ApiError 409 msg (CapacityDetails a r c)).
Proof.
  intros H. rewrite finalize_run in H. injection H as <- <-.
  unfold finalizeError. cbv zeta.
  destruct (goalFieldsOf rt _ _) as [f|]; [|left; exact I].
  destruct (js_gt _ _); [|left; exact I].
  right. split; trivial. now do 4 eexists.
Qed.

Lemma upsertGoalPreview_Ok (id : option string) (userId sessionId : string) (data : value)
    (w : World) :
  exists record, fst (upsertGoalPreview rt id userId sessionId data w) = Ok record.
Proof.
  unfold upsertGoalPreview. destruct id as [i|]; [|eexists; reflexivity].
  destruct (existsb _ _); eexists; reflexivity.
Qed.

(** The only way reconciling throws something that is not plain is the
    capacity rejection of a finalization, and nothing is written then. *)
Lemma reconcileAction_throw (u : UserRecord) (userId : string) (session : SessionStateRecord)
    (agentResponse : AgentServiceResponse) (snapshot : UserContextSnapshot)
    (w w' : World) (e : Thrown) :
  reconcileAction rt u userId session agentResponse snapshot w = (Throw e, w') ->
  plainError e
  \/ (w' = w /\ exists msg a r c, e = ApiError 409 msg (CapacityDetails a r c)).
Proof.
  unfold reconcileAction. cbv zeta.
  destruct (action agentResponse) as [act|]; [|discriminate].
  destruct (String.eqb (action_type act) "save_preview").
  - intros H. destruct (bind_inv _ _ _ _ _ H) as [[rec [w1 [_ H2]]]|[e' [H1 _]]].
    + discriminate.
    + destruct (upsertGoalPreview_Ok (fst (extractPreviewPayload (action_payload act)))
                  userId (session_id session)
                  (snd (extractPreviewPayload (action_payload act))) w) as [rec Hrec].
      rewrite H1 in Hrec. discriminate.
  - destruct (String.eqb (action_type act) "finalize_goal"); [|discriminate].
    intros H. destruct (bind_inv _ _ _ _ _ H) as [[res [w1 [_ H2]]]|[e' [H1 H2]]].
    + destruct (buildUserContext_reads rt u w1) as [snap Hsnap].
      unfold bind at 1 in H2. rewrite Hsnap in H2. discriminate.
    + inversion H2; subst. now apply finalize_throw in H1.
Qed.

(** Reconciling a [finalize_goal] action ends in the committer's error,
    and nothing is written. *)
Lemma reconcileAction_finalize (u : UserRecord) (userId : string) (session : SessionStateRecord)
    (agentResponse : AgentServiceResponse) (snapshot : UserContextSnapshot)
    (w : World) (act : AgentAction) :
  action agentResponse = Some act ->
  action_type act = "finalize_goal" ->
  reconcileAction rt u userId session agentResponse snapshot w
  = (Throw (finalizeError rt u (payloadOrEmpty (action_payload act)) w), w).
Proof.
  unfold reconcileAction. cbv zeta. intros Hact Htype.
  rewrite Hact, Htype. simpl. unfold bind at 1. now rewrite finalize_run.
Qed.

Section ReconcileKeeps.

Context {T : Type}.
Variable part : World -> T.
Hypothesis part_setGoals : forall gs w, part (setGoals gs w) = part w.
Hypothesis part_setTasks : forall ts w, part (setTasks ts w) = part w.
Hypothesis part_setMilestones : forall ms w, part (setMilestones ms w) = part w.
Hypothesis part_setPreviews : forall ps w, part (setPreviews ps w) = part w.
Hypothesis part_setNextId : forall n w, part (setNextId n w) = part w.

Lemma keeps_upsertGoalPreview id userId sessionId data :
  keeps part (upsertGoalPreview rt id userId sessionId data).
Proof.
  intros w. unfold upsertGoalPreview. destruct id as [i|].
  - destruct (existsb _ _); simpl; auto.
  - simpl. now rewrite part_setPreviews, part_setNextId.
Qed.

Lemma keeps_buildUserContext u : keeps part (buildUserContext rt u).
Proof.
  intros w. destruct (buildUserContext_reads rt u w) as [snap H]. now rewrite H.
Qed.

Lemma keeps_reconcileAction u userId session agentResponse snapshot :
  keeps part (reconcileAction rt u userId session agentResponse snapshot).
Proof.
  unfold reconcileAction. cbv zeta.
  destruct (action agentResponse) as [act|]; [|apply keeps_ret].
  destruct (String.eqb (action_type act) "save_preview").
  - apply keeps_bind; [apply keeps_upsertGoalPreview|intros ?; apply keeps_ret].
  - destruct (String.eqb (action_type act) "finalize_goal"); [|apply keeps_ret].
    apply keeps_bind; [apply keeps_finalize|intros res].
    apply keeps_bind; [apply keeps_buildUserContext|intros ?; apply keeps_ret].
Qed.

End ReconcileKeeps.

Lemma find_session_update (id : string) (f : SessionStateRecord -> SessionStateRecord)
    (l : list SessionStateRecord) :
  (forall s, session_id (f s) = session_id s) ->
  find (fun s => String.eqb (session_id s) id)
    (map (fun x => if String.eqb (session_id x) id then f x else x) l)
  = option_map f (find (fun s => String.eqb (session_id s) id) l).
Proof.
  intros Hf. induction l as [|x xs IH]; simpl; trivial.
  destruct (String.eqb (session_id x) id) eqn:E.
  - now rewrite Hf, E.
  - now rewrite E.
Qed.

(** The session update and the response. *)
Lemma persistExchange_inv (session : SessionStateRecord) (agentResponse : AgentServiceResponse)
    (r : Reconciled) (w w' : World) (out : outcome MessageResponse) :
  persistExchange rt session agentResponse r w = (out, w') ->
  trace w' = trace w ++ [EvUpdateSession (session_id session)]
  /\ chats w' = chats w
  /\ goals w' = goals w /\ milestones w' = milestones w /\ tasks w' = tasks w
  /\ match out with
     | Throw e => plainError e
     | Ok response =>
         exists stored,
           find (fun s => String.eqb (session_id s) (session_id session)) (sessions w)
           = Some stored
           /\ find (fun s => String.eqb (session_id s) (session_id session)) (sessions w')
              = Some (applySessionUpdate rt (sessionUpdateOf session agentResponse r) stored)
           /\ resp_iteration response = us_iteration (sessionUpdateOf session agentResponse r)
           /\ resp_sessionActive response = rc_sessionActive r
     end.
Proof.
  unfold persistExchange, updateSession. intros H.
  unfold bind at 1 in H. unfold bind at 1 in H.
  unfold logEvent, modify at 1 in H. simpl in H.
  destruct (find _ (sessions w)) as [stored|] eqn:E.
  - destruct (action agentResponse) as [act|] eqn:Hact;
      [destruct (rc_action r) as [ra|] eqn:Hra|];
      inversion H; subst; simpl; repeat split; trivial.
    exists stored. split; trivial. split.
    + now rewrite find_session_update, E.
    + now split.
  - inversion H; subst. simpl. repeat split; trivial.
Qed.

End Reconcile.

Section Handler.

Variable rt : Runtime.

(** The handler from the session lookup onwards, by cases on what the
    lookup finds. *)
Lemma withSession_run (userId sessionId message : string) (goalPreview : option value)
    (w : World) :
  withSession rt userId sessionId message goalPreview w
  = match findSession sessionId w with
    | None => (Throw (ApiError 400 (sessionNotFound sessionId) NoDetails), looked sessionId w)
    | Some session =>
        if negb (String.eqb (session_userId session) userId) then
          (Throw (ApiError 401 "Unauthorized." NoDetails), looked sessionId w)
        else if negb (sessionActive session) then
          (Throw (ApiError 409 (sessionFinalized sessionId) NoDetails), looked sessionId w)
        else
          match findUser userId w with
          | None => (Throw (ApiError 404 "User not found." NoDetails), looked sessionId w)
          | Some u =>
              bind (buildUserContext rt u)
                (fun contextSnapshot =>
                   bind (previewForContextOf goalPreview session)
                     (fun previewForContext =>
                        exchange rt u userId message session contextSnapshot
                          previewForContext))
                (looked sessionId w)
          end
    end.
Proof.
  unfold withSession, findSessionById.
  unfold bind at 1. unfold bind at 1. unfold logEvent, modify at 1. unfold gets at 1.
  fold (looked sessionId w).
  change (find (fun s => String.eqb (session_id s) sessionId) (sessions (looked sessionId w)))
    with (findSession sessionId w).
  destruct (findSession sessionId w) as [session|]; trivial.
  unfold bind at 1. unfold assert at 1.
  destruct (String.eqb (session_userId session) userId); trivial.
  unfold ret at 1. unfold bind at 1. unfold assert at 1.
  destruct (sessionActive session); trivial.
  unfold ret at 1. unfold bind at 1. unfold findUserById, gets at 1.
  change (find (fun u => String.eqb (user_id u) userId) (users (looked sessionId w)))
    with (findUser userId w).
  now destruct (findUser userId w).
Qed.

Lemma withSession_inv (userId sessionId message : string) (goalPreview : option value)
    (w w' : World) (out : outcome MessageResponse) :
  withSession rt userId sessionId message goalPreview w = (out, w') ->
  (w' = looked sessionId w /\ exists status msg, out = Throw (ApiError status msg NoDetails))
  \/ (exists session u snapshot previewForContext,
        findSession sessionId w = Some session
        /\ session_userId session = userId
        /\ sessionActive session = true
        /\ findUser userId w = Some u
        /\ exchange rt u userId message session snapshot previewForContext
             (looked sessionId w) = (out, w')).
Proof.
  rewrite withSession_run. intros H.
  destruct (findSession sessionId w) as [session|] eqn:Hs;
    [|inversion H; left; split; trivial; now do 2 eexists].
  destruct (String.eqb (session_userId session) userId) eqn:Ho; simpl in H;
    [|inversion H; left; split; trivial; now do 2 eexists].
  destruct (sessionActive session) eqn:Ha; simpl in H;
    [|inversion H; left; split; trivial; now do 2 eexists].
  destruct (findUser userId w) as [u|] eqn:Hu;
    [|inversion H; left; split; trivial; now do 2 eexists].
  right.
  destruct (buildUserContext_reads rt u (looked sessionId w)) as [snapshot Hsnap].
  destruct (previewForContextOf_reads goalPreview session (looked sessionId w)) as [p Hp].
  unfold bind at 1 in H. rewrite Hsnap in H.
  unfold bind at 1 in H. rewrite Hp in H.
  exists session, u, snapshot, p. repeat split; trivial.
  now apply String.eqb_eq.
Qed.

(** The validation in front of the session lookup. *)
Lemma sessionMessage_run (userId : string) (body : option value) (sessionId message : string)
    (w : World) :
  String.eqb userId "" = false ->
  nonBlankString rt (getField (bodyOrEmpty body) "sessionId") = Some sessionId ->
  nonBlankString rt (getField (bodyOrEmpty body) "message") = Some message ->
  sessionMessage rt (Some userId) body w
  = if match getField (bodyOrEmpty body) "userId" with
       | None => true
       | Some payloadUserId => sameUser payloadUserId userId
       end
    then withSession rt userId sessionId message
           (getField (bodyOrEmpty body) "goalPreview") w
    else (Throw (ApiError 401 "Unauthorized." NoDetails), w).
Proof.
  intros Hu Hs Hm. unfold sessionMessage, requireUser. rewrite Hu.
  unfold bind at 1. unfold ret at 1. cbv zeta. rewrite Hs, Hm.
  unfold bind at 1. unfold assert.
  now destruct (match getField (bodyOrEmpty body) "userId" with
                | None => true
                | Some payloadUserId => sameUser payloadUserId userId
                end).
Qed.

Lemma sessionMessage_inv (reqUser : option string) (body : option value) (w w' : World)
    (out : outcome MessageResponse) :
  sessionMessage rt reqUser body w = (out, w') ->
  (w' = w /\ exists status msg, out = Throw (ApiError status msg NoDetails))
  \/ (exists userId sessionId message,
        nonBlankString rt (getField (bodyOrEmpty body) "sessionId") = Some sessionId
        /\ nonBlankString rt (getField (bodyOrEmpty body) "message") = Some message
        /\ withSession rt userId sessionId message
             (getField (bodyOrEmpty body) "goalPreview") w = (out, w')).
Proof.
  intros H.
  destruct reqUser as [userId|];
    [|inversion H; left; split; trivial; now do 2 eexists].
  destruct (String.eqb userId "") eqn:Hu.
  { unfold sessionMessage, requireUser in H. rewrite Hu in H.
    inversion H; left; split; trivial; now do 2 eexists. }
  destruct (nonBlankString rt (getField (bodyOrEmpty body) "sessionId")) as [sid|] eqn:Hs.
  2:{ unfold sessionMessage, requireUser in H. rewrite Hu in H.
      unfold bind at 1 in H. unfold ret at 1 in H. cbv zeta in H. rewrite Hs in H.
      inversion H; left; split; trivial; now do 2 eexists. }
  destruct (nonBlankString rt (getField (bodyOrEmpty body) "message")) as [msg|] eqn:Hm.
  2:{ unfold sessionMessage, requireUser in H. rewrite Hu in H.
      unfold bind at 1 in H. unfold ret at 1 in H. cbv zeta in H. rewrite Hs, Hm in H.
      inversion H; left; split; trivial; now do 2 eexists. }
  rewrite (sessionMessage_run userId body sid msg w Hu Hs Hm) in H.
  destruct (match getField (bodyOrEmpty body) "userId" with
            | None => true
            | Some payloadUserId => sameUser payloadUserId userId
            end).
  - right. now exists userId, sid, msg.
  - inversion H; left; split; trivial; now do 2 eexists.
Qed.

(** What reconciling and persisting add to the world the engine part of
    an exchange left. *)
Lemma tail_inv (u : UserRecord) (userId : string) (session : SessionStateRecord)
    (agentResponse : AgentServiceResponse) (snapshot : UserContextSnapshot)
    (w w' : World) (out : outcome MessageResponse) :
  bind (reconcileAction rt u userId session agentResponse snapshot)
    (persistExchange rt session agentResponse) w = (out, w') ->
  (exists e,
      out = Throw e
      /\ reconcileAction rt u userId session agentResponse snapshot w = (Throw e, w')
      /\ trace w' = trace w /\ chats w' = chats w /\ sessions w' = sessions w)
  \/ (exists r w1,
        reconcileAction rt u userId session agentResponse snapshot w = (Ok r, w1)
        /\ persistExchange rt session agentResponse r w1 = (out, w')
        /\ trace w1 = trace w /\ chats w1 = chats w /\ sessions w1 = sessions w).
Proof.
  intros H.
  destruct (bind_inv _ _ _ _ _ H) as [[r [w1 [H1 H2]]]|[e [H1 H2]]].
  - right. exists r, w1. repeat split; trivial.
    + apply (keeps_run trace) in H1; trivial. now apply keeps_reconcileAction.
    + apply (keeps_run chats) in H1; trivial. now apply keeps_reconcileAction.
    + apply (keeps_run sessions) in H1; trivial. now apply keeps_reconcileAction.
  - left. exists e. repeat split; trivial.
    + apply (keeps_run trace) in H1; trivial. now apply keeps_reconcileAction.
    + apply (keeps_run chats) in H1; trivial. now apply keeps_reconcileAction.
    + apply (keeps_run sessions) in H1; trivial. now apply keeps_reconcileAction.
Qed.

End Handler.

Section HandlerProperties.

Variable rt : Runtime.

Lemma exchange_trace (u : UserRecord) (userId message : string) (session : SessionStateRecord)
    (snapshot : UserContextSnapshot) (previewForContext : option value)
    (w w' : World) (out : outcome MessageResponse) :
  exchange rt u userId message session snapshot previewForContext w = (out, w') ->
  exists rest,
    trace w' = trace w ++ EvAppendChat (chatEntry rt session user message) :: rest
    /\ In (chatEntry rt session user message) (chats w').
Proof.
  intros H. apply exchange_inv in H.
  destruct H as [calls [_ [[e [_ [_ [_ [Ht Hc]]]]]|[r [w3 [_ [_ [Ht [Hc H]]]]]]]]].
  - exists calls. split; trivial. rewrite Hc. apply in_or_app. right. now left.
  - assert (Hin : In (chatEntry rt session user message) (chats w3)).
    { rewrite Hc. apply in_or_app. right. now left. }
    apply tail_inv in H.
    destruct H as [[e [_ [_ [Ht' [Hc' _]]]]]|[rc [w4 [_ [H [Ht' [Hc' _]]]]]]].
    + eexists. rewrite Ht', Ht, Hc'. split; [reflexivity|trivial].
    + apply persistExchange_inv in H. destruct H as [Ht'' [Hc'' _]].
      eexists. rewrite Ht'', Hc'', Ht', Hc', Ht. split; trivial.
      rewrite <- app_assoc. simpl. reflexivity.
Qed.

Lemma withSession_trace (userId sessionId message : string) (goalPreview : option value)
    (w w' : World) (out : outcome MessageResponse) :
  withSession rt userId sessionId message goalPreview w = (out, w') ->
  exists rest, trace w' = trace w ++ EvFindSession sessionId :: rest.
Proof.
  intros H. apply withSession_inv in H.
  destruct H as [[-> _]|[session [u [snap [p [_ [_ [_ [_ H]]]]]]]]].
  - now exists [].
  - apply exchange_trace in H. destruct H as [rest [Ht _]].
    eexists. rewrite Ht. simpl. rewrite <- app_assoc. reflexivity.
Qed.

(** C7. In every run of the message handler, whatever its outcome, each
    call to the reasoning engine (bootstrap or run) comes after the
    append of the user's message to the transcript, and the transcript
    the run leaves behind holds that message: a failing engine call does
    not lose it. *)
Theorem user_message_precedes_engine (reqUser : option string) (body : option value)
    (w w' : World) (out : outcome MessageResponse) :
  sessionMessage rt reqUser body w = (out, w') ->
  exists new,
    trace w' = trace w ++ new
    /\ forall before call after,
         new = before ++ call :: after ->
         isEngineCall call ->
         exists entry,
           In (EvAppendChat entry) before
           /\ chat_sender entry = user
           /\ nonBlankString rt (getField (bodyOrEmpty body) "message")
              = Some (chat_message entry)
           /\ In entry (chats w').
Proof.
  intros H. apply sessionMessage_inv in H.
  destruct H as [[-> _]|[userId [sid [msg [_ [Hmsg H]]]]]].
  { exists []. split; [now rewrite app_nil_r|].
    intros before call after E. now destruct before. }
  apply withSession_inv in H.
  destruct H as [[-> _]|[session [u [snap [p [_ [_ [_ [_ H]]]]]]]]].
  { exists [EvFindSession sid]. split; trivial.
    intros before call after E Hcall.
    destruct before as [|x before]; inversion E; subst.
    - destruct Hcall.
    - now destruct before. }
  apply exchange_trace in H. destruct H as [rest [Ht Hin]].
  exists (EvFindSession sid :: EvAppendChat (chatEntry rt session user msg) :: rest).
  split.
  { rewrite Ht. simpl. now rewrite <- app_assoc. }
  intros before call after E Hcall.
  exists (chatEntry rt session user msg). repeat split; trivial.
  destruct before as [|x [|y before]]; inversion E; subst.
  - destruct Hcall.
  - destruct Hcall.
  - right. now left.
Qed.

Lemma engine_calls_no_update (calls : list Event) (id : string) :
  Forall isEngineCall calls -> ~ In (EvUpdateSession id) calls.
Proof.
  intros Hall Hin. rewrite Forall_forall in Hall. exact (Hall _ Hin).
Qed.

(** What a message exchange that answers the caller has done: one run
    call with the payload [p], whose answer it reconciled and persisted;
    that answer was no [finalize_goal] action. *)
Lemma sessionMessage_Ok (reqUser : option string) (body : option value) (w w' : World)
    (response : MessageResponse) :
  sessionMessage rt reqUser body w = (Ok response, w') ->
  exists sessionId prior stored new p agentResponse r,
    nonBlankString rt (getField (bodyOrEmpty body) "sessionId") = Some sessionId
    /\ findSession sessionId w = Some prior
    /\ findSession sessionId w' = Some stored
    /\ trace w' = trace w ++ new
    /\ In (EvRunAgent p) new
    /\ (forall q, In (EvRunAgent q) new -> q = p)
    /\ engineAnswer rt p = Some agentResponse
    /\ stored = applySessionUpdate rt (sessionUpdateOf prior agentResponse r) prior
    /\ resp_iteration response = session_iteration stored
    /\ resp_sessionActive response = sessionActive stored
    /\ forall act, action agentResponse = Some act -> action_type act <> "finalize_goal".
Proof.
  intros H. apply sessionMessage_inv in H.
  destruct H as [[_ [? [? ?]]]|[userId [sid [msg [Hsid [_ H]]]]]]; [discriminate|].
  apply withSession_inv in H.
  destruct H as [[_ [? [? ?]]]|[session [u [snap [pv [Hs [_ [_ [_ H]]]]]]]]]; [discriminate|].
  apply exchange_calls in H. cbv zeta in H.
  destruct H as [calls [Hcalls [Hone [_ [[e [? _]]|[agentResponse [w3 H]]]]]]];
    [discriminate|].
  destruct H as [Heng [Hin [Hrec [Ht3 [_ H]]]]].
  apply tail_inv in H.
  destruct H as [[e [? _]]|[r [w4 [Hr [H [Ht4 [_ Hs4]]]]]]]; [discriminate|].
  apply persistExchange_inv in H. destruct H as [Ht' [_ [_ [_ [_ H]]]]].
  destruct H as [stored [Hf [Hf' [Hi Ha]]]].
  assert (Hid : session_id session = sid).
  { apply find_some in Hs. now apply String.eqb_eq. }
  destruct Hrec as [_ [_ [_ [_ [Hs3 _]]]]].
  rewrite Hid in Hf, Hf', Ht'. rewrite Hs4, Hs3 in Hf.
  change (sessions (looked sid w)) with (sessions w) in Hf.
  fold (findSession sid w) in Hf. rewrite Hs in Hf. inversion Hf; subst stored.
  set (p := buildAgentInvocationPayload rt userId (session_id session) msg pv
              (availableHoursLeft snap) (upcomingTasks snap)) in *.
  exists sid, session, (applySessionUpdate rt (sessionUpdateOf session agentResponse r) session),
    (EvFindSession sid :: EvAppendChat (chatEntry rt session user msg)
       :: calls ++ [EvAppendChat (chatEntry rt session agent (reply agentResponse));
                    EvUpdateSession sid]),
    p, agentResponse, r.
  split; trivial. split; trivial. split; trivial.
  split.
  { rewrite Ht', Ht4, Ht3. simpl. rewrite <- !app_assoc. simpl.
    rewrite <- app_assoc. reflexivity. }
  split.
  { right. right. apply in_or_app. now left. }
  split.
  { intros q [E|[E|Hq]]; try discriminate.
    apply in_app_or in Hq. destruct Hq as [Hq|[E|[E|[]]]]; try discriminate.
    now apply Hone. }
  split; trivial. split; trivial. split; trivial. split; trivial.
  intros act Hact Htype.
  rewrite (reconcileAction_finalize rt u userId session agentResponse snap w3 act Hact Htype)
    in Hr.
  discriminate.
Qed.


(** C6. A successful exchange makes one run call to the engine, and the
    iteration it persists is the one the engine's answer to that call
    supplies when it supplies one, and the session's prior iteration
    plus 1 otherwise; the response reports the persisted iteration. *)
Theorem persisted_iteration (reqUser : option string) (body : option value)
    (w w' : World) (response : MessageResponse) :
  sessionMessage rt reqUser body w = (Ok response, w') ->
  exists sessionId prior stored new p answer,
    nonBlankString rt (getField (bodyOrEmpty body) "sessionId") = Some sessionId
    /\ findSession sessionId w = Some prior
    /\ findSession sessionId w' = Some stored
    /\ trace w' = trace w ++ new
    /\ In (EvRunAgent p) new
    /\ (forall q, In (EvRunAgent q) new -> q = p)
    /\ engineAnswer rt p = Some answer
    /\ session_iteration stored
       = match engineIteration answer with
         | Some i => i
         | None => PrimFloat.add (session_iteration prior) 1
         end
    /\ resp_iteration response = session_iteration stored.
Proof.
  intros H. apply sessionMessage_Ok in H.
  destruct H as [sid [prior [stored [new [p [answer [r H]]]]]]].
  destruct H as [Hsid [Hprior [Hstored [Hnew [Hin [Hone [Hans [Heq [Hresp _]]]]]]]]].
  exists sid, prior, stored, new, p, answer. repeat split; trivial.
  subst stored. unfold engineIteration. simpl.
  destruct (state answer) as [st|]; trivial.
Qed.

(** C2. When the message handler ends in the capacity rejection of a
    finalization (the only error it raises that carries capacity
    details), the run has created no goal, milestone or task, has not
    reached the session update, and the session is still stored active. *)
Theorem finalize_conflict_writes_nothing (reqUser : option string) (body : option value)
    (w w' : World) (status : Z) (msg : string) (available required : float)
    (conflicts : list GoalSummary) :
  sessionMessage rt reqUser body w
  = (Throw (ApiError status msg (CapacityDetails available required conflicts)), w') ->
  goals w' = goals w
  /\ milestones w' = milestones w
  /\ tasks w' = tasks w
  /\ sessions w' = sessions w
  /\ (exists new, trace w' = trace w ++ new /\ forall id, ~ In (EvUpdateSession id) new)
  /\ exists sessionId session,
       nonBlankString rt (getField (bodyOrEmpty body) "sessionId") = Some sessionId
       /\ findSession sessionId w' = Some session
       /\ sessionActive session = true.
Proof.
  intros H. apply sessionMessage_inv in H.
  destruct H as [[_ [? [? ?]]]|[userId [sid [message [Hsid [_ H]]]]]]; [discriminate|].
  apply withSession_inv in H.
  destruct H as [[_ [? [? ?]]]|[session [u [snap [p [Hs [_ [Hactive [_ H]]]]]]]]];
    [discriminate|].
  apply exchange_inv in H.
  destruct H as [calls [Hcalls [[e [He [Hplain _]]]|[agentResponse [w3 H]]]]].
  { inversion He; subst e. destruct Hplain. }
  destruct H as [_ [Hrec [Ht [_ H]]]].
  apply tail_inv in H.
  destruct H as [[e [He [Hr [Ht' [_ Hs']]]]]|[r [w4 [_ [H _]]]]].
  - inversion He; subst e. apply reconcileAction_throw in Hr.
    destruct Hr as [[]|[-> _]].
    destruct Hrec as [_ [Hg [Hm [Hk [Hss _]]]]].
    repeat split; trivial.
    + exists (EvFindSession sid :: EvAppendChat (chatEntry rt session user message)
                :: calls ++ [EvAppendChat (chatEntry rt session agent (reply agentResponse))]).
      split.
      * rewrite Ht. simpl. now rewrite <- app_assoc.
      * intros id [Hin|[Hin|Hin]]; try discriminate.
        apply in_app_or in Hin. destruct Hin as [Hin|[Hin|[]]]; try discriminate.
        now apply (engine_calls_no_update calls id).
    + exists sid, session. repeat split; trivial.
      unfold findSession. now rewrite Hss.
  - apply persistExchange_inv in H. destruct H as [_ [_ [_ [_ [_ []]]]]].
Qed.

(** C3, as the code has it. For a request that passes validation: a
    session id that resolves to no session is rejected with status 400, a
    session of another user with status 401, and an inactive session
    with status 409 and a message that names the session id.  Each
    rejection happens right after the lookup: no chat message is
    appended, no record is changed and no session update is made. *)
Theorem session_rejections (userId : string) (body : option value)
    (sessionId message : string) (w : World) :
  String.eqb userId "" = false ->
  nonBlankString rt (getField (bodyOrEmpty body) "sessionId") = Some sessionId ->
  nonBlankString rt (getField (bodyOrEmpty body) "message") = Some message ->
  match getField (bodyOrEmpty body) "userId" with
  | None => True
  | Some payloadUserId => payloadUserId = VStr userId
  end ->
  let run := sessionMessage rt (Some userId) body w in
  (findSession sessionId w = None ->
   run = (Throw (ApiError 400 ("Session '" ++ sessionId ++ "' not found.")%string NoDetails),
          looked sessionId w))
  /\ (forall session,
        findSession sessionId w = Some session ->
        session_userId session <> userId ->
        run = (Throw (ApiError 401 "Unauthorized." NoDetails), looked sessionId w))
  /\ (forall session,
        findSession sessionId w = Some session ->
        session_userId session = userId ->
        sessionActive session = false ->
        run = (Throw (ApiError 409
                        ("Session '" ++ sessionId
                         ++ "' is finalized and cannot accept new messages.")%string
                        NoDetails),
               looked sessionId w))
  /\ chats (looked sessionId w) = chats w
  /\ sessions (looked sessionId w) = sessions w
  /\ trace (looked sessionId w) = trace w ++ [EvFindSession sessionId].
Proof.
  intros Hu Hs Hm Hbody run.
  assert (Hrun : run = withSession rt userId sessionId message
                         (getField (bodyOrEmpty body) "goalPreview") w).
  { unfold run. rewrite (sessionMessage_run rt userId body sessionId message w Hu Hs Hm).
    destruct (getField (bodyOrEmpty body) "userId") as [v|]; trivial.
    subst v. simpl. now rewrite String.eqb_refl. }
  rewrite Hrun, withSession_run.
  repeat split.
  - intros Hnone. now rewrite Hnone.
  - intros session Hsome Hother. rewrite Hsome.
    apply String.eqb_neq in Hother. now rewrite Hother.
  - intros session Hsome Hown Hinactive. rewrite Hsome.
    apply String.eqb_eq in Hown. now rewrite Hown, Hinactive.
Qed.

(** C10. A request whose session id and message pass validation and
    whose body carries a [userId] that is not the caller's id is rejected
    with 401 before the session lookup, and nothing in the world
    changes; when the field is absent or equal to the caller's id the
    handler goes on to the session lookup. *)
Theorem body_user_mismatch (userId : string) (body : option value)
    (sessionId message : string) (w : World) :
  String.eqb userId "" = false ->
  nonBlankString rt (getField (bodyOrEmpty body) "sessionId") = Some sessionId ->
  nonBlankString rt (getField (bodyOrEmpty body) "message") = Some message ->
  let run := sessionMessage rt (Some userId) body w in
  (forall payloadUserId,
      getField (bodyOrEmpty body) "userId" = Some payloadUserId ->
      payloadUserId <> VStr userId ->
      run = (Throw (ApiError 401 "Unauthorized." NoDetails), w))
  /\ (getField (bodyOrEmpty body) "userId" = None
      \/ getField (bodyOrEmpty body) "userId" = Some (VStr userId) ->
      run = withSession rt userId sessionId message
              (getField (bodyOrEmpty body) "goalPreview") w
      /\ exists rest, trace (snd run) = trace w ++ EvFindSession sessionId :: rest).
Proof.
  intros Hu Hs Hm run. unfold run.
  rewrite (sessionMessage_run rt userId body sessionId message w Hu Hs Hm).
  split.
  - intros v Hv Hdiff. rewrite Hv.
    assert (E : sameUser v userId = false).
    { destruct v as [| | |s| |]; trivial. simpl. apply String.eqb_neq. congruence. }
    now rewrite E.
  - intros Hok.
    assert (E : match getField (bodyOrEmpty body) "userId" with
                | None => true
                | Some payloadUserId => sameUser payloadUserId userId
                end = true).
    { destruct Hok as [-> | ->]; trivial. simpl. apply String.eqb_refl. }
    rewrite E. split; trivial.
    destruct (withSession rt userId sessionId message
                (getField (bodyOrEmpty body) "goalPreview") w) as [out w'] eqn:Hrun.
    now apply withSession_trace in Hrun.
Qed.

End HandlerProperties.

(** * Scenarios on a concrete runtime *)

Local Open Scope string_scope.

Lemma byteOrder_antisymmetric : antisymmetric_cmp byteOrder.
Proof.
  intros a b. unfold byteOrder. rewrite (String.compare_antisym b a).
  destruct (String.compare a b); simpl; lia.
Qed.

Lemma byteOrder_le (a b : string) :
  (byteOrder a b <= 0)%Z <-> a = b \/ String_as_OT.lt a b.
Proof.
  unfold byteOrder. destruct (String.compare a b) eqn:E.
  - apply String_as_OT.cmp_eq in E. split; [now left|lia].
  - apply String_as_OT.cmp_lt in E. split; [now right|lia].
  - split; [lia|]. intros [H|H].
    + apply String_as_OT.cmp_eq in H. unfold String_as_OT.cmp in H. congruence.
    + apply String_as_OT.cmp_lt in H. unfold String_as_OT.cmp in H. congruence.
Qed.

Lemma byteOrder_transitive : transitive_cmp byteOrder.
Proof.
  intros a b c Hab Hbc. apply byteOrder_le in Hab, Hbc. apply byteOrder_le.
  destruct Hab as [->|Hab]; trivial.
  destruct Hbc as [<-|Hbc]; [now right|].
  right. eapply String_as_OT.lt_trans; eauto.
Qed.

(** C1. Scenario A as the code runs it. With 20 hours available and one
    active goal at 18 hours, creating a goal of 5 hours is rejected with
    status 409, [availableHoursPerWeek] 20 and [requiredHoursPerWeek] 23
    on both paths, and nothing is written.  But the [weeklyHours] of the
    active goal listed is [undefined] (the route reads
    [goal.minHoursPerWeek], the record has [hoursPerWeek]), the direct
    route lists no entry for the pending goal, and a goal of 2 hours,
    which fits, is not created on either path: the store refuses the
    record, whose [hoursPerWeek] is [undefined]. *)
Theorem post_goal_conflict_omits_pending :
  postGoals (scenarioRuntime None) (Some "u1") (Some newGoalBody) busyWorld
  = (Throw (ApiError 409
              "Available hours (20h/week) are insufficient for current active goals (23h/week with new goal)."
              (CapacityDetails 20 23
                 [{| gs_goalId := "g1"; gs_title := "Thesis"; gs_weeklyHours := None |}])),
     busyWorld)
  /\ finalizeGoalPlanFromAgentPayload (scenarioRuntime None) alice (planOfHours 5) busyWorld
     = (Throw (ApiError 409
                 "Available hours (20h/week) are insufficient for current active goals (23h/week with new goal)."
                 (CapacityDetails 20 23
                    [{| gs_goalId := "g1"; gs_title := "Thesis"; gs_weeklyHours := None |};
                     {| gs_goalId := "pending"; gs_title := "Marathon";
                        gs_weeklyHours := Some 5%float |}])),
        busyWorld)
  /\ postGoals (scenarioRuntime None) (Some "u1") (Some smallGoalBody) busyWorld
     = (Throw (FirestoreError "hoursPerWeek"), busyWorld)
  /\ finalizeGoalPlanFromAgentPayload (scenarioRuntime None) alice (planOfHours 2) busyWorld
     = (Throw (FirestoreError "hoursPerWeek"), busyWorld).
Proof. repeat split; vm_compute; reflexivity. Qed.

(** Scenario E: a finalization of 25 hours for a user with 20 hours and
    no active goal. *)
Lemma finalize_conflict_writes_nothing_witness :
  exists msg w',
    sessionMessage (scenarioRuntime (engineAnswers (finalizeAnswer 25))) (Some "u1")
      (Some (messageBody "s1")) freshWorld
    = (Throw (ApiError 409 msg
                (CapacityDetails 20 25
                   [{| gs_goalId := "pending"; gs_title := "Marathon";
                       gs_weeklyHours := Some 25%float |}])), w')
    /\ goals w' = [] /\ milestones w' = [] /\ tasks w' = []
    /\ sessions w' = sessions freshWorld
    /\ findSession "s1" w' = Some (sessionOf "s1" "u1" true 3).
Proof.
  do 2 eexists. split; [vm_compute; reflexivity|].
  match goal with
  | |- context [goals ?w'] =>
      pose proof (finalize_conflict_writes_nothing
                    (scenarioRuntime (engineAnswers (finalizeAnswer 25))) (Some "u1")
                    (Some (messageBody "s1")) freshWorld w' 409 _ 20 25 _ eq_refl) as H
  end.
  destruct H as [Hg [Hm [Ht [Hs _]]]].
  repeat split; trivial.
Defined.

(** The statuses of C3 are not those of the NotFound and Forbidden
    classes: an unknown session id is answered with 400, not 404, and a
    session of another user with 401, not 403. *)
Lemma session_rejections_not_404_403 :
  ~ (forall status msg d w',
       sessionMessage (scenarioRuntime None) (Some "u1") (Some (messageBody "s9")) freshWorld
       = (Throw (ApiError status msg d), w') -> status = 404%Z)
  /\ ~ (forall status msg d w',
          sessionMessage (scenarioRuntime None) (Some "u1") (Some (messageBody "s2"))
            freshWorld
          = (Throw (ApiError status msg d), w') -> status = 403%Z).
Proof.
  split; intros H.
  - specialize (H 400%Z "Session 's9' not found." NoDetails (looked "s9" freshWorld)).
    assert (E : 400%Z = 404%Z) by (apply H; vm_compute; reflexivity).
    discriminate.
  - specialize (H 401%Z "Unauthorized." NoDetails (looked "s2" freshWorld)).
    assert (E : 401%Z = 403%Z) by (apply H; vm_compute; reflexivity).
    discriminate.
Qed.

Lemma session_rejections_witness :
  sessionMessage (scenarioRuntime None) (Some "u1") (Some (messageBody "s9")) freshWorld
  = (Throw (ApiError 400 "Session 's9' not found." NoDetails), looked "s9" freshWorld)
  /\ sessionMessage (scenarioRuntime None) (Some "u1") (Some (messageBody "s2")) freshWorld
     = (Throw (ApiError 401 "Unauthorized." NoDetails), looked "s2" freshWorld)
  /\ sessionMessage (scenarioRuntime None) (Some "u1") (Some (messageBody "s3")) freshWorld
     = (Throw (ApiError 409 "Session 's3' is finalized and cannot accept new messages."
                 NoDetails), looked "s3" freshWorld).
Proof.
  split; [|split].
  - apply (session_rejections (scenarioRuntime None) "u1" (Some (messageBody "s9")) "s9"
             "Please finalize." freshWorld eq_refl eq_refl eq_refl I).
    reflexivity.
  - apply (session_rejections (scenarioRuntime None) "u1" (Some (messageBody "s2")) "s2"
             "Please finalize." freshWorld eq_refl eq_refl eq_refl I)
      with (session := sessionOf "s2" "u2" true 0).
    + reflexivity.
    + discriminate.
  - apply (session_rejections (scenarioRuntime None) "u1" (Some (messageBody "s3")) "s3"
             "Please finalize." freshWorld eq_refl eq_refl eq_refl I)
      with (session := sessionOf "s3" "u1" false 4); reflexivity.
Defined.

(** Scenario B: M1 holds a task dated 2025-11-10.  A second task on M1
    for that day is rejected listing the first task's id; the same
    request on M2 succeeds; moving a task of M2 onto a day two of its
    siblings hold (one of them done) is rejected listing both; moving it
    onto 2025-11-10, which only a task of M1 holds, is accepted and
    stored. *)
Lemma task_date_conflict_witness :
  postMilestoneTask (scenarioRuntime None) (Some "u1") "m1" (Some newTaskBody) busyWorld
  = (Throw (ApiError 409
              "Task date conflicts with an existing scheduled task or calendar event."
              (ConflictingTaskIds ["t1"])), busyWorld)
  /\ (exists created,
        fst (postMilestoneTask (scenarioRuntime None) (Some "u1") "m2" (Some newTaskBody)
               busyWorld) = Ok created
        /\ task_milestoneId created = "m2" /\ task_date created = "2025-11-10")
  /\ (exists msg ids,
        patchTask (scenarioRuntime None) (Some "u1") "t0" (Some moveTaskBody) busyWorld
        = (Throw (ApiError 409 msg (ConflictingTaskIds ids)), busyWorld)
        /\ (In "t2" ids /\ In "t3" ids /\ ~ In "t0" ids))
  /\ exists updated,
       fst (patchTask (scenarioRuntime None) (Some "u1") "t0" (Some laterTaskBody) busyWorld)
       = Ok updated
       /\ find (fun x => String.eqb (task_id x) "t0")
            (tasks (snd (patchTask (scenarioRuntime None) (Some "u1") "t0"
                           (Some laterTaskBody) busyWorld)))
          = Some updated
       /\ task_milestoneId updated = "m2"
       /\ task_date updated = "2025-11-10".
Proof.
  destruct (task_date_conflict (scenarioRuntime None) "u1" busyWorld eq_refl)
    as [Hcreate Hupdate].
  split; [|split; [|split]].
  - destruct (Hcreate "m1" (Some newTaskBody) (milestoneOf "m1") thesis "Draft" "2025-11-10" 1%float
                eq_refl eq_refl eq_refl eq_refl eq_refl
                (ex_intro _ "2025-11-10"
                   (ex_intro _ "2025-11-10T00:00:00.000Z"
                      (conj eq_refl (conj eq_refl eq_refl))))
                eq_refl eq_refl) as [_ [Hlist _]].
    vm_compute. reflexivity.
  - destruct (Hcreate "m2" (Some newTaskBody) (milestoneOf "m2") thesis "Draft" "2025-11-10" 1%float
                eq_refl eq_refl eq_refl eq_refl eq_refl
                (ex_intro _ "2025-11-10"
                   (ex_intro _ "2025-11-10T00:00:00.000Z"
                      (conj eq_refl (conj eq_refl eq_refl))))
                eq_refl eq_refl) as [Hiff [_ Hok]].
    assert (Hno : ~ isDateConflict
                      (postMilestoneTask (scenarioRuntime None) (Some "u1") "m2"
                         (Some newTaskBody) busyWorld)).
    { intros [s [m [ids [w' H]]]]. vm_compute in H. discriminate. }
    destruct (Hok Hno) as [created [H1 [_ [H2 [_ H3]]]]].
    now exists created.
  - destruct (Hupdate "t0" (Some moveTaskBody)
                (taskOf "t0" "m2" "2025-11-03" false) (milestoneOf "m2") thesis "2025-11-03"
                eq_refl eq_refl eq_refl eq_refl
                ltac:(intros v H; discriminate) eq_refl
                (ex_intro _ "2025-11-03"
                   (ex_intro _ "2025-11-03T00:00:00.000Z"
                      (conj eq_refl (conj eq_refl eq_refl)))))
      as [Hiff [Hlist _]].
    assert (Hyes : isDateConflict
                     (patchTask (scenarioRuntime None) (Some "u1") "t0"
                        (Some moveTaskBody) busyWorld)).
    { apply Hiff. exists (taskOf "t2" "m2" "2025-11-03" true).
      repeat split; try reflexivity; try discriminate.
      simpl. tauto. }
    destruct (Hlist Hyes) as [msg [ids [Hrun Hids]]].
    exists msg, ids. split; trivial. repeat split.
    + apply Hids. exists (taskOf "t2" "m2" "2025-11-03" true).
      repeat split; try reflexivity; try discriminate. simpl. tauto.
    + apply Hids. exists (taskOf "t3" "m2" "2025-11-03" false).
      repeat split; try reflexivity; try discriminate. simpl. tauto.
    + intros Hin. apply Hids in Hin. destruct Hin as [x [[Hx [_ [_ [_ Hne]]]] Hid]].
      now apply Hne.
  - destruct (Hupdate "t0" (Some laterTaskBody)
                (taskOf "t0" "m2" "2025-11-03" false) (milestoneOf "m2") thesis "2025-11-10"
                eq_refl eq_refl eq_refl eq_refl
                ltac:(intros v H; discriminate) eq_refl
                (ex_intro _ "2025-11-10"
                   (ex_intro _ "2025-11-10T00:00:00.000Z"
                      (conj eq_refl (conj eq_refl eq_refl)))))
      as [_ [_ Hok]].
    assert (Hno : ~ isDateConflict
                      (patchTask (scenarioRuntime None) (Some "u1") "t0"
                         (Some laterTaskBody) busyWorld)).
    { intros [s [m [ids [w' H]]]]. vm_compute in H. discriminate. }
    assert (Hrest : restOfUpdateValid (Some laterTaskBody)).
    { split; intros v H; discriminate. }
    destruct (Hok Hno Hrest) as [updated [H1 [H2 [_ [H3 [_ [H4 _]]]]]]].
    now exists updated.
Defined.


(** An engine that reports iteration 7 to Alice's session, which is at
    iteration 3, and none to Bob's, which is at 0: the sessions are
    stored at 7 and at 0 + 1. *)
Lemma persisted_iteration_witness :
  (exists response w' stored,
     sessionMessage perSessionRuntime (Some "u1") (Some (messageBody "s1")) freshWorld
     = (Ok response, w')
     /\ findSession "s1" w' = Some stored
     /\ session_iteration stored = 7%float
     /\ resp_iteration response = 7%float)
  /\ (exists response w' stored,
        sessionMessage perSessionRuntime (Some "u2") (Some (messageBody "s2")) freshWorld
        = (Ok response, w')
        /\ findSession "s2" w' = Some stored
        /\ session_iteration stored = PrimFloat.add 0 1
        /\ resp_iteration response = 1%float).
Proof.
  split.
  - destruct (sessionMessage perSessionRuntime (Some "u1") (Some (messageBody "s1"))
                freshWorld) as [out w'] eqn:Hrun.
    assert (Hok : exists response, out = Ok response).
    { vm_compute in Hrun. inversion Hrun. eexists. reflexivity. }
    destruct Hok as [response ->].
    destruct (persisted_iteration _ _ _ _ _ _ Hrun)
      as [sid [prior [stored [new [p [answer H]]]]]].
    destruct H as [Hsid [Hprior [Hfind [Hnew [Hin [_ [Hans [Hit Hresp]]]]]]]].
    vm_compute in Hsid. inversion Hsid; subst sid.
    assert (Hp : payload_session_id p = "s1").
    { simpl in Hnew. subst new. vm_compute in Hrun. inversion Hrun as [[Hr Hw]].
      rewrite <- Hw in Hin. simpl in Hin.
      destruct Hin as [E|[E|[E|[E|[E|[]]]]]]; try discriminate.
      inversion E. reflexivity. }
    unfold engineAnswer in Hans. simpl in Hans. rewrite Hp in Hans. simpl in Hans.
    inversion Hans; subst answer. simpl in Hit.
    exists response, w', stored. repeat split; trivial. now rewrite Hresp.
  - destruct (sessionMessage perSessionRuntime (Some "u2") (Some (messageBody "s2"))
                freshWorld) as [out w'] eqn:Hrun.
    assert (Hok : exists response, out = Ok response).
    { vm_compute in Hrun. inversion Hrun. eexists. reflexivity. }
    destruct Hok as [response ->].
    destruct (persisted_iteration _ _ _ _ _ _ Hrun)
      as [sid [prior [stored [new [p [answer H]]]]]].
    destruct H as [Hsid [Hprior [Hfind [Hnew [Hin [_ [Hans [Hit Hresp]]]]]]]].
    vm_compute in Hsid. inversion Hsid; subst sid.
    vm_compute in Hprior. inversion Hprior; subst prior.
    assert (Hp : payload_session_id p = "s2").
    { simpl in Hnew. subst new. vm_compute in Hrun. inversion Hrun as [[Hr Hw]].
      rewrite <- Hw in Hin. simpl in Hin.
      destruct Hin as [E|[E|[E|[E|[E|[E|[]]]]]]]; try discriminate.
      inversion E. reflexivity. }
    unfold engineAnswer in Hans. simpl in Hans. rewrite Hp in Hans. simpl in Hans.
    inversion Hans; subst answer. simpl in Hit.
    exists response, w', stored. repeat split; trivial.
    rewrite Hresp, Hit. vm_compute. reflexivity.
Defined.

(** Bob's first message while the engine is unreachable: the bootstrap
    call and the run call are both made after his message is appended,
    the handler fails with 503, and the transcript holds the message. *)
Lemma user_message_precedes_engine_witness :
  exists w' entry,
    sessionMessage (scenarioRuntime None) (Some "u2") (Some (messageBody "s2")) freshWorld
    = (Throw (ApiError 503 "Agent service unavailable. Please try again later." NoDetails),
       w')
    /\ trace w' = [EvFindSession "s2"; EvAppendChat entry; EvInitRemote "u2" "s2";
                   EvRunAgent
                     (buildAgentInvocationPayload (scenarioRuntime None) "u2" "s2"
                        "Please finalize." None 10 [])]
    /\ chat_sender entry = user
    /\ chat_message entry = "Please finalize."
    /\ In entry (chats w').
Proof.
  destruct (sessionMessage (scenarioRuntime None) (Some "u2") (Some (messageBody "s2"))
              freshWorld) as [out w'] eqn:Hrun.
  destruct (user_message_precedes_engine _ _ _ _ _ _ Hrun) as [new [Htrace Horder]].
  assert (Hw : out = Throw unavailable
               /\ trace w'
                  = [EvFindSession "s2";
                     EvAppendChat (chatEntry (scenarioRuntime None)
                                     (sessionOf "s2" "u2" true 0) user "Please finalize.");
                     EvInitRemote "u2" "s2";
                     EvRunAgent
                       (buildAgentInvocationPayload (scenarioRuntime None) "u2" "s2"
                          "Please finalize." None 10 [])]).
  { vm_compute in Hrun. inversion Hrun. split; reflexivity. }
  destruct Hw as [-> Hw]. rewrite Hw in Htrace. simpl in Htrace. subst new.
  destruct (Horder
              [EvFindSession "s2";
               EvAppendChat (chatEntry (scenarioRuntime None)
                               (sessionOf "s2" "u2" true 0) user "Please finalize.")]
              (EvInitRemote "u2" "s2")
              [EvRunAgent
                 (buildAgentInvocationPayload (scenarioRuntime None) "u2" "s2"
                    "Please finalize." None 10 [])]
              eq_refl I) as [entry [Hin [Hsender [Hmsg Hchat]]]].
  destruct Hin as [Hin|[Hin|[]]]; [discriminate|].
  inversion Hin; subst entry.
  exists w', (chatEntry (scenarioRuntime None) (sessionOf "s2" "u2" true 0) user
                "Please finalize.").
  repeat split; trivial.
Defined.

(** Alice's snapshot in the busy world: 2 hours left of 20, and her three
    open tasks by date, the two of 2025-11-03 in store order, each shown
    with the seven fields of its record. *)
Lemma buildUserContext_snapshot_witness :
  exists snapshot,
    buildUserContext (scenarioRuntime None) alice busyWorld = (Ok snapshot, busyWorld)
    /\ availableHoursLeft snapshot = 2%float
    /\ Forall2 showsTask
         [taskOf "t0" "m2" "2025-11-03" false; taskOf "t3" "m2" "2025-11-03" false;
          taskOf "t1" "m1" "2025-11-10" false]
         (upcomingTasks snapshot).
Proof.
  destruct (buildUserContext_snapshot (scenarioRuntime None) alice busyWorld
              byteOrder_antisymmetric byteOrder_transitive)
    as [snapshot [Hrun [Hleft _]]].
  exists snapshot. split; trivial. split.
  - rewrite Hleft. vm_compute. reflexivity.
  - vm_compute in Hrun. inversion Hrun.
    repeat constructor.
Defined.

(** A plan without title, priority, color or hours, for a user with
    room for it: the fields extracted are "Untitled Goal", priority 0,
    no color and 3 + 0 + 1.5 + 0 hours, and the run ends in the store's
    refusal with nothing written. *)
Lemma finalize_never_commits_witness :
  finalizeGoalPlanFromAgentPayload (scenarioRuntime None) alice untitledPlan freshWorld
  = (Throw (FirestoreError "hoursPerWeek"), freshWorld)
  /\ exists f,
       goalFieldsOf (scenarioRuntime None) (goalPlanOf (resolvedPlan untitledPlan freshWorld))
         (milestonePlansOf (resolvedPlan untitledPlan freshWorld)) = Some f
       /\ gf_title f = "Untitled Goal"
       /\ gf_priority f = 0%Z
       /\ gf_color f = None
       /\ gf_planHours f
          = nestedPlanHours (milestonePlansOf (resolvedPlan untitledPlan freshWorld))
       /\ gf_planHours f = 4.5%float.
Proof.
  destruct (finalize_never_commits (scenarioRuntime None) alice untitledPlan freshWorld)
    as [_ Hfields].
  destruct (goalFieldsOf (scenarioRuntime None)
              (goalPlanOf (resolvedPlan untitledPlan freshWorld))
              (milestonePlansOf (resolvedPlan untitledPlan freshWorld))) as [f|] eqn:F;
    [|vm_compute in F; discriminate].
  destruct (Hfields f eq_refl) as [Ht [Hp [Hc [Hh [_ Hfit]]]]].
  split.
  - apply Hfit. vm_compute in F. inversion F. vm_compute. reflexivity.
  - exists f. split; trivial. split; [|split; [|split; [|split]]].
    + apply Ht. intros s Hs. vm_compute in Hs. inversion Hs. reflexivity.
    + apply Hp. reflexivity.
    + apply Hc. reflexivity.
    + apply Hh. reflexivity.
    + vm_compute in F. inversion F. reflexivity.
Defined.

(** Alice posts to her session with Bob's id in the body: 401, and the
    world is untouched; with her own id the lookup is made. *)
Lemma body_user_mismatch_witness :
  sessionMessage (scenarioRuntime None) (Some "u1") (Some (messageBodyAs "s1" "u2"))
    freshWorld
  = (Throw (ApiError 401 "Unauthorized." NoDetails), freshWorld)
  /\ exists rest,
       trace (snd (sessionMessage (scenarioRuntime None) (Some "u1")
                     (Some (messageBodyAs "s1" "u1")) freshWorld))
       = (trace freshWorld ++ EvFindSession "s1" :: rest)%list.
Proof.
  split.
  - apply (body_user_mismatch (scenarioRuntime None) "u1" (Some (messageBodyAs "s1" "u2"))
             "s1" "Please finalize." freshWorld eq_refl eq_refl eq_refl)
      with (payloadUserId := VStr "u2").
    + reflexivity.
    + discriminate.
  - apply (body_user_mismatch (scenarioRuntime None) "u1" (Some (messageBodyAs "s1" "u1"))
             "s1" "Please finalize." freshWorld eq_refl eq_refl eq_refl).
    right. reflexivity.
Defined.

(** * Further properties of the routes and repositories *)

Local Open Scope list_scope.

Lemma reads_ret {A : Type} (a : A) : reads (ret a).
Proof. intros w out w' H. now inversion H. Qed.

Lemma reads_throw {A : Type} (e : Thrown) : reads (@throw A e).
Proof. intros w out w' H. now inversion H. Qed.

Lemma reads_gets {A : Type} (f : World -> A) : reads (gets f).
Proof. intros w out w' H. now inversion H. Qed.

Lemma reads_assert (c : bool) (s : Z) (msg : string) : reads (assert c s msg).
Proof. unfold assert. destruct c; [apply reads_ret|apply reads_throw]. Qed.

Lemma reads_bind {A B : Type} (m : M A) (f : A -> M B) :
  reads m -> (forall a, reads (f a)) -> reads (bind m f).
Proof.
  intros Hm Hf w out w' H.
  destruct (bind_inv _ _ _ _ _ H) as [[a [w1 [H1 H2]]]|[e [H1 _]]].
  - apply Hm in H1. subst w1. eapply Hf; eauto.
  - eapply Hm; eauto.
Qed.

Lemma atomic_of_reads {A : Type} (m : M A) : reads m -> atomic m.
Proof. intros H w e w' E. eapply H; eauto. Qed.

Lemma atomic_bind {A B : Type} (m : M A) (f : A -> M B) :
  reads m -> (forall a, atomic (f a)) -> atomic (bind m f).
Proof.
  intros Hm Hf w e w' H.
  destruct (bind_inv _ _ _ _ _ H) as [[a [w1 [H1 H2]]]|[e' [H1 _]]].
  - apply Hm in H1. subst w1. eapply Hf; eauto.
  - eapply Hm; eauto.
Qed.

Ltac reads_tac :=
  repeat first
    [ apply reads_ret | apply reads_throw | apply reads_gets | apply reads_assert
    | apply reads_bind; [|intros ?]
    | match goal with
      | |- reads (match ?x with _ => _ end) => destruct x
      | |- reads (let _ := _ in _) => cbv zeta
      | H : reads ?m |- reads ?m => exact H
      end ].

Ltac ok_step :=
  match goal with
  | H : bind _ _ _ = (Ok _, _) |- _ =>
      apply bind_Ok_inv in H; destruct H as [? [? [? H]]]
  | H : ret _ _ = (Ok _, _) |- _ => inversion H; subst; clear H
  | H : throw _ _ = (Ok _, _) |- _ => discriminate H
  | H : gets _ _ = (Ok _, _) |- _ => inversion H; subst; clear H
  | H : assert ?c _ _ _ = (Ok _, _) |- _ =>
      destruct c eqn:?; [inversion H; subst; clear H|discriminate H]
  | H : (match ?x with _ => _ end) _ = (Ok _, _) |- _ => destruct x eqn:?
  end.

Lemma reads_requireUser (reqUser : option string) : reads (requireUser reqUser).
Proof. unfold requireUser. reads_tac. Qed.

Lemma reads_assertOwnedGoal (goalId userId : string) : reads (assertOwnedGoal goalId userId).
Proof. unfold assertOwnedGoal, getGoalById. reads_tac. Qed.

Lemma reads_assertOwnedMilestone (milestoneId userId : string) :
  reads (assertOwnedMilestone milestoneId userId).
Proof.
  unfold assertOwnedMilestone, getMilestoneById. reads_tac.
Qed.

Lemma reads_assertOwnedTask (taskId userId : string) :
  reads (assertOwnedTask taskId userId).
Proof.
  unfold assertOwnedTask, getTaskById. reads_tac.
Qed.

Lemma reads_ensureNoTaskConflict (m u d : string) (ex : option string) :
  reads (ensureNoTaskConflict m u d ex).
Proof. unfold ensureNoTaskConflict, listTasksByMilestone. reads_tac. Qed.

Lemma reads_collectActiveGoalSummaries (userId : string) (ex : option string) :
  reads (collectActiveGoalSummaries userId ex).
Proof. unfold collectActiveGoalSummaries, listGoals. reads_tac. Qed.

Section ReadsRuntime.

Variable rt : Runtime.

Lemma reads_validateIsoDate (v : option value) : reads (validateIsoDate rt v).
Proof. unfold validateIsoDate. reads_tac. Qed.

Lemma reads_validateEstimatedHours (v : option value) : reads (validateEstimatedHours v).
Proof. unfold validateEstimatedHours. reads_tac. Qed.

Lemma atomic_updateTask (id : string) (upd : UpdateTaskInput) : atomic (updateTask rt id upd).
Proof.
  intros w e w' H. unfold updateTask in H.
  destruct (find _ (tasks w)); now inversion H.
Qed.

Lemma atomic_updateGoal (id : string) (upd : UpdateGoalInput) : atomic (updateGoal rt id upd).
Proof.
  intros w e w' H. unfold updateGoal in H.
  destruct (find _ (goals w)); now inversion H.
Qed.

(** A goal the store refuses leaves the store as it was. *)
Lemma atomic_createGoal (input : CreateGoalInput) : atomic (createGoal rt input).
Proof.
  intros w e w' H. unfold createGoal in H.
  destruct (cg_hoursPerWeek input); now inversion H.
Qed.

Lemma atomic_postGoals (reqUser : option string) (body : option value) :
  atomic (postGoals rt reqUser body).
Proof.
  unfold postGoals.
  apply atomic_bind; [apply reads_requireUser|intros userId].
  apply atomic_bind; [unfold findUserById; reads_tac|intros found].
  destruct found as [u|]; [|apply atomic_of_reads; reads_tac].
  cbv zeta.
  destruct (nonBlankString rt _); [|apply atomic_of_reads; reads_tac].
  destruct (asFiniteNumber (getField (bodyOrEmpty body) "minHoursPerWeek"));
    [|apply atomic_of_reads; reads_tac].
  apply atomic_bind; [reads_tac|intros _].
  destruct (asFiniteNumber (getField (bodyOrEmpty body) "priority"));
    [|apply atomic_of_reads; reads_tac].
  apply atomic_bind; [reads_tac|intros _].
  apply atomic_bind; [reads_tac|intros _].
  apply atomic_bind; [unfold sumActiveGoalHours; reads_tac|intros existing].
  destruct (js_gt _ _).
  - apply atomic_of_reads. apply reads_bind; [apply reads_collectActiveGoalSummaries|].
    intros ?. reads_tac.
  - apply atomic_createGoal.
Qed.

Lemma atomic_postMilestoneTask (reqUser : option string) (milestoneId : string)
    (body : option value) :
  atomic (postMilestoneTask rt reqUser milestoneId body).
Proof.
  unfold postMilestoneTask.
  apply atomic_bind; [apply reads_requireUser|intros userId].
  apply atomic_bind; [apply reads_assertOwnedMilestone|intros milestone].
  cbv zeta.
  destruct (nonBlankString rt _); [|apply atomic_of_reads; reads_tac].
  apply atomic_bind; [reads_tac|intros _].
  apply atomic_bind; [apply reads_validateIsoDate|intros day].
  apply atomic_bind; [apply reads_validateEstimatedHours|intros hours].
  apply atomic_bind; [apply reads_ensureNoTaskConflict|intros _].
  intros w e w' H. discriminate.
Qed.

Lemma atomic_patchTask (reqUser : option string) (taskId : string) (body : option value) :
  atomic (patchTask rt reqUser taskId body).
Proof.
  unfold patchTask.
  apply atomic_bind; [apply reads_requireUser|intros userId].
  apply atomic_bind; [apply reads_assertOwnedTask|intros owned].
  cbv zeta.
  apply atomic_bind; [reads_tac|intros newTitle].
  apply atomic_bind; [reads_tac|intros newDescription].
  apply atomic_bind.
  { destruct (getField (bodyOrEmpty body) "date"); [|apply reads_ret].
    apply reads_bind; [apply reads_validateIsoDate|intros d].
    apply reads_bind; [apply reads_ensureNoTaskConflict|intros ?; apply reads_ret]. }
  intros newDate.
  apply atomic_bind.
  { destruct (getField (bodyOrEmpty body) "estimatedHours"); [|apply reads_ret].
    apply reads_bind; [apply reads_validateEstimatedHours|intros ?; apply reads_ret]. }
  intros newHours.
  apply atomic_bind; [reads_tac|intros newDone].
  apply atomic_bind; [reads_tac|intros _].
  apply atomic_updateTask.
Qed.

Lemma atomic_patchGoal (reqUser : option string) (goalId : string) (body : option value) :
  atomic (patchGoal rt reqUser goalId body).
Proof.
  unfold patchGoal.
  apply atomic_bind; [apply reads_requireUser|intros userId].
  apply atomic_bind; [apply reads_assertOwnedGoal|intros goal].
  cbv zeta.
  apply atomic_bind; [reads_tac|intros newTitle].
  apply atomic_bind; [reads_tac|intros newDescription].
  apply atomic_bind; [reads_tac|intros newStatus].
  apply atomic_bind; [reads_tac|intros newHours].
  apply atomic_bind; [reads_tac|intros newPriority].
  apply atomic_bind; [reads_tac|intros newColor].
  apply atomic_bind; [reads_tac|intros _].
  apply atomic_bind; [unfold findUserById; reads_tac|intros found].
  destruct found as [u|]; [|apply atomic_of_reads; reads_tac].
  apply atomic_bind; [|intros _; apply atomic_updateGoal].
  destruct (GoalStatus_eqb _ _); [|apply reads_ret].
  apply reads_bind; [unfold sumActiveGoalHours; reads_tac|intros other].
  destruct (js_gt _ _); [|apply reads_ret].
  apply reads_bind; [apply reads_collectActiveGoalSummaries|intros ?; apply reads_throw].
Qed.

(** X1. The writing routes for goals and tasks are all-or-nothing: a
    request that [POST /v1/goals], [PATCH /v1/goals/:goalId],
    [POST /v1/milestones/:milestoneId/tasks] or [PATCH /v1/tasks/:taskId]
    rejects, for whatever reason (the store's refusal of a goal
    included), leaves every collection as it was. *)
Theorem rejected_request_writes_nothing (reqUser : option string) (id : string)
    (body : option value) (w w' : World) (e : Thrown) :
  postGoals rt reqUser body w = (Throw e, w')
  \/ patchGoal rt reqUser id body w = (Throw e, w')
  \/ postMilestoneTask rt reqUser id body w = (Throw e, w')
  \/ patchTask rt reqUser id body w = (Throw e, w') ->
  w' = w.
Proof.
  intros [H|[H|[H|H]]].
  - eapply atomic_postGoals; eauto.
  - eapply atomic_patchGoal; eauto.
  - eapply atomic_postMilestoneTask; eauto.
  - eapply atomic_patchTask; eauto.
Qed.

Lemma postGoals_not_Ok (reqUser : option string) (body : option value) (w w' : World)
    (created : GoalRecord) :
  postGoals rt reqUser body w <> (Ok created, w').
Proof.
  intros H. unfold postGoals in H.
  apply bind_Ok_inv in H. destruct H as [userId [w1 [_ H]]].
  apply bind_Ok_inv in H. destruct H as [found [w2 [_ H]]].
  destruct found as [u|]; [|discriminate].
  cbv zeta in H.
  destruct (nonBlankString rt _) as [title|]; [|discriminate].
  destruct (asFiniteNumber (getField (bodyOrEmpty body) "minHoursPerWeek")) as [hours|];
    [|discriminate].
  apply bind_Ok_inv in H. destruct H as [? [w3 [_ H]]].
  destruct (asFiniteNumber (getField (bodyOrEmpty body) "priority")) as [priority|];
    [|discriminate].
  apply bind_Ok_inv in H. destruct H as [? [w4 [_ H]]].
  apply bind_Ok_inv in H. destruct H as [? [w5 [_ H]]].
  apply bind_Ok_inv in H. destruct H as [existing [w6 [_ H]]].
  destruct (js_gt _ _).
  - apply bind_Ok_inv in H. destruct H as [? [? [_ H]]]. discriminate.
  - unfold createGoal in H. simpl in H. discriminate.
Qed.

(** X2. [POST /v1/goals] creates no goal: every request, whatever its
    caller and body, ends in an error and leaves the store as it was.
    A request that passes validation and the capacity check hands
    [createGoal] its hours as [minHoursPerWeek], and the store refuses
    the record for its undefined [hoursPerWeek]. *)
Theorem postGoals_never_creates (reqUser : option string) (body : option value)
    (w : World) :
  exists e, postGoals rt reqUser body w = (Throw e, w).
Proof.
  destruct (postGoals rt reqUser body w) as [out w'] eqn:H.
  destruct out as [created|e].
  - now apply postGoals_not_Ok in H.
  - exists e. apply atomic_postGoals in H. now subst w'.
Qed.

End ReadsRuntime.

(** A step that only reads leaves the world as it was. *)
Ltac reads_at H :=
  match type of H with
  | ?m ?w = (_, ?w1) =>
      let E := fresh in
      assert (E : w1 = w) by (apply (fun R : reads m => R _ _ _ H); reads_tac);
      subst w1; clear H
  end.

Section GoalUpdate.

Variable rt : Runtime.

Lemma find_replaceGoal (k : string) (h : GoalRecord -> GoalRecord) (l : list GoalRecord) :
  (forall x, goal_id (h x) = goal_id x) ->
  find (fun x => String.eqb (goal_id x) k) (map (replaceGoal k h) l)
  = option_map h (find (fun x => String.eqb (goal_id x) k) l).
Proof.
  intros Hh. induction l as [|x xs IH]; simpl; trivial.
  unfold replaceGoal at 1 2. destruct (String.eqb (goal_id x) k) eqn:E.
  - now rewrite Hh, E.
  - rewrite E. apply IH.
Qed.

(** An accepted [PATCH /v1/goals/:goalId]: the update handed to the
    repository carries the hours under [minHoursPerWeek], a name
    [updateGoal] does not read. *)
Lemma patchGoal_Ok (reqUser : option string) (goalId : string) (body : option value)
    (w w' : World) (updated : GoalRecord) :
  patchGoal rt reqUser goalId body w = (Ok updated, w') ->
  exists userId goal updates,
    reqUser = Some userId
    /\ find (fun g => String.eqb (goal_id g) goalId) (goals w) = Some goal
    /\ goal_userId goal = userId
    /\ ug_hoursPerWeek updates = None
    /\ updated = applyGoalUpdate rt updates goal
    /\ w' = setGoals (map (replaceGoal goalId (applyGoalUpdate rt updates)) (goals w)) w.
Proof.
  intros H. unfold patchGoal in H.
  apply bind_Ok_inv in H. destruct H as [userId [w1 [Hreq H]]].
  assert (Hr : reqUser = Some userId /\ w1 = w).
  { unfold requireUser in Hreq. destruct reqUser as [x|]; [|discriminate].
    destruct (String.eqb x ""); [discriminate|]. now inversion Hreq. }
  destruct Hr as [-> ->].
  apply bind_Ok_inv in H. destruct H as [goal [w1 [Hgoal H]]].
  assert (Hg : find (fun g => String.eqb (goal_id g) goalId) (goals w) = Some goal
               /\ goal_userId goal = userId /\ w1 = w).
  { unfold assertOwnedGoal, bind, getGoalById, gets in Hgoal.
    destruct (find _ (goals w)) as [g|]; [|discriminate].
    unfold assert in Hgoal. destruct (String.eqb (goal_userId g) userId) eqn:E;
      [|discriminate].
    inversion Hgoal; subst. repeat split. now apply String.eqb_eq. }
  destruct Hg as [Hfind [Hown ->]].
  assert (Hid : goal_id goal = goalId).
  { apply find_some in Hfind. now apply String.eqb_eq. }
  cbv zeta in H.
  apply bind_Ok_inv in H. destruct H as [newTitle [w1 [H1 H]]].
  reads_at H1.
  apply bind_Ok_inv in H. destruct H as [newDescription [w1 [H1 H]]].
  reads_at H1.
  apply bind_Ok_inv in H. destruct H as [newStatus [w1 [H1 H]]].
  reads_at H1.
  apply bind_Ok_inv in H. destruct H as [newHours [w1 [H1 H]]].
  reads_at H1.
  apply bind_Ok_inv in H. destruct H as [newPriority [w1 [H1 H]]].
  reads_at H1.
  apply bind_Ok_inv in H. destruct H as [newColor [w1 [H1 H]]].
  reads_at H1.
  apply bind_Ok_inv in H. destruct H as [[] [w1 [H1 H]]].
  reads_at H1.
  apply bind_Ok_inv in H. destruct H as [found [w1 [H1 H]]].
  assert (E : w1 = w) by (unfold findUserById, gets in H1; now inversion H1).
  subst w1. clear H1.
  destruct found as [u|]; [|discriminate].
  apply bind_Ok_inv in H. destruct H as [[] [w1 [Hcheck H]]].
  assert (E : w1 = w).
  { apply (fun R : reads _ => R _ _ _ Hcheck).
    destruct (GoalStatus_eqb _ _); [|apply reads_ret].
    apply reads_bind; [unfold sumActiveGoalHours; reads_tac|intros other].
    cbv zeta. destruct (js_gt _ _); [|apply reads_ret].
    apply reads_bind; [apply reads_collectActiveGoalSummaries|intros ?; apply reads_throw]. }
  subst w1. clear Hcheck.
  unfold updateGoal in H. rewrite Hid, Hfind in H. injection H as Hupd Hw.
  eexists userId, goal, _. repeat split; trivial; [|symmetry; exact Hupd|symmetry; exact Hw].
  reflexivity.
Qed.

Lemma goalCore_applyGoalUpdate (updates : UpdateGoalInput) (g : GoalRecord) :
  ug_hoursPerWeek updates = None -> goalCore (applyGoalUpdate rt updates g) = goalCore g.
Proof. intros H. unfold goalCore, applyGoalUpdate. simpl. now rewrite H. Qed.

(** X3. [PATCH /v1/goals/:goalId] never changes the weekly hours of a
    goal: whatever the body and the outcome, every stored goal keeps its
    id, owner, [hoursPerWeek] and creation time, and no other collection
    changes; the goal an accepted request answers with is the stored
    one, with the hours it had before.  The hours of the body reach
    [updateGoal] as [minHoursPerWeek], which it does not read. *)
Theorem patchGoal_keeps_hours (reqUser : option string) (goalId : string)
    (body : option value) (w w' : World) (out : outcome GoalRecord) :
  patchGoal rt reqUser goalId body w = (out, w') ->
  map goalCore (goals w') = map goalCore (goals w)
  /\ users w' = users w /\ milestones w' = milestones w /\ tasks w' = tasks w
  /\ forall updated,
       out = Ok updated ->
       exists goal,
         find (fun g => String.eqb (goal_id g) goalId) (goals w) = Some goal
         /\ find (fun g => String.eqb (goal_id g) goalId) (goals w') = Some updated
         /\ hoursPerWeek updated = hoursPerWeek goal.
Proof.
  intros H. destruct out as [updated|e].
  2:{ apply atomic_patchGoal in H. subst w'. repeat split; trivial. discriminate. }
  apply patchGoal_Ok in H.
  destruct H as [userId [goal [updates [_ [Hfind [_ [Hnone [Hupd Hw]]]]]]]].
  subst w'. simpl. split; [|repeat split; trivial].
  - rewrite map_map. apply map_ext. intros g. unfold replaceGoal.
    destruct (String.eqb (goal_id g) goalId); trivial.
    now apply goalCore_applyGoalUpdate.
  - intros x Hx. injection Hx as <-. exists goal. split; trivial. split.
    + rewrite find_replaceGoal; [|reflexivity]. rewrite Hfind. simpl. now rewrite Hupd.
    + subst updated. simpl. now rewrite Hnone.
Qed.

(** What [PATCH /v1/goals/:goalId] checks before the update, for a body
    without [minHoursPerWeek]: the hours it adds are those it reads off
    the goal as [goal.minHoursPerWeek], which are [undefined]; the total
    is [NaN], and the comparison with the available hours is false. *)
Lemma plain_capacityCheck (userId : string) (goal : GoalRecord) (u : UserRecord)
    (nextStatus : GoalStatus) :
  plain
    (if GoalStatus_eqb nextStatus active then
       otherHours <- sumActiveGoalHours userId (Some (goal_id goal)) ;;
       let totalHours := js_add otherHours (goal_minHoursPerWeek goal) in
       if js_gt totalHours (availableHoursPerWeek u) then
         conflicts <- collectActiveGoalSummaries userId (Some (goal_id goal)) ;;
         throw (ApiError 409
                  (capacityMessage rt (availableHoursPerWeek u) totalHours
                     "h/week required).")
                  (CapacityDetails (availableHoursPerWeek u) totalHours
                     (conflicts ++ [{| gs_goalId := goal_id goal;
                                       gs_title := goal_title goal;
                                       gs_weeklyHours := goal_minHoursPerWeek goal |}])))
       else ret tt
     else ret tt).
Proof.
  destruct (GoalStatus_eqb nextStatus active); [|apply plain_ret].
  apply plain_bind; [unfold sumActiveGoalHours; apply plain_gets|intros other].
  cbv zeta. unfold goal_minHoursPerWeek, js_add. rewrite js_gt_nan. apply plain_ret.
Qed.

Lemma plain_updateGoal (id : string) (upd : UpdateGoalInput) : plain (updateGoal rt id upd).
Proof.
  intros w e w' H. unfold updateGoal in H.
  destruct (find _ (goals w)); inversion H. exact I.
Qed.

Lemma plain_assertOwnedGoal (goalId userId : string) : plain (assertOwnedGoal goalId userId).
Proof.
  unfold assertOwnedGoal, getGoalById. repeat plain_step.
Qed.

(** X4. A [PATCH /v1/goals/:goalId] whose body carries no
    [minHoursPerWeek] is never rejected for capacity: no outcome of such
    a request is an error with capacity details, also when it sets the
    status of a paused goal to active and the user's hours do not cover
    it. *)
Theorem patchGoal_status_unchecked (reqUser : option string) (goalId : string)
    (body : option value) (w w' : World) (out : outcome GoalRecord) :
  getField (bodyOrEmpty body) "minHoursPerWeek" = None ->
  patchGoal rt reqUser goalId body w = (out, w') ->
  forall status msg available required conflicts,
    out <> Throw (ApiError status msg (CapacityDetails available required conflicts)).
Proof.
  intros Hnone H status msg a r c E. subst out.
  assert (Hplain : plainError (ApiError status msg (CapacityDetails a r c))).
  { revert w w' H.
    assert (P : plain (patchGoal rt reqUser goalId body)); [|intros w w' H; eapply P; eauto].
    unfold patchGoal.
    apply plain_bind; [unfold requireUser; repeat plain_step|intros userId].
    apply plain_bind; [apply plain_assertOwnedGoal|intros goal].
    cbv zeta. rewrite Hnone.
    apply plain_bind; [repeat plain_step|intros newTitle].
    apply plain_bind; [repeat plain_step|intros newDescription].
    apply plain_bind; [repeat plain_step|intros newStatus].
    intros w e w' H.
    change (bind (ret None) ?f w) with (f None w) in H. revert w e w' H.
    match goal with |- forall w e w', ?m w = _ -> _ => change (plain m) end.
    apply plain_bind; [repeat plain_step|intros newPriority].
    apply plain_bind; [repeat plain_step|intros newColor].
    apply plain_bind; [repeat plain_step|intros _].
    apply plain_bind; [unfold findUserById; apply plain_gets|intros found].
    destruct found as [u|]; [|apply plain_throw; exact I].
    apply plain_bind; [|intros _; apply plain_updateGoal].
    apply plain_capacityCheck. }
  exact Hplain.
Qed.

End GoalUpdate.

(** ** Ownership *)

Lemma requireUser_run (reqUser : option string) (w : World) :
  requireUser reqUser w
  = match reqUser with
    | Some userId =>
        if String.eqb userId "" then (Throw (ApiError 401 "Unauthorized" NoDetails), w)
        else (Ok userId, w)
    | None => (Throw (ApiError 401 "Unauthorized" NoDetails), w)
    end.
Proof.
  unfold requireUser. destruct reqUser as [u|]; trivial. now destruct (String.eqb u "").
Qed.

Lemma requireUser_Ok (reqUser : option string) (userId : string) (w w' : World) :
  requireUser reqUser w = (Ok userId, w') ->
  reqUser = Some userId /\ userId <> "" /\ w' = w.
Proof.
  rewrite requireUser_run. destruct reqUser as [u|]; [|discriminate].
  destruct (String.eqb u "") eqn:E; [discriminate|].
  intros H. inversion H; subst. repeat split. now apply String.eqb_neq.
Qed.

Lemma assertOwnedGoal_run (goalId userId : string) (w : World) :
  assertOwnedGoal goalId userId w
  = (match goalOwner goalId w, find (fun x => String.eqb (goal_id x) goalId) (goals w) with
     | Some owner, Some g =>
         if String.eqb owner userId then Ok g else Throw (ApiError 403 "Forbidden." NoDetails)
     | _, _ => Throw (ApiError 404 "Goal not found." NoDetails)
     end, w).
Proof.
  unfold assertOwnedGoal, bind, getGoalById, gets, goalOwner.
  destruct (find _ (goals w)) as [g|]; simpl; trivial.
  unfold assert. now destruct (String.eqb (goal_userId g) userId).
Qed.

Lemma assertOwnedMilestone_eq (milestoneId userId : string) (w : World) :
  assertOwnedMilestone milestoneId userId w
  = (match find (fun x => String.eqb (ms_id x) milestoneId) (milestones w) with
     | None => Throw (ApiError 404 "Milestone not found." NoDetails)
     | Some m =>
         match goalOwner (ms_goalId m) w with
         | None => Throw (ApiError 404 "Goal not found." NoDetails)
         | Some owner =>
             if String.eqb owner userId then Ok m
             else Throw (ApiError 403 "Forbidden." NoDetails)
         end
     end, w).
Proof.
  unfold assertOwnedMilestone, bind, getMilestoneById, gets.
  destruct (find _ (milestones w)) as [m|]; trivial.
  rewrite assertOwnedGoal_run. unfold goalOwner.
  destruct (find _ (goals w)) as [g|]; simpl; trivial.
  now destruct (String.eqb (goal_userId g) userId).
Qed.

Lemma assertOwnedTask_eq (taskId userId : string) (w : World) :
  assertOwnedTask taskId userId w
  = (match find (fun x => String.eqb (task_id x) taskId) (tasks w) with
     | None => Throw (ApiError 404 "Task not found." NoDetails)
     | Some t =>
         match find (fun x => String.eqb (ms_id x) (task_milestoneId t)) (milestones w) with
         | None => Throw (ApiError 404 "Milestone not found." NoDetails)
         | Some m =>
             match goalOwner (ms_goalId m) w with
             | None => Throw (ApiError 404 "Goal not found." NoDetails)
             | Some owner =>
                 if String.eqb owner userId then Ok (t, m)
                 else Throw (ApiError 403 "Forbidden." NoDetails)
             end
         end
     end, w).
Proof.
  unfold assertOwnedTask, bind, getTaskById, gets.
  destruct (find _ (tasks w)) as [t|]; trivial.
  rewrite assertOwnedMilestone_eq.
  destruct (find _ (milestones w)) as [m|]; trivial.
  destruct (goalOwner (ms_goalId m) w) as [o|]; trivial.
  now destruct (String.eqb o userId).
Qed.

(** X5. Ownership of a task is decided by the goal its milestone hangs
    under and by nothing else: the check returns the task and milestone
    exactly when that goal's owner is the caller, answers 403 exactly
    when the chain leads to another user's goal, and 404 exactly when a
    link of the chain is missing; the task's own [userId] field is never
    consulted, and nothing is written. *)
Theorem task_ownership_by_goal (taskId userId : string) (w : World) :
  exists out, assertOwnedTask taskId userId w = (out, w)
  /\ match taskOwner taskId w with
     | Some owner =>
         if String.eqb owner userId then
           exists t m, out = Ok (t, m)
             /\ find (fun x => String.eqb (task_id x) taskId) (tasks w) = Some t
             /\ find (fun x => String.eqb (ms_id x) (task_milestoneId t)) (milestones w)
                = Some m
             /\ ownsGoal userId (ms_goalId m) w
         else out = Throw (ApiError 403 "Forbidden." NoDetails)
     | None => exists msg, out = Throw (ApiError 404 msg NoDetails)
     end.
Proof.
  rewrite assertOwnedTask_eq. eexists. split; [reflexivity|].
  unfold taskOwner, milestoneOwner.
  destruct (find _ (tasks w)) as [t|]; [|eauto].
  destruct (find _ (milestones w)) as [m|] eqn:Hm; [|eauto].
  destruct (goalOwner (ms_goalId m) w) as [o|] eqn:Ho; [|eauto].
  destruct (String.eqb o userId) eqn:E; trivial.
  exists t, m. repeat split; trivial.
  unfold ownsGoal. unfold goalOwner in Ho.
  destruct (find _ (goals w)) as [g|]; [|discriminate].
  exists g. split; trivial. simpl in Ho. injection Ho as <-. now apply String.eqb_eq.
Qed.

(** ** The date invariant *)

Lemma no_conflict_slot (milestoneId userId date : string) (w : World) :
  conflictingTasks milestoneId userId date None w = [] ->
  ~ In (milestoneId, userId, date) (map taskSlot (tasks w)).
Proof.
  intros Hnone Hin. apply in_map_iff in Hin. destruct Hin as [t [Hslot Hin]].
  assert (Hc : In t (conflictingTasks milestoneId userId date None w)).
  { apply conflictingTasks_In. unfold taskSlot in Hslot. inversion Hslot.
    repeat split; trivial. discriminate. }
  rewrite Hnone in Hc. destruct Hc.
Qed.

Lemma NoDup_snoc {A : Type} (l : list A) (x : A) :
  NoDup l -> ~ In x l -> NoDup (l ++ [x]).
Proof.
  intros Hl Hx. apply NoDup_app; trivial.
  - repeat constructor. intros [].
  - intros a Ha [<-|[]]. now apply Hx.
Qed.

Section TaskCreation.

Variable rt : Runtime.

Lemma postMilestoneTask_Ok (reqUser : option string) (milestoneId : string)
    (body : option value) (w w' : World) (created : TaskRecord) :
  postMilestoneTask rt reqUser milestoneId body w = (Ok created, w') ->
  exists userId m,
    reqUser = Some userId
    /\ find (fun x => String.eqb (ms_id x) milestoneId) (milestones w) = Some m
    /\ goalOwner (ms_goalId m) w = Some userId
    /\ conflictingTasks milestoneId userId (task_date created) None w = []
    /\ taskSlot created = (milestoneId, userId, task_date created)
    /\ task_goalId created = ms_goalId m
    /\ task_id created = autoId rt (nextId w)
    /\ task_done created = false
    /\ PrimFloat.is_finite (task_estimatedHours created) = true
    /\ js_ge (task_estimatedHours created) 0 = true
    /\ tasks w' = tasks w ++ [created]
    /\ goals w' = goals w /\ milestones w' = milestones w /\ users w' = users w.
Proof.
  intros H. unfold postMilestoneTask in H.
  apply bind_Ok_inv in H. destruct H as [userId [w1 [Hreq H]]].
  apply requireUser_Ok in Hreq. destruct Hreq as [-> [_ ->]].
  apply bind_Ok_inv in H. destruct H as [m [w1 [Hm H]]].
  rewrite assertOwnedMilestone_eq in Hm.
  destruct (find _ (milestones w)) as [m0|] eqn:Hfind; [|discriminate].
  destruct (goalOwner (ms_goalId m0) w) as [o|] eqn:Ho; [|discriminate].
  destruct (String.eqb o userId) eqn:E; [|discriminate].
  apply String.eqb_eq in E. subst o. injection Hm as <- <-.
  assert (Hid : ms_id m0 = milestoneId).
  { apply find_some in Hfind. now apply String.eqb_eq. }
  cbv zeta in H.
  destruct (nonBlankString rt _) as [title|]; [|discriminate].
  apply bind_Ok_inv in H. destruct H as [[] [w1 [H1 H]]]. reads_at H1.
  apply bind_Ok_inv in H. destruct H as [day [w1 [H1 H]]].
  pose proof (reads_validateIsoDate rt _ _ _ _ H1). subst w1. clear H1.
  apply bind_Ok_inv in H. destruct H as [hours [w1 [H1 H]]].
  assert (Hh : w1 = w /\ PrimFloat.is_finite hours = true /\ js_ge hours 0 = true).
  { unfold validateEstimatedHours in H1.
    destruct (asFiniteNumber _) as [h|] eqn:Ef; [|discriminate].
    unfold bind, assert in H1. destruct (js_ge h 0) eqn:Eh; [|discriminate].
    inversion H1; subst. repeat split; trivial.
    unfold asFiniteNumber in Ef.
    destruct (getField (bodyOrEmpty body) "estimatedHours") as [[| |n| | |]|];
      try discriminate.
    destruct (PrimFloat.is_finite n) eqn:En; [|discriminate]. now inversion Ef; subst. }
  destruct Hh as [-> [Hfinite Hnonneg]].
  apply bind_Ok_inv in H. destruct H as [[] [w1 [H2 H]]].
  rewrite ensureNoTaskConflict_run, Hid in H2.
  destruct (conflictingTasks milestoneId userId day None w) eqn:Hc; [|discriminate].
  injection H2 as <-.
  unfold createTask in H. injection H as <- <-.
  exists userId, m0. rewrite Hid. simpl. repeat split; trivial.
Qed.

(** X6. [POST /v1/milestones/:milestoneId/tasks] keeps the dates of a
    milestone distinct: when no two stored tasks share milestone, user
    and date, none do after the request, whether it is accepted or
    rejected. *)
Theorem postMilestoneTask_keeps_dates (reqUser : option string) (milestoneId : string)
    (body : option value) (w w' : World) (out : outcome TaskRecord) :
  datesDistinct w ->
  postMilestoneTask rt reqUser milestoneId body w = (out, w') ->
  datesDistinct w'.
Proof.
  intros Hd H. destruct out as [created|e].
  2:{ apply atomic_postMilestoneTask in H. now subst w'. }
  apply postMilestoneTask_Ok in H. destruct H as [userId [m H]].
  destruct H as [_ [_ [_ [Hnone [Hslot [_ [_ [_ [_ [_ [Htasks _]]]]]]]]]]].
  unfold datesDistinct. rewrite Htasks, map_app. simpl.
  apply NoDup_snoc; trivial. rewrite Hslot. now apply no_conflict_slot.
Qed.

(** X7. A task the route creates is stored under the milestone of the
    request and that milestone's goal, belongs to the caller who owns
    that goal, starts undone with hours that are a finite number and not
    negative, and is what a lookup of its id returns when the id the
    store issued is new. *)
Theorem created_task_is_stored (reqUser : option string) (milestoneId : string)
    (body : option value) (w w' : World) (created : TaskRecord) :
  ~ In (autoId rt (nextId w)) (map task_id (tasks w)) ->
  postMilestoneTask rt reqUser milestoneId body w = (Ok created, w') ->
  getTaskById (task_id created) w' = (Ok (Some created), w')
  /\ reqUser = Some (task_userId created)
  /\ task_milestoneId created = milestoneId
  /\ milestoneOwner milestoneId w = Some (task_userId created)
  /\ taskOwner (task_id created) w' = Some (task_userId created)
  /\ task_done created = false
  /\ PrimFloat.is_finite (task_estimatedHours created) = true
  /\ js_ge (task_estimatedHours created) 0 = true.
Proof.
  intros Hfresh H. apply postMilestoneTask_Ok in H. destruct H as [userId [m H]].
  destruct H as [-> [Hm [Ho [_ [Hslot [Hgoal [Hid [Hdone [Hfin [Hh [Htasks [Hg [Hms _]]]]]]]]]]]]].
  unfold taskSlot in Hslot. injection Hslot as Hsm Hsu.
  assert (Hfind : find (fun x => String.eqb (task_id x) (task_id created)) (tasks w')
                  = Some created).
  { rewrite Htasks. rewrite Hid in *. clear Htasks.
    induction (tasks w) as [|x xs IH]; simpl.
    - now rewrite Hid, String.eqb_refl.
    - simpl in Hfresh. destruct (String.eqb (task_id x) (autoId rt (nextId w))) eqn:E.
      + apply String.eqb_eq in E. tauto.
      + apply IH. tauto. }
  assert (Hmo : milestoneOwner milestoneId w = Some userId).
  { unfold milestoneOwner. now rewrite Hm. }
  repeat split; trivial; try congruence.
  - unfold getTaskById, gets. now rewrite Hfind.
  - unfold taskOwner. rewrite Hfind, Hsm, Hsu.
    unfold milestoneOwner, goalOwner in *. now rewrite Hms, Hg.
Qed.

End TaskCreation.

(** ** Updating a task *)

Lemma find_unique_id (k : string) (l : list TaskRecord) (t x : TaskRecord) :
  NoDup (map task_id l) ->
  find (fun y => String.eqb (task_id y) k) l = Some t ->
  In x l -> task_id x = k -> x = t.
Proof.
  induction l as [|a l IH]; simpl; intros Hnd Hf Hin Hk; [destruct Hin|].
  inversion Hnd as [|? ? Hnotin Hnd']; subst.
  destruct (String.eqb (task_id a) (task_id x)) eqn:E.
  - injection Hf as <-. destruct Hin as [->|Hin]; trivial.
    apply String.eqb_eq in E. exfalso. apply Hnotin. rewrite E. now apply in_map.
  - destruct Hin as [->|Hin]; [now rewrite String.eqb_refl in E|]. now apply IH.
Qed.

Lemma NoDup_map_eq {A B : Type} (f : A -> B) (l : list A) (x y : A) :
  NoDup (map f l) -> In x l -> In y l -> f x = f y -> x = y.
Proof.
  induction l as [|a l IH]; simpl; intros Hnd Hx Hy E; [destruct Hx|].
  inversion Hnd as [|? ? Hnotin Hnd']; subst.
  destruct Hx as [->|Hx], Hy as [->|Hy]; trivial.
  - exfalso. apply Hnotin. rewrite E. now apply in_map.
  - exfalso. apply Hnotin. rewrite <- E. now apply in_map.
  - now apply IH.
Qed.

Lemma replaceTask_absent (k : string) (h : TaskRecord -> TaskRecord) (l : list TaskRecord) :
  ~ In k (map task_id l) -> map (replaceTask k h) l = l.
Proof.
  induction l as [|x xs IH]; simpl; intros Hn; trivial.
  unfold replaceTask at 1.
  destruct (String.eqb (task_id x) k) eqn:E.
  - apply String.eqb_eq in E. tauto.
  - rewrite IH; tauto.
Qed.

Lemma replaceTask_ids (k : string) (h : TaskRecord -> TaskRecord) (l : list TaskRecord) :
  (forall x, task_id (h x) = task_id x) ->
  map task_id (map (replaceTask k h) l) = map task_id l.
Proof.
  intros Hh. rewrite map_map. apply map_ext. intros x. unfold replaceTask.
  now destruct (String.eqb (task_id x) k).
Qed.

(** Replacing the task of an id keeps the slots distinct when the slot
    it moves to is no other task's. *)
Lemma replaceTask_slots (k : string) (h : TaskRecord -> TaskRecord) (l : list TaskRecord) :
  NoDup (map task_id l) -> NoDup (map taskSlot l) ->
  (forall x y, In x l -> task_id x = k -> In y l -> task_id y <> k ->
               taskSlot y <> taskSlot (h x)) ->
  NoDup (map taskSlot (map (replaceTask k h) l)).
Proof.
  induction l as [|a l IH]; simpl; intros Hid Hslot Hfree; [constructor|].
  inversion Hid as [|? ? Hnotin Hid']; subst.
  inversion Hslot as [|? ? Hnotin' Hslot']; subst.
  unfold replaceTask at 1. destruct (String.eqb (task_id a) k) eqn:E.
  - apply String.eqb_eq in E. subst k.
    rewrite replaceTask_absent by trivial. constructor; trivial.
    intros Hin. apply in_map_iff in Hin. destruct Hin as [y [Hy Hin]].
    apply (Hfree a y); auto.
    intros Ek. apply Hnotin. rewrite <- Ek. now apply in_map.
  - apply String.eqb_neq in E. constructor.
    + intros Hin. apply in_map_iff in Hin. destruct Hin as [z [Hz Hin]].
      apply in_map_iff in Hin. destruct Hin as [y [Hy Hin]]. subst z.
      unfold replaceTask in Hz. destruct (String.eqb (task_id y) k) eqn:Ey.
      * apply String.eqb_eq in Ey. apply (Hfree y a); auto.
      * apply Hnotin'. rewrite <- Hz. now apply in_map.
    + apply IH; trivial. intros x y Hx Hk Hy Hyk. apply Hfree; auto.
Qed.

Section TaskPatch.

Variable rt : Runtime.

Lemma patchTask_Ok (reqUser : option string) (taskId : string) (body : option value)
    (w w' : World) (updated : TaskRecord) :
  patchTask rt reqUser taskId body w = (Ok updated, w') ->
  exists userId t m updates,
    reqUser = Some userId
    /\ find (fun x => String.eqb (task_id x) taskId) (tasks w) = Some t
    /\ find (fun x => String.eqb (ms_id x) (task_milestoneId t)) (milestones w) = Some m
    /\ goalOwner (ms_goalId m) w = Some userId
    /\ (forall d, ut_date updates = Some d ->
          conflictingTasks (task_milestoneId t) userId d (Some taskId) w = [])
    /\ (forall h, ut_estimatedHours updates = Some h -> js_ge h 0 = true)
    /\ updated = applyTaskUpdate rt updates t
    /\ tasks w' = map (replaceTask taskId (applyTaskUpdate rt updates)) (tasks w)
    /\ goals w' = goals w /\ milestones w' = milestones w /\ users w' = users w.
Proof.
  intros H. unfold patchTask in H.
  apply bind_Ok_inv in H. destruct H as [userId [w1 [Hreq H]]].
  apply requireUser_Ok in Hreq. destruct Hreq as [-> [_ ->]].
  apply bind_Ok_inv in H. destruct H as [[t m] [w1 [Hown H]]].
  rewrite assertOwnedTask_eq in Hown.
  destruct (find _ (tasks w)) as [t0|] eqn:Ht; [|discriminate].
  destruct (find _ (milestones w)) as [m0|] eqn:Hm; [|discriminate].
  destruct (goalOwner (ms_goalId m0) w) as [o|] eqn:Ho; [|discriminate].
  destruct (String.eqb o userId) eqn:E; [|discriminate].
  apply String.eqb_eq in E. subst o. injection Hown as <- <- <-.
  assert (Htid : task_id t0 = taskId).
  { apply find_some in Ht. now apply String.eqb_eq. }
  assert (Hmid : ms_id m0 = task_milestoneId t0).
  { apply find_some in Hm. now apply String.eqb_eq. }
  cbv zeta in H. simpl fst in H. simpl snd in H.
  apply bind_Ok_inv in H. destruct H as [newTitle [w1 [H1 H]]]. reads_at H1.
  apply bind_Ok_inv in H. destruct H as [newDescription [w1 [H1 H]]]. reads_at H1.
  apply bind_Ok_inv in H. destruct H as [newDate [w1 [H1 H]]].
  assert (Hd : w1 = w /\ forall d, newDate = Some d ->
                 conflictingTasks (task_milestoneId t0) userId d (Some taskId) w = []).
  { destruct (getField (bodyOrEmpty body) "date") as [v|].
    - apply bind_Ok_inv in H1. destruct H1 as [d [w2 [Hv H1]]].
      pose proof (reads_validateIsoDate rt _ _ _ _ Hv). subst w2.
      apply bind_Ok_inv in H1. destruct H1 as [[] [w2 [Hc H1]]].
      rewrite ensureNoTaskConflict_run, Hmid, Htid in Hc.
      destruct (conflictingTasks _ _ _ _ _) eqn:Hnone; [|discriminate].
      injection Hc as <-. injection H1 as <- <-. split; trivial.
      intros d' Hd'. now injection Hd' as <-.
    - injection H1 as <- <-. split; trivial. discriminate. }
  destruct Hd as [-> Hdate]. clear H1.
  apply bind_Ok_inv in H. destruct H as [newHours [w1 [H1 H]]].
  assert (Hh : w1 = w /\ forall h, newHours = Some h -> js_ge h 0 = true).
  { destruct (getField (bodyOrEmpty body) "estimatedHours") as [v|].
    - apply bind_Ok_inv in H1. destruct H1 as [h [w2 [Hv H1]]].
      unfold validateEstimatedHours in Hv.
      destruct (asFiniteNumber _) as [h0|]; [|discriminate].
      unfold bind, assert in Hv. destruct (js_ge h0 0) eqn:Eh; [|discriminate].
      injection Hv as <- <-. injection H1 as <- <-. split; trivial.
      intros h' Hh'. now injection Hh' as <-.
    - injection H1 as <- <-. split; trivial. discriminate. }
  destruct Hh as [-> Hhours]. clear H1.
  apply bind_Ok_inv in H. destruct H as [newDone [w1 [H1 H]]]. reads_at H1.
  apply bind_Ok_inv in H. destruct H as [[] [w1 [H1 H]]]. reads_at H1.
  unfold updateTask in H. rewrite Htid, Ht in H. injection H as <- <-.
  exists userId, t0, m0.
  exists {| ut_title := newTitle; ut_description := newDescription; ut_date := newDate;
            ut_estimatedHours := newHours; ut_done := newDone |}.
  repeat split; trivial.
Qed.

Lemma taskStoreOk_replace (taskId : string) (upd : UpdateTaskInput) (w w' : World) :
  tasks w' = map (replaceTask taskId (applyTaskUpdate rt upd)) (tasks w) ->
  goals w' = goals w -> milestones w' = milestones w ->
  (forall x y, In x (tasks w) -> task_id x = taskId -> In y (tasks w) ->
               task_id y <> taskId -> taskSlot y <> taskSlot (applyTaskUpdate rt upd x)) ->
  taskStoreOk w -> taskStoreOk w'.
Proof.
  intros Ht Hg Hm Hfree [Hid [Hslot Hown]]. split; [|split].
  - unfold uniqueTaskIds. rewrite Ht, replaceTask_ids; trivial.
  - unfold datesDistinct. rewrite Ht. now apply replaceTask_slots.
  - intros t Hin. rewrite Ht in Hin. apply in_map_iff in Hin.
    destruct Hin as [x [Hx Hin]]. specialize (Hown x Hin).
    assert (E : task_milestoneId t = task_milestoneId x /\ task_userId t = task_userId x).
    { subst t. unfold replaceTask. now destruct (String.eqb (task_id x) taskId). }
    destruct E as [-> ->]. unfold milestoneOwner, goalOwner in *. now rewrite Hm, Hg.
Qed.

(** X8. [PATCH /v1/tasks/:taskId] keeps the task store in order: with
    unique ids, distinct dates and every task carrying its owner's id
    before the request, the same three hold after it, whichever fields
    it changes and whether it is accepted or rejected. *)
Theorem patchTask_keeps_store (reqUser : option string) (taskId : string)
    (body : option value) (w w' : World) (out : outcome TaskRecord) :
  taskStoreOk w ->
  patchTask rt reqUser taskId body w = (out, w') ->
  taskStoreOk w'.
Proof.
  intros Hok H. destruct out as [updated|e].
  2:{ apply atomic_patchTask in H. now subst w'. }
  apply patchTask_Ok in H. destruct H as [userId [t [m [upd H]]]].
  destruct H as [_ [Ht [Hm [Ho [Hdate [_ [_ [Htasks [Hg [Hms _]]]]]]]]]].
  apply (taskStoreOk_replace taskId upd w w'); trivial.
  destruct Hok as [Hid [Hslot Hown]].
  intros x y Hx Hxk Hy Hyk Heq.
  assert (x = t) by (eapply find_unique_id; eauto). subst x.
  assert (Hu : task_userId t = userId).
  { specialize (Hown t Hx). unfold milestoneOwner in Hown. rewrite Hm in Hown. congruence. }
  unfold taskSlot in Heq. simpl in Heq.
  destruct (ut_date upd) as [d|] eqn:Ed.
  - specialize (Hdate d eq_refl).
    assert (Hin : In y (conflictingTasks (task_milestoneId t) userId d (Some taskId) w)).
    { apply conflictingTasks_In. injection Heq as E1 E2 E3.
      repeat split; trivial; congruence. }
    rewrite Hdate in Hin. destruct Hin.
  - apply Hyk. rewrite <- Hxk. f_equal.
    apply (NoDup_map_eq taskSlot (tasks w)); trivial.
Qed.

End TaskPatch.

(** ** Marking a task, querying a day, metrics *)

Section TaskDone.

Variable rt : Runtime.

(** X9. [POST /v1/tasks/:taskId/done] and [.../undone] set the done flag
    of the caller's task to the value asked for and change nothing else
    of any task but the update time: ids, goals, milestones, users,
    dates, titles, descriptions, hours and creation times are those
    before, a lookup of the id returns the task the route answered with,
    and a task store that was in order still is. *)
Theorem postTaskDone_marks (reqUser : option string) (taskId : string) (done : bool)
    (w w' : World) (t : TaskRecord) :
  postTaskDone rt reqUser taskId done w = (Ok t, w') ->
  task_done t = done
  /\ getTaskById taskId w' = (Ok (Some t), w')
  /\ (exists userId, reqUser = Some userId /\ taskOwner taskId w = Some userId)
  /\ map taskContent (tasks w') = map taskContent (tasks w)
  /\ (forall x, In x (tasks w) -> task_id x <> taskId -> In x (tasks w'))
  /\ goals w' = goals w /\ milestones w' = milestones w /\ users w' = users w
  /\ (taskStoreOk w -> taskStoreOk w').
Proof.
  intros H. unfold postTaskDone in H.
  apply bind_Ok_inv in H. destruct H as [userId [w1 [Hreq H]]].
  apply requireUser_Ok in Hreq. destruct Hreq as [-> [_ ->]].
  apply bind_Ok_inv in H. destruct H as [[t0 m] [w1 [Hown H]]].
  rewrite assertOwnedTask_eq in Hown.
  destruct (find _ (tasks w)) as [t1|] eqn:Ht; [|discriminate].
  destruct (find _ (milestones w)) as [m1|] eqn:Hm; [|discriminate].
  destruct (goalOwner (ms_goalId m1) w) as [o|] eqn:Ho; [|discriminate].
  destruct (String.eqb o userId) eqn:E; [|discriminate].
  apply String.eqb_eq in E. subst o. injection Hown as <- <- <-.
  assert (Htid : task_id t1 = taskId).
  { apply find_some in Ht. now apply String.eqb_eq. }
  simpl fst in H. unfold setTaskDone, updateTask in H. rewrite Htid, Ht in H.
  injection H as <- <-.
  set (upd := {| ut_title := None; ut_description := None; ut_date := None;
                 ut_estimatedHours := None; ut_done := Some done |}).
  assert (Htasks : tasks (setTasks (map (replaceTask taskId (applyTaskUpdate rt upd))
                                      (tasks w)) w)
                   = map (replaceTask taskId (applyTaskUpdate rt upd)) (tasks w))
    by reflexivity.
  split; [reflexivity|]. split; [|split; [|split; [|split]]].
  - unfold getTaskById, gets. fold (replaceTask taskId (applyTaskUpdate rt upd)).
    rewrite Htasks, find_replaceTask, Ht; trivial.
  - exists userId. split; trivial. unfold taskOwner, milestoneOwner. now rewrite Ht, Hm.
  - fold (replaceTask taskId (applyTaskUpdate rt upd)). rewrite Htasks, map_map.
    apply map_ext. intros x. unfold replaceTask.
    now destruct (String.eqb (task_id x) taskId).
  - intros x Hin Hne. fold (replaceTask taskId (applyTaskUpdate rt upd)). rewrite Htasks.
    apply in_map_iff. exists x. split; trivial. unfold replaceTask.
    apply String.eqb_neq in Hne. now rewrite Hne.
  - split; [reflexivity|]. split; [reflexivity|]. split; [reflexivity|]. intros Hok.
    apply (taskStoreOk_replace rt taskId upd w); trivial.
    destruct Hok as [Hid [Hslot _]].
    intros x y Hx Hxk Hy Hyk Heq. apply Hyk. rewrite <- Hxk. f_equal.
    apply (NoDup_map_eq taskSlot (tasks w)); trivial.
Qed.

End TaskDone.

Lemma leb_both_eq (a b : string) :
  firestoreLeb a b && firestoreLeb b a = String.eqb b a.
Proof.
  unfold firestoreLeb. destruct (String.eqb b a) eqn:E.
  - apply String.eqb_eq in E. subst b.
    destruct (String.leb_total a a) as [H|H]; now rewrite H.
  - apply String.eqb_neq in E.
    destruct (String.leb a b) eqn:E1; trivial.
    destruct (String.leb b a) eqn:E2; trivial.
    exfalso. apply E. symmetry. now apply String.leb_antisym.
Qed.

(** X10. [GET /v1/tasks:query] never writes, and answers a day with
    exactly the caller's stored tasks dated that day and not done, in
    stored order: the range from the day to the day is the day alone.
    It answers only a day of the form [dddd-dd-dd]; without a caller
    the error is 401, and for a missing or malformed day it is 400. *)
Theorem queryTasks_pending (reqUser : option string) (dayParam : option string)
    (w w' : World) (out : outcome (list TaskRecord)) :
  queryTasks reqUser dayParam w = (out, w') ->
  w' = w
  /\ match out with
     | Ok l =>
         exists userId day,
           reqUser = Some userId /\ dayParam = Some day /\ isValidDay day = true
           /\ l = pendingOn userId day w
     | Throw e =>
         (statusOf e = Some 401%Z /\ (reqUser = None \/ reqUser = Some ""))
         \/ (statusOf e = Some 400%Z
             /\ forall day, dayParam = Some day -> isValidDay day = false)
     end.
Proof.
  unfold queryTasks, bind. rewrite requireUser_run.
  destruct reqUser as [userId|].
  2:{ intros H. injection H as <- <-. split; trivial. left. auto. }
  destruct (String.eqb userId "") eqn:Eu.
  { intros H. injection H as <- <-. split; trivial. left. split; trivial.
    right. apply String.eqb_eq in Eu. now subst. }
  cbv zeta. unfold assert.
  destruct dayParam as [day|].
  2:{ simpl. intros H. injection H as <- <-. split; trivial. right. split; trivial.
      discriminate. }
  destruct (String.eqb day "") eqn:Ed; simpl.
  { intros H. injection H as <- <-. split; trivial. right. split; trivial.
    intros d Hd. injection Hd as <-. apply String.eqb_eq in Ed. now subst day. }
  destruct (isValidDay day) eqn:Ev; simpl.
  2:{ intros H. injection H as <- <-. split; trivial. right. split; trivial.
      intros d Hd. now injection Hd as <-. }
  intros H. injection H as <- <-. split; trivial.
  exists userId, day. repeat split; trivial.
  unfold pendingOn, listTasksByDateRange, gets, toDayRange. simpl.
  rewrite <- filter_andb. apply filter_ext. intros t.
  rewrite <- (andb_assoc (String.eqb (task_userId t) userId)), leb_both_eq.
  apply andb_comm.
Qed.

(** ** Metrics *)

Lemma summarize_fold (l : list TaskRecord) (acc : TaskMetrics) :
  let f := fun accumulator task =>
             {| totalTaskHours :=
                  PrimFloat.add (totalTaskHours accumulator)
                    (hoursOrZero (task_estimatedHours task));
                doneTaskHours :=
                  if task_done task
                  then PrimFloat.add (doneTaskHours accumulator)
                         (hoursOrZero (task_estimatedHours task))
                  else doneTaskHours accumulator |} in
  let g := fun total t => PrimFloat.add total (hoursOrZero (task_estimatedHours t)) in
  totalTaskHours (fold_left f l acc) = fold_left g l (totalTaskHours acc)
  /\ doneTaskHours (fold_left f l acc)
     = fold_left g (filter task_done l) (doneTaskHours acc).
Proof.
  cbv zeta. revert acc. induction l as [|t l IH]; intros acc; simpl; [now split|].
  destruct (IH {| totalTaskHours :=
                    PrimFloat.add (totalTaskHours acc) (hoursOrZero (task_estimatedHours t));
                  doneTaskHours :=
                    if task_done t
                    then PrimFloat.add (doneTaskHours acc)
                           (hoursOrZero (task_estimatedHours t))
                    else doneTaskHours acc |}) as [H1 H2].
  rewrite H1, H2. simpl. now destruct (task_done t).
Qed.

Lemma summarizeTaskHours_sums (l : list TaskRecord) :
  totalTaskHours (summarizeTaskHours l) = taskHoursOf l
  /\ doneTaskHours (summarizeTaskHours l) = taskHoursOf (filter task_done l).
Proof.
  unfold summarizeTaskHours, taskHoursOf, sumHours. rewrite !fold_left_map.
  apply (summarize_fold l {| totalTaskHours := 0; doneTaskHours := 0 |}).
Qed.

(** X11. The metrics of a goal are the estimated hours of the tasks
    stored under the goal, added up in store order, and those of the
    done ones among them, an estimate that is zero or [NaN] counting as
    zero.  Only the goal's owner gets them, and nothing is written. *)
Theorem goal_metrics_sums (reqUser : option string) (goalId : string) (w w' : World)
    (id : string) (m : TaskMetrics) :
  getGoalMetrics reqUser goalId w = (Ok (id, m), w') ->
  w' = w /\ id = goalId
  /\ (exists userId, reqUser = Some userId /\ goalOwner goalId w = Some userId)
  /\ totalTaskHours m = taskHoursOf (tasksOfGoal goalId w)
  /\ doneTaskHours m = taskHoursOf (filter task_done (tasksOfGoal goalId w)).
Proof.
  intros H. unfold getGoalMetrics in H.
  apply bind_Ok_inv in H. destruct H as [userId [w1 [Hreq H]]].
  apply requireUser_Ok in Hreq. destruct Hreq as [-> [_ ->]].
  apply bind_Ok_inv in H. destruct H as [g [w1 [Hown H]]].
  rewrite assertOwnedGoal_run in Hown.
  destruct (goalOwner goalId w) as [o|] eqn:Ho; [|discriminate].
  destruct (find _ (goals w)) as [g0|]; [|discriminate].
  destruct (String.eqb o userId) eqn:E; [|discriminate].
  apply String.eqb_eq in E. subst o. injection Hown as <- <-.
  unfold computeGoalMetrics, bind, listTasksByGoal, gets, ret in H.
  injection H as <- <- <-. fold (tasksOfGoal goalId w).
  destruct (summarizeTaskHours_sums (tasksOfGoal goalId w)) as [H1 H2].
  repeat split; trivial.
  now exists userId.
Qed.

(** ** Listing goals *)

Lemma mapM_pure {A B : Type} (f : A -> M B) (h : A -> B) (w : World) (l : list A) :
  (forall x, f x w = (Ok (h x), w)) -> mapM f l w = (Ok (map h l), w).
Proof.
  intros Hf. induction l as [|x xs IH]; simpl; trivial.
  unfold bind. rewrite Hf. now rewrite IH.
Qed.

Lemma byPriority_antisymmetric : antisymmetric_cmp byPriority.
Proof. intros a b. unfold byPriority. lia. Qed.

(** X12. [GET /v1/goals] never writes and answers with the caller's
    stored goals of the status asked for (all of them without a status,
    with an empty one or with [all]), each exactly once, in ascending
    priority; an entry carries the fields of its goal, but no
    [minHoursPerWeek], and the task-hour totals of the tasks stored
    under the goal. *)
Theorem getGoals_listing (reqUser : option string) (statusParam : option string)
    (w w' : World) (l : list (SerializedGoal * TaskMetrics)) :
  getGoals reqUser statusParam w = (Ok l, w') ->
  w' = w
  /\ exists userId status listed,
       reqUser = Some userId
       /\ requestedStatus statusParam = Some status
       /\ Permutation (selectedGoals userId status w) listed
       /\ Sorted (fun a b => (goal_priority a <= goal_priority b)%Z) listed
       /\ Forall2 (showsGoal w) listed l.
Proof.
  intros H. unfold getGoals in H.
  apply bind_Ok_inv in H. destruct H as [userId [w1 [Hreq H]]].
  apply requireUser_Ok in Hreq. destruct Hreq as [-> [_ ->]].
  apply bind_Ok_inv in H. destruct H as [status [w1 [Hstatus H]]].
  assert (Hs : w1 = w /\ requestedStatus statusParam = Some status).
  { unfold requestedStatus. destruct statusParam as [p|].
    - destruct (String.eqb p ""); [now injection Hstatus as <- <-|].
      destruct (String.eqb p "all"); [now injection Hstatus as <- <-|].
      destruct (goalStatusOf (Some (VStr p))) as [s|]; [|discriminate].
      now injection Hstatus as <- <-.
    - now injection Hstatus as <- <-. }
  destruct Hs as [-> Hs]. clear Hstatus.
  unfold bind at 1 in H. unfold listGoals, gets at 1 in H. cbv zeta in H.
  set (sorted := sortBy _ _) in H.
  rewrite (mapM_pure _ (fun goal => (serializeGoal goal,
                                     summarizeTaskHours (tasksOfGoal (goal_id goal) w))))
    in H by reflexivity.
  injection H as <- <-. split; trivial.
  exists userId, status, sorted. split; trivial. split; trivial.
  split; [|split].
  - subst sorted. eapply perm_trans; [|apply sortBy_perm].
    unfold selectedGoals. destruct status as [s|].
    + rewrite <- filter_andb.
      erewrite filter_ext; [apply Permutation_refl|]. intros g. apply andb_comm.
    + erewrite filter_ext; [apply Permutation_refl|]. intros g. apply andb_true_r.
  - subst sorted.
    pose proof (sortBy_sorted (fun a b => (goal_priority a - goal_priority b)%Z)
                  byPriority_antisymmetric) as Hsorted.
    match goal with
    | |- Sorted _ (sortBy _ ?sel) => specialize (Hsorted sel)
    end.
    eapply Sorted_ind with (P := fun l => Sorted _ l); [| |exact Hsorted].
    + constructor.
    + intros a l0 _ IH Hhd. constructor; trivial.
      destruct Hhd; constructor. unfold ascending in *. lia.
  - clear. induction sorted as [|g gs IH]; simpl; constructor; trivial.
    destruct (summarizeTaskHours_sums (tasksOfGoal (goal_id g) w)) as [H1 H2].
    unfold showsGoal. simpl. repeat split; trivial.
Qed.

(** ** Milestones of a goal *)

Section MilestoneCreation.

Variable rt : Runtime.

Lemma atomic_postGoalMilestone (reqUser : option string) (goalId : string)
    (body : option value) :
  atomic (postGoalMilestone rt reqUser goalId body).
Proof.
  unfold postGoalMilestone.
  apply atomic_bind; [apply reads_requireUser|intros userId].
  apply atomic_bind; [apply reads_assertOwnedGoal|intros goal].
  cbv zeta.
  destruct (nonBlankString rt _); [|apply atomic_of_reads; reads_tac].
  apply atomic_bind; [reads_tac|intros _].
  apply atomic_bind.
  - destruct (getField _ "parentMilestoneId") as [v|]; [|reads_tac].
    destruct (nonBlankString rt (Some v)); [|reads_tac].
    apply reads_bind; [apply reads_assertOwnedMilestone|intros pm]. reads_tac.
  - intros parent w e w' H. discriminate.
Qed.

Lemma postGoalMilestone_Ok (reqUser : option string) (goalId : string)
    (body : option value) (w w' : World) (created : MilestoneRecord) :
  postGoalMilestone rt reqUser goalId body w = (Ok created, w') ->
  exists userId,
    reqUser = Some userId
    /\ goalOwner goalId w = Some userId
    /\ ms_goalId created = goalId
    /\ ms_status created = blocked
    /\ (forall p, ms_parentMilestoneId created = Some p ->
          exists pm, find (fun x => String.eqb (ms_id x) p) (milestones w) = Some pm
                     /\ ms_goalId pm = goalId)
    /\ milestones w' = milestones w ++ [created]
    /\ goals w' = goals w /\ tasks w' = tasks w /\ users w' = users w.
Proof.
  intros H. unfold postGoalMilestone in H.
  apply bind_Ok_inv in H. destruct H as [userId [w1 [Hreq H]]].
  apply requireUser_Ok in Hreq. destruct Hreq as [-> [_ ->]].
  apply bind_Ok_inv in H. destruct H as [g [w1 [Hown H]]].
  rewrite assertOwnedGoal_run in Hown.
  destruct (goalOwner goalId w) as [o|] eqn:Ho; [|discriminate].
  destruct (find _ (goals w)) as [g0|] eqn:Hg; [|discriminate].
  destruct (String.eqb o userId) eqn:E; [|discriminate].
  apply String.eqb_eq in E. subst o. injection Hown as <- <-.
  assert (Hgid : goal_id g0 = goalId).
  { apply find_some in Hg. now apply String.eqb_eq. }
  cbv zeta in H.
  destruct (nonBlankString rt _) as [title|]; [|discriminate].
  apply bind_Ok_inv in H. destruct H as [[] [w1 [H1 H]]]. reads_at H1.
  apply bind_Ok_inv in H. destruct H as [parent [w1 [H1 H]]].
  assert (Hp : w1 = w /\ forall p, parent = Some p ->
                 exists pm, find (fun x => String.eqb (ms_id x) p) (milestones w) = Some pm
                            /\ ms_goalId pm = goalId).
  { destruct (getField _ "parentMilestoneId") as [v|].
    - destruct (nonBlankString rt (Some v)) as [pid|]; [|discriminate].
      apply bind_Ok_inv in H1. destruct H1 as [pm [w2 [Hpm H1]]].
      rewrite assertOwnedMilestone_eq in Hpm.
      destruct (find _ (milestones w)) as [pm0|] eqn:Hfind; [|discriminate].
      destruct (goalOwner (ms_goalId pm0) w) as [o|]; [|discriminate].
      destruct (String.eqb o userId); [|discriminate].
      injection Hpm as <- <-.
      apply bind_Ok_inv in H1. destruct H1 as [[] [w2 [Hsame H1]]].
      unfold assert in Hsame.
      destruct (String.eqb (ms_goalId pm0) (goal_id g0)) eqn:Es; [|discriminate].
      injection Hsame as <-. injection H1 as <- <-. split; trivial.
      intros p Hp. injection Hp as <-. exists pm0. split; trivial.
      apply String.eqb_eq in Es. congruence.
    - injection H1 as <- <-. split; trivial. discriminate. }
  destruct Hp as [-> Hparent]. clear H1.
  unfold createMilestone in H. injection H as <- <-.
  exists userId. rewrite Hgid. simpl. repeat split; trivial.
Qed.

(** X13. [POST /v1/goals/:goalId/milestones] keeps parent links inside
    a goal: when every stored milestone with a parent has that parent
    stored under the same goal, so it is after the request, accepted or
    rejected; and an accepted one adds a milestone of the goal of the
    request, which the caller owns, in status [blocked]. *)
Theorem postGoalMilestone_keeps_parents (reqUser : option string) (goalId : string)
    (body : option value) (w w' : World) (out : outcome MilestoneRecord) :
  parentsInGoal w ->
  postGoalMilestone rt reqUser goalId body w = (out, w') ->
  parentsInGoal w'
  /\ forall created, out = Ok created ->
       ms_goalId created = goalId /\ ms_status created = blocked
       /\ option_map Some (goalOwner goalId w) = Some reqUser
       /\ milestones w' = milestones w ++ [created].
Proof.
  intros Hinv H. destruct out as [created|e].
  2:{ apply atomic_postGoalMilestone in H. subst w'. split; trivial. discriminate. }
  apply postGoalMilestone_Ok in H. destruct H as [userId H].
  destruct H as [-> [Ho [Hgoal [Hst [Hparent [Hms _]]]]]].
  split.
  - intros m p Hin Hp. rewrite Hms in Hin. apply in_app_or in Hin.
    destruct Hin as [Hin|[<-|[]]].
    + destruct (Hinv m p Hin Hp) as [pm [Hpm Hrest]].
      exists pm. split; trivial. rewrite Hms. apply in_or_app. now left.
    + destruct (Hparent p Hp) as [pm [Hfind Hg]].
      exists pm. apply find_some in Hfind. destruct Hfind as [Hin Hid].
      apply String.eqb_eq in Hid. rewrite Hms. repeat split; trivial; try congruence.
      apply in_or_app. now left.
  - intros c Hc. injection Hc as <-. rewrite Ho. repeat split; trivial.
Qed.

End MilestoneCreation.

(** * The further properties on the scenarios *)

Local Open Scope string_scope.

Lemma datesDistinct_tidyWorld : datesDistinct tidyWorld.
Proof.
  unfold datesDistinct. simpl. repeat constructor; simpl; intuition discriminate.
Qed.

Lemma taskStoreOk_tidyWorld : taskStoreOk tidyWorld.
Proof.
  split; [|split].
  - unfold uniqueTaskIds. simpl. repeat constructor; simpl; intuition discriminate.
  - exact datesDistinct_tidyWorld.
  - intros t [<-|[<-|[]]]; reflexivity.
Qed.

Lemma parentsInGoal_busyWorld : parentsInGoal busyWorld.
Proof. intros m p [<-|[<-|[]]] Hp; discriminate. Qed.

(** A goal of 5 hours beside the thesis of 18 is rejected for capacity,
    one of 2 hours by the store; the world is the one before. *)
Lemma rejected_request_writes_nothing_witness :
  (exists e w',
     postGoals (scenarioRuntime None) (Some "u1") (Some newGoalBody) busyWorld = (Throw e, w')
     /\ w' = busyWorld)
  /\ exists w',
       postGoals (scenarioRuntime None) (Some "u1") (Some smallGoalBody) busyWorld
       = (Throw (FirestoreError "hoursPerWeek"), w')
       /\ w' = busyWorld.
Proof.
  split.
  - do 2 eexists. split; [vm_compute; reflexivity|].
    eapply (rejected_request_writes_nothing (scenarioRuntime None) (Some "u1") ""
              (Some newGoalBody)).
    left. vm_compute. reflexivity.
  - eexists. split; [vm_compute; reflexivity|].
    eapply (rejected_request_writes_nothing (scenarioRuntime None) (Some "u1") ""
              (Some smallGoalBody)).
    left. vm_compute. reflexivity.
Defined.

(** Raising the thesis from 18 to 19 hours is accepted, and the thesis
    stays at 18. *)
Lemma patchGoal_keeps_hours_witness :
  exists g w',
    patchGoal (scenarioRuntime None) (Some "u1") "g1" (Some moreHoursBody) busyWorld
    = (Ok g, w')
    /\ hoursPerWeek g = 18%float
    /\ find (fun x => String.eqb (goal_id x) "g1") (goals w') = Some g
    /\ map goalCore (goals w') = map goalCore (goals busyWorld).
Proof.
  destruct (patchGoal (scenarioRuntime None) (Some "u1") "g1" (Some moreHoursBody) busyWorld)
    as [out w'] eqn:Hrun.
  assert (Hok : exists g, out = Ok g).
  { vm_compute in Hrun. inversion Hrun. eexists. reflexivity. }
  destruct Hok as [g ->].
  destruct (patchGoal_keeps_hours _ _ _ _ _ _ _ Hrun) as [Hcore [_ [_ [_ Hupdated]]]].
  destruct (Hupdated g eq_refl) as [goal [Hfind [Hfind' Hhours]]].
  vm_compute in Hfind. inversion Hfind; subst goal.
  exists g, w'. repeat split; trivial.
Defined.

(** Alice has 20 hours a week and the thesis at 18; resuming her paused
    goal of 10 hours is accepted, and her active goals then take 28. *)
Lemma patchGoal_status_unchecked_witness :
  exists out w',
    patchGoal (scenarioRuntime None) (Some "u1") "g2" (Some activateBody) pausedWorld
    = (out, w')
    /\ (forall status msg available required conflicts,
          out <> Throw (ApiError status msg (CapacityDetails available required conflicts)))
    /\ activeHoursOf "u1" w' = 28%float
    /\ js_gt (activeHoursOf "u1" w') (availableHoursPerWeek alice) = true.
Proof.
  do 2 eexists. split; [vm_compute; reflexivity|]. split; [|split].
  - eapply (patchGoal_status_unchecked (scenarioRuntime None) (Some "u1") "g2"
              (Some activateBody) pausedWorld _ _ eq_refl).
    vm_compute. reflexivity.
  - vm_compute. reflexivity.
  - vm_compute. reflexivity.
Defined.

(** A task on M2 for 2025-11-10, where M2 has one on 2025-11-03. *)
Lemma postMilestoneTask_keeps_dates_witness :
  exists t w',
    postMilestoneTask (scenarioRuntime None) (Some "u1") "m2" (Some newTaskBody) tidyWorld
    = (Ok t, w')
    /\ datesDistinct w'.
Proof.
  do 2 eexists. split; [vm_compute; reflexivity|].
  eapply (postMilestoneTask_keeps_dates (scenarioRuntime None) (Some "u1") "m2"
            (Some newTaskBody) tidyWorld).
  - exact datesDistinct_tidyWorld.
  - vm_compute. reflexivity.
Defined.

Lemma created_task_is_stored_witness :
  exists t w',
    postMilestoneTask (scenarioRuntime None) (Some "u1") "m2" (Some newTaskBody) tidyWorld
    = (Ok t, w')
    /\ getTaskById (task_id t) w' = (Ok (Some t), w')
    /\ task_userId t = "u1" /\ task_milestoneId t = "m2" /\ task_done t = false.
Proof.
  do 2 eexists. split; [vm_compute; reflexivity|].
  match goal with
  | |- getTaskById (task_id ?t) ?w' = _ /\ _ =>
      destruct (created_task_is_stored (scenarioRuntime None) (Some "u1") "m2"
                  (Some newTaskBody) tidyWorld w' t) as [H1 [H2 [H3 [_ [_ [H4 _]]]]]]
  end.
  - simpl. intuition discriminate.
  - vm_compute. reflexivity.
  - split; [exact H1|]. repeat split.
Defined.

(** Moving the task of M2 onto 2025-11-10, the day of the task of M1. *)
Lemma patchTask_keeps_store_witness :
  exists t w',
    patchTask (scenarioRuntime None) (Some "u1") "t0" (Some laterTaskBody) tidyWorld
    = (Ok t, w')
    /\ task_date t = "2025-11-10"
    /\ taskStoreOk w'.
Proof.
  do 2 eexists. split; [vm_compute; reflexivity|]. split; [reflexivity|].
  eapply (patchTask_keeps_store (scenarioRuntime None) (Some "u1") "t0"
            (Some laterTaskBody) tidyWorld).
  - exact taskStoreOk_tidyWorld.
  - vm_compute. reflexivity.
Defined.

(** Marking the task of M1 as done. *)
Lemma postTaskDone_marks_witness :
  exists t w',
    postTaskDone (scenarioRuntime None) (Some "u1") "t1" true tidyWorld = (Ok t, w')
    /\ task_done t = true
    /\ getTaskById "t1" w' = (Ok (Some t), w')
    /\ map taskContent (tasks w') = map taskContent (tasks tidyWorld)
    /\ taskStoreOk w'.
Proof.
  destruct (postTaskDone (scenarioRuntime None) (Some "u1") "t1" true tidyWorld)
    as [out w'] eqn:Hrun.
  assert (Hok : exists t, out = Ok t).
  { vm_compute in Hrun. inversion Hrun. eexists. reflexivity. }
  destruct Hok as [t ->].
  destruct (postTaskDone_marks _ _ _ _ _ _ _ Hrun)
    as [Hdone [Hget [_ [Hcontent [_ [_ [_ [_ Hstore]]]]]]]].
  exists t, w'. repeat split; trivial.
  all: apply Hstore; exact taskStoreOk_tidyWorld.
Defined.

(** Alice's open tasks of 2025-11-03: two of the three that day. *)
Lemma queryTasks_pending_witness :
  exists l,
    queryTasks (Some "u1") (Some "2025-11-03") busyWorld = (Ok l, busyWorld)
    /\ l = pendingOn "u1" "2025-11-03" busyWorld
    /\ map task_id l = ["t0"; "t3"].
Proof.
  destruct (queryTasks (Some "u1") (Some "2025-11-03") busyWorld) as [out w'] eqn:Hrun.
  destruct (queryTasks_pending _ _ _ _ _ Hrun) as [-> Hout].
  assert (Hok : exists l, out = Ok l).
  { vm_compute in Hrun. inversion Hrun. eexists. reflexivity. }
  destruct Hok as [l ->].
  destruct Hout as [userId [day [Hu [Hd [_ Hl]]]]].
  injection Hu as <-. injection Hd as <-.
  exists l. split; trivial. split; trivial. rewrite Hl. reflexivity.
Defined.

(** The thesis has four tasks of 2 hours, one of them done. *)
Lemma goal_metrics_sums_witness :
  exists m,
    getGoalMetrics (Some "u1") "g1" busyWorld = (Ok ("g1", m), busyWorld)
    /\ totalTaskHours m = 8%float
    /\ doneTaskHours m = 2%float.
Proof.
  destruct (getGoalMetrics (Some "u1") "g1" busyWorld) as [out w'] eqn:Hrun.
  assert (Hok : exists m, out = Ok ("g1", m)).
  { vm_compute in Hrun. inversion Hrun. eexists. reflexivity. }
  destruct Hok as [m ->].
  destruct (goal_metrics_sums _ _ _ _ _ _ Hrun) as [-> [_ [_ [Htotal Hdone]]]].
  exists m. split; trivial. split.
  - rewrite Htotal. vm_compute. reflexivity.
  - rewrite Hdone. vm_compute. reflexivity.
Defined.

(** Alice's goals, the thesis before the paused one. *)
Lemma getGoals_listing_witness :
  exists l,
    getGoals (Some "u1") None pausedWorld = (Ok l, pausedWorld)
    /\ map (fun entry => sg_id (fst entry)) l = ["g1"; "g2"]
    /\ Forall (fun entry => sg_minHoursPerWeek (fst entry) = None) l.
Proof.
  destruct (getGoals (Some "u1") None pausedWorld) as [out w'] eqn:Hrun.
  assert (Hok : exists l, out = Ok l /\ map (fun entry => sg_id (fst entry)) l = ["g1"; "g2"]).
  { vm_compute in Hrun. inversion Hrun. eexists. split; reflexivity. }
  destruct Hok as [l [-> Hids]].
  destruct (getGoals_listing _ _ _ _ _ Hrun) as [-> [userId [status [listed H]]]].
  destruct H as [_ [_ [_ [_ Hshows]]]].
  exists l. split; trivial. split; trivial.
  clear Hrun Hids. induction Hshows as [|g entry gs es Hshow _ IH]; constructor; trivial.
  apply Hshow.
Defined.

(** A milestone under M1 of the thesis. *)
Lemma postGoalMilestone_keeps_parents_witness :
  exists created w',
    postGoalMilestone (scenarioRuntime None) (Some "u1") "g1" (Some childMilestoneBody)
      busyWorld = (Ok created, w')
    /\ ms_parentMilestoneId created = Some "m1"
    /\ ms_goalId created = "g1"
    /\ parentsInGoal w'.
Proof.
  destruct (postGoalMilestone (scenarioRuntime None) (Some "u1") "g1"
              (Some childMilestoneBody) busyWorld) as [out w'] eqn:Hrun.
  assert (Hok : exists created, out = Ok created
                                /\ ms_parentMilestoneId created = Some "m1").
  { vm_compute in Hrun. inversion Hrun. eexists. split; reflexivity. }
  destruct Hok as [created [-> Hparent]].
  destruct (postGoalMilestone_keeps_parents _ _ _ _ _ _ _ parentsInGoal_busyWorld Hrun)
    as [Hinv Hcreated].
  destruct (Hcreated created eq_refl) as [Hgoal _].
  exists created, w'. repeat split; trivial.
Defined.
